(** * gpt_reviewer: a shallow embedding of [src/gpt_reviewer/__main__.py]

    The program is one linear pipeline: read a source file and number its
    lines ([get_file]), ask a remote chat model for a review in XML
    ([get_review]), render the XML into an HTML report
    ([add_content_to_html]) and write it to disk ([generate_report]).

    Python values are modelled as follows.
    - [str] is [string]: a text is held in its UTF-8 encoding, one
      character of the [string] per byte.  The operations the program
      uses on texts (concatenation, splitting at ["\n"] or ["/"],
      prefixes in ASCII) are the same on the encoding as on the text.
      [None] where a string may be absent is [option].
    - An exception is a value of [exn]; a function that can raise returns
      in [result] (pure code) or in the monad [M] (code with effects).
    - The file system, the logger and the network are fields of [world],
      threaded through [M]; an exception keeps the effects done before it.
    - A path is the string the program passes to the operating system,
      resolved component by component as POSIX does; files are read and
      written in UTF-8, the locale encoding.
    - The XML parser and the remote service are library code and are
      parameters of the development (Section [Pipeline]). *)

From Stdlib Require Import Ascii String Decimal DecimalString.
From Stdlib Require DecimalNat.
From stdpp Require Import gmap strings list.

(** ** Python strings *)

Module PyStr.

Definition LF : ascii := "010"%char.
Definition CR : ascii := "013"%char.
Definition SLASH : ascii := "/"%char.
Definition NUL : ascii := "000"%char.

(** [str(n)] for a non-negative [int]: the decimal numeral. *)
Definition str_int (n : nat) : string :=
  NilEmpty.string_of_uint (Nat.to_uint n).

(** [''.join(l)]. *)
Definition join_empty (l : list string) : string :=
  foldr String.append "" l.

(** [sep.join(l)]. *)
Fixpoint join (sep : string) (l : list string) : string :=
  match l with
  | [] => ""
  | [x] => x
  | x :: xs => x +:+ sep +:+ join sep xs
  end.

(** [s.split(sep)] for a one-character separator: never empty. *)
Fixpoint split (sep : ascii) (s : string) : list string :=
  match s with
  | "" => [""]
  | String c rest =>
      if decide (c = sep) then "" :: split sep rest
      else match split sep rest with
           | [] => [String c ""]
           | w :: ws => String c w :: ws
           end
  end.

(** [s.startswith(p)]. *)
Fixpoint startswith (p s : string) : bool :=
  match p, s with
  | "", _ => true
  | String a p', String b s' => bool_decide (a = b) && startswith p' s'
  | String _ _, "" => false
  end.

(** [s.endswith("/")]. *)
Fixpoint endswith_slash (s : string) : bool :=
  match s with
  | "" => false
  | String c "" => bool_decide (c = SLASH)
  | String _ rest => endswith_slash rest
  end.

(** [s] without the prefix [p], when [p] is a prefix of it. *)
Fixpoint drop_prefix (p s : string) : option string :=
  match p, s with
  | "", _ => Some s
  | String a p', String b s' =>
      if decide (a = b) then drop_prefix p' s' else None
  | String _ _, "" => None
  end.

(** [p] occurs in [s] (Python's [p in s]). *)
Definition substring (p s : string) : Prop :=
  ∃ before after, s = before +:+ p +:+ after.

(** Text mode with the default [newline=None]: on input every ["\r\n"]
    and every lone ["\r"] is read as ["\n"]. *)
Fixpoint universal_newlines (raw : string) : string :=
  match raw with
  | "" => ""
  | String c rest =>
      if decide (c = CR) then
        match rest with
        | String c' rest' =>
            if decide (c' = LF) then String LF (universal_newlines rest')
            else String LF (universal_newlines rest)
        | "" => String LF ""
        end
      else String c (universal_newlines rest)
  end.

(** The lines of a text, each with its terminating ["\n"] (the last one
    may lack it), as [file.readlines()] and iteration over a file give
    them. *)
Fixpoint lines_keepends (text : string) : list string :=
  match text with
  | "" => []
  | String c rest =>
      if decide (c = LF) then String c "" :: lines_keepends rest
      else match lines_keepends rest with
           | [] => [String c ""]
           | l :: ls => String c l :: ls
           end
  end.

(** *** UTF-8 *)

(** The byte [c] lies between [lo] and [hi]. *)
Definition between (lo hi : N) (c : ascii) : bool :=
  (lo <=? N_of_ascii c)%N && (N_of_ascii c <=? hi)%N.

(** A continuation byte, [0x80] to [0xBF]. *)
Definition continuation : ascii → bool := between 128 191.

(** The first two bytes of a character of three bytes: no overlong
    form and no surrogate. *)
Definition lead3 (b0 b1 : ascii) : bool :=
  between 224 224 b0 && between 160 191 b1
  || between 225 236 b0 && continuation b1
  || between 237 237 b0 && between 128 159 b1
  || between 238 239 b0 && continuation b1.

(** The first two bytes of a character of four bytes: no overlong
    form and nothing above [U+10FFFF]. *)
Definition lead4 (b0 b1 : ascii) : bool :=
  between 240 240 b0 && between 144 191 b1
  || between 241 243 b0 && continuation b1
  || between 244 244 b0 && between 128 143 b1.

(** The bytes are the UTF-8 encoding of a text: what the strict
    decoder of [open(path, 'r')] accepts. *)
Fixpoint utf8_valid (raw : string) : bool :=
  match raw with
  | "" => true
  | String b0 s1 =>
      if between 0 127 b0 then utf8_valid s1
      else
        match s1 with
        | "" => false
        | String b1 s2 =>
            if between 194 223 b0 then continuation b1 && utf8_valid s2
            else
              match s2 with
              | "" => false
              | String b2 s3 =>
                  if lead3 b0 b1 then continuation b2 && utf8_valid s3
                  else
                    match s3 with
                    | "" => false
                    | String b3 s4 =>
                        lead4 b0 b1 && continuation b2 && continuation b3
                        && utf8_valid s4
                    end
              end
        end
  end.

(** *** Lines, as predicates *)

(** No line feed in the string. *)
Fixpoint no_lf (s : string) : Prop :=
  match s with
  | "" => True
  | String c s' => c ≠ LF ∧ no_lf s'
  end.

(** A line with its terminator. *)
Definition terminated (s : string) : Prop :=
  ∃ body, no_lf body ∧ s = body +:+ String LF "".

(** A last line without terminator. *)
Definition unterminated (s : string) : Prop := no_lf s ∧ s ≠ "".

(** What [lines_keepends] returns: terminated lines, the last one
    possibly unterminated. *)
Fixpoint proper_lines (ls : list string) : Prop :=
  match ls with
  | [] => True
  | [s] => terminated s ∨ unterminated s
  | s :: ls' => terminated s ∧ proper_lines ls'
  end.

End PyStr.

Import PyStr.

(** ** Exceptions and the two monads *)

(** [FileNotFoundError] carries its message when the program raises it,
    and the path when the system does. *)
Inductive exn : Type :=
  | FileNotFoundError (msg : string)
  | FileExistsError
  | NotADirectoryError
  | IsADirectoryError
  | ParseError
  | TypeError
  | AttributeError
  | IndexError
  | OpenAIError
  | UnicodeDecodeError
  | ValueError
  | RecursionError.

#[global] Instance exn_eq_dec : EqDecision exn.
Proof. solve_decision. Defined.

(** Pure code that may raise. *)
Definition result (A : Type) : Type := exn + A.

Definition is_ok {A} (r : result A) : Prop := ∃ a, r = inr a.
Definition is_error {A} (r : result A) : Prop := ∃ e, r = inl e.

#[global] Instance result_ret : MRet result := λ A a, inr a.
#[global] Instance result_bind : MBind result := λ A B k r,
  match r with
  | inl e => inl e
  | inr a => k a
  end.
#[global] Instance result_fmap : FMap result := λ A B f r,
  match r with
  | inl e => inl e
  | inr a => inr (f a)
  end.

(** A [for] loop whose body may raise: the accumulator is the loop's
    mutable variable. *)
Fixpoint for_each {A S} (items : list A) (body : S → A → result S) (acc : S)
  : result S :=
  match items with
  | [] => inr acc
  | x :: rest => acc' ← body acc x; for_each rest body acc'
  end.

(** ** The file system

    POSIX, without symbolic links or permissions.  The entries are kept
    by absolute path, a list of names from the root [[]], which is a
    directory that is always there.  The process has a working
    directory.  A path string is resolved as the system resolves it:
    component by component, through directories that exist. *)

Inductive node : Type :=
  | File (raw : string)
  | Dir.

#[global] Instance node_eq_dec : EqDecision node.
Proof. solve_decision. Defined.

Module Path.

(** The loop of [posixpath.normpath] over the components. *)
Definition norm_step (initial_slashes : nat) (new_comps : list string)
    (comp : string) : list string :=
  if bool_decide (comp = "" ∨ comp = ".") then new_comps
  else if bool_decide (comp ≠ ".."
                       ∨ (initial_slashes = 0 ∧ new_comps = [])
                       ∨ (new_comps ≠ [] ∧ last new_comps = Some ".."))
  then new_comps ++ [comp]
  else removelast new_comps.

Definition initial_slashes (path : string) : nat :=
  if startswith "/" path then
    if startswith "//" path && negb (startswith "///" path) then 2 else 1
  else 0.

Definition norm_comps (path : string) : list string :=
  foldl (norm_step (initial_slashes path)) [] (split SLASH path).

(** [os.path.normpath]. *)
Definition normpath (path : string) : string :=
  if decide (path = "") then "."
  else
    let path' :=
      join_empty (replicate (initial_slashes path) "/")
        +:+ join "/" (norm_comps path) in
    if decide (path' = "") then "." else path'.

(** [os.path.join(a, b)] for two arguments. *)
Definition join (a b : string) : string :=
  if startswith "/" b then b
  else if bool_decide (a = "") || endswith_slash a then a +:+ b
  else a +:+ "/" +:+ b.

(** [(p[:i], p[i:])] for [i = p.rfind('/') + 1]. *)
Fixpoint rpartition (p : string) : string * string :=
  match p with
  | "" => ("", "")
  | String c rest =>
      let (head, tail) := rpartition rest in
      if bool_decide (head = "") then
        if bool_decide (c = SLASH) then (String c "", rest)
        else ("", String c rest)
      else (String c head, tail)
  end.

(** [s.rstrip('/')]. *)
Fixpoint rstrip (s : string) : string :=
  match s with
  | "" => ""
  | String c rest =>
      match rstrip rest with
      | "" => if bool_decide (c = SLASH) then "" else String c ""
      | rest' => String c rest'
      end
  end.

(** [os.path.split]: the head loses its trailing slashes unless it is
    made of slashes only. *)
Definition split (p : string) : string * string :=
  let (head, tail) := rpartition p in
  (if bool_decide (head ≠ "" ∧ rstrip head ≠ "") then rstrip head else head,
   tail).

(** No slash in the string. *)
Fixpoint no_slash (s : string) : bool :=
  match s with
  | "" => true
  | String c s' => negb (bool_decide (c = SLASH)) && no_slash s'
  end.

(** A null character in the string. *)
Fixpoint has_nul (s : string) : bool :=
  match s with
  | "" => false
  | String c s' => bool_decide (c = NUL) || has_nul s'
  end.

(** A file name: one component, neither empty nor a dot name. *)
Definition file_name (s : string) : bool :=
  no_slash s && negb (has_nul s)
  && negb (bool_decide (s = "" ∨ s = "." ∨ s = "..")).

End Path.

Record files : Type := Files {
  entries : gmap (list string) node;  (* by absolute path *)
  cwd : list string                   (* the working directory *)
}.

Module FS.

Definition lookup (fs : files) (p : list string) : option node :=
  if bool_decide (p = []) then Some Dir else entries fs !! p.

Definition put (p : list string) (n : node) (fs : files) : files :=
  Files (<[p := n]> (entries fs)) (cwd fs).

(** Every entry is in a directory. *)
Definition well_formed (fs : files) : Prop :=
  map_Forall (λ p _, lookup fs (removelast p) = Some Dir) (entries fs).

#[global] Instance well_formed_dec fs : Decision (well_formed fs).
Proof. unfold well_formed. apply _. Defined.

(** Where the resolution of a path starts. *)
Definition start (fs : files) (path : string) : list string :=
  if startswith "/" path then [] else cwd fs.

(** The resolution of the components [comps] from the directory
    [cur]: each component is looked up in a directory that is there;
    an empty component and ["."] stay, [".."] goes up. *)
Fixpoint walk (fs : files) (path : string) (cur : list string)
    (comps : list string) : result (list string) :=
  match comps with
  | [] => inr cur
  | comp :: rest =>
      match lookup fs cur with
      | None => inl (FileNotFoundError path)
      | Some (File _) => inl NotADirectoryError
      | Some Dir =>
          walk fs path
            (if bool_decide (comp = "" ∨ comp = ".") then cur
             else if bool_decide (comp = "..") then removelast cur
             else cur ++ [comp])
            rest
      end
  end.

(** The place a path denotes; the entry itself need not be there. *)
Definition resolve (fs : files) (path : string) : result (list string) :=
  if Path.has_nul path then inl ValueError
  else if bool_decide (path = "") then inl (FileNotFoundError path)
  else walk fs path (start fs path) (PyStr.split SLASH path).

(** [os.stat]. *)
Definition stat (fs : files) (path : string) : result node :=
  p ← resolve fs path;
  match lookup fs p with
  | Some n => inr n
  | None => inl (FileNotFoundError path)
  end.

(** [os.path.exists]: false whenever [os.stat] raises. *)
Definition exists_ (fs : files) (path : string) : bool :=
  match stat fs path with
  | inr _ => true
  | inl _ => false
  end.

(** [os.path.isfile]. *)
Definition isfile (fs : files) (path : string) : bool :=
  match stat fs path with
  | inr (File _) => true
  | _ => false
  end.

(** [os.path.isdir]. *)
Definition isdir (fs : files) (path : string) : bool :=
  match stat fs path with
  | inr Dir => true
  | _ => false
  end.

(** The strict UTF-8 decoder of a file opened in text mode. *)
Definition decode (raw : string) : result string :=
  if utf8_valid raw then inr raw else inl UnicodeDecodeError.

(** [open(path, 'r')] followed by [read()]: the text of the file. *)
Definition read_text (fs : files) (path : string) : result string :=
  n ← stat fs path;
  match n with
  | File raw => universal_newlines <$> decode raw
  | Dir => inl IsADirectoryError
  end.

(** The components without the empty ones that trailing slashes
    give. *)
Fixpoint rstrip_empty (comps : list string) : list string :=
  match comps with
  | [] => []
  | comp :: rest =>
      match rstrip_empty rest with
      | [] => if bool_decide (comp = "") then [] else [comp]
      | rest' => comp :: rest'
      end
  end.

(** [os.mkdir]: the parent is resolved, and the last name is made a
    directory in it when nothing of that name is there. *)
Definition mkdir (path : string) (fs : files) : result () * files :=
  if Path.has_nul path then (inl ValueError, fs)
  else if bool_decide (path = "") then (inl (FileNotFoundError path), fs)
  else
    let comps := rstrip_empty (PyStr.split SLASH path) in
    match last comps with
    | None => (inl FileExistsError, fs)
    | Some name =>
        match walk fs path (start fs path) (removelast comps) with
        | inl e => (inl e, fs)
        | inr parent =>
            match lookup fs parent with
            | None => (inl (FileNotFoundError path), fs)
            | Some (File _) => (inl NotADirectoryError, fs)
            | Some Dir =>
                if bool_decide (name = "." ∨ name = "..")
                then (inl FileExistsError, fs)
                else
                  match lookup fs (parent ++ [name]) with
                  | Some _ => (inl FileExistsError, fs)
                  | None => (inr (), put (parent ++ [name]) Dir fs)
                  end
            end
        end
    end.

(** [os.makedirs(name)], with [exist_ok] false.  The recursion is on
    the head of the path, which is shorter than the path: [fuel] bounds
    its depth, and fuel above the length of the path never runs out
    ([makedirs_fuel_enough]). *)
Fixpoint makedirs_fuel (fuel : nat) (name : string) (fs : files)
  : result () * files :=
  match fuel with
  | 0 => (inl RecursionError, fs)
  | S fuel =>
      let (head, tail) := Path.split name in
      let (head, tail) :=
        if bool_decide (tail = "") then Path.split head else (head, tail) in
      if bool_decide (head ≠ "" ∧ tail ≠ "") && negb (exists_ fs head) then
        match makedirs_fuel fuel head fs with
        | (inr (), fs') | (inl FileExistsError, fs') =>
            if bool_decide (tail = ".") then (inr (), fs')
            else mkdir name fs'
        | (inl e, fs') => (inl e, fs')
        end
      else mkdir name fs
  end.

Definition makedirs (name : string) (fs : files) : result () * files :=
  makedirs_fuel (S (String.length name)) name fs.

(** [open(path, 'w')], [write(text)] and close: the file is created or
    truncated, then holds [text]. *)
Definition write_text (path text : string) (fs : files)
  : result () * files :=
  if Path.has_nul path then (inl ValueError, fs)
  else if bool_decide (path = "") then (inl (FileNotFoundError path), fs)
  else
    let comps := rstrip_empty (PyStr.split SLASH path) in
    match last comps with
    | None => (inl IsADirectoryError, fs)
    | Some name =>
        match walk fs path (start fs path) (removelast comps) with
        | inl e => (inl e, fs)
        | inr parent =>
            match lookup fs parent with
            | None => (inl (FileNotFoundError path), fs)
            | Some (File _) => (inl NotADirectoryError, fs)
            | Some Dir =>
                if endswith_slash path
                   || bool_decide (name = "." ∨ name = "..")
                then (inl IsADirectoryError, fs)
                else
                  match lookup fs (parent ++ [name]) with
                  | Some Dir => (inl IsADirectoryError, fs)
                  | _ => (inr (), put (parent ++ [name]) (File text) fs)
                  end
            end
        end
    end.

End FS.

(** ** The world: file system, logger, network *)

Inductive level : Type := DEBUG | INFO | ERROR.

Definition levelno (l : level) : nat :=
  match l with
  | DEBUG => 10
  | INFO => 20
  | ERROR => 40
  end.

Record message : Type := Message { role : string; content : string }.

Record request : Type := Request { model : string; messages : list message }.

Record world : Type := World {
  w_fs : files;                       (* the disk *)
  w_level : level;                    (* the root logger's level *)
  w_log : list (level * string);      (* records emitted, oldest first *)
  w_requests : list request           (* chat requests sent, oldest first *)
}.

Definition set_fs (fs : files) (w : world) : world :=
  World fs (w_level w) (w_log w) (w_requests w).

(** Code with effects: it runs in a world and leaves a world, also when
    it raises. *)
Definition M (A : Type) : Type := world → result A * world.

#[global] Instance M_ret : MRet M := λ A a w, (inr a, w).
#[global] Instance M_bind : MBind M := λ A B k m w,
  match m w with
  | (inl e, w') => (inl e, w')
  | (inr a, w') => k a w'
  end.

Definition raise {A} (e : exn) : M A := λ w, (inl e, w).

Definition lift {A} (r : result A) : M A := λ w, (r, w).

(** *** Logging *)

Definition logger_setLevel (l : level) : M unit := λ w,
  (inr (), World (w_fs w) l (w_log w) (w_requests w)).

Definition logger_log (l : level) (msg : string) : M unit := λ w,
  (inr (),
   if levelno (w_level w) <=? levelno l
   then World (w_fs w) (w_level w) (w_log w ++ [(l, msg)]) (w_requests w)
   else w).

Definition logger_debug := logger_log DEBUG.
Definition logger_info := logger_log INFO.
Definition logger_error := logger_log ERROR.

(** *** The [os] and [open] calls *)

Definition os_path_isfile (path : string) : M bool := λ w,
  (inr (FS.isfile (w_fs w) path), w).

Definition os_path_exists (path : string) : M bool := λ w,
  (inr (FS.exists_ (w_fs w) path), w).

(** A change of the disk, in the world. *)
Definition on_fs {A} (op : files → result A * files) : M A := λ w,
  let (r, fs') := op (w_fs w) in (r, set_fs fs' w).

Definition os_makedirs (path : string) : M unit :=
  on_fs (FS.makedirs path).

(** [with open(path, 'r') as file: file.readlines()]. *)
Definition open_readlines (path : string) : M (list string) := λ w,
  (lines_keepends <$> FS.read_text (w_fs w) path, w).

(** [with open(path, 'r') as file: file.read()]. *)
Definition open_read (path : string) : M string := λ w,
  (FS.read_text (w_fs w) path, w).

(** [with open(path, 'w') as file: file.write(text)]. *)
Definition open_write (path text : string) : M unit :=
  on_fs (FS.write_text path text).

(** ** File Loader *)

Definition get_file (file_path : string) : M string :=
  let normalized_path := Path.normpath file_path in
  isfile ← os_path_isfile normalized_path;
  if negb isfile then
    logger_error ("File " +:+ normalized_path +:+ " not found");;
    raise (FileNotFoundError ("File " +:+ normalized_path +:+ " not found"))
  else
    lines ← open_readlines normalized_path;
    let file_content_with_line_numbers :=
      join_empty (imap (λ i line, str_int (i + 1) +:+ ": " +:+ line) lines) in
    logger_info ("File " +:+ normalized_path +:+ " loaded");;
    mret file_content_with_line_numbers.

(** ** Review documents: [xml.etree.ElementTree] elements *)

#[warnings="-register-all"]
Inductive Element : Type :=
  Elem { tag : string; text : option string; children : list Element }.

(** [e.find(name)] for a plain tag name: the first child with that tag,
    [None] when there is none. *)
Definition find (e : Element) (name : string) : option Element :=
  List.find (λ child, bool_decide (tag child = name)) (children e).

(** [for child in group]: [group] may be [None], which is not iterable. *)
Definition iter (group : option Element) : result (list Element) :=
  match group with
  | Some g => inr (children g)
  | None => inl TypeError
  end.

(** [e.text] where [e] may be [None]. *)
Definition text_attr (e : option Element) : result (option string) :=
  match e with
  | Some e => inr (text e)
  | None => inl AttributeError
  end.

(** [f"{v}"] for a value that is a string or [None]. *)
Definition format (v : option string) : string := default "None" v.

(** ** Report Renderer *)

Definition add_content_to_html (html_template : string) (root : Element)
  : result string :=
  let html_report := html_template in
  let html_report := html_report +:+ "<h2>General Observations</h2><ul>" in
  observations ← iter (find root "GeneralObservations");
  html_report ← for_each observations (λ html_report observation,
    mret (html_report +:+ "<li>" +:+ format (text observation) +:+ "</li>"))
    html_report;
  let html_report := html_report +:+ "</ul>" in
  let html_report := html_report +:+ "<h2>Specific Comments</h2><ul>" in
  comments ← iter (find root "SpecificComments");
  html_report ← for_each comments (λ html_report comment,
    location ← text_attr (find comment "Location");
    feedback ← text_attr (find comment "Feedback");
    mret (html_report +:+ "<li><strong>" +:+ format location +:+ ":</strong> "
            +:+ format feedback +:+ "</li>"))
    html_report;
  let html_report := html_report +:+ "</ul>" in
  let html_report := html_report +:+ "<h2>Improvement Suggestions</h2><ul>" in
  suggestions ← iter (find root "ImprovementSuggestions");
  html_report ← for_each suggestions (λ html_report suggestion,
    mret (html_report +:+ "<li>" +:+ format (text suggestion) +:+ "</li>"))
    html_report;
  let html_report := html_report +:+ "</ul>" in
  let html_report := html_report +:+ "</div></body></html>" in
  mret html_report.

(** ** The pipeline

    Library code the program calls is a parameter here: the XML parser,
    the client constructor, the remote service, and the directory the
    module is installed in. *)

Inductive OpenAI : Type := Client.

Record args : Type := Args {
  input_file : string;
  output_path : string;
  verbose : bool
}.

Section Pipeline.

(** [ET.fromstring]: [None] when the text is not well-formed XML. *)
Variable fromstring : string → option Element.

(** [OpenAI()]: the client, or the exception the constructor raises. *)
Variable OpenAI_new : result OpenAI.

(** The remote service: the texts of the choices it answers a request
    with, [None] when the request fails. *)
Variable service : request → option (list string).

(** [os.path.dirname(__file__)]. *)
Variable module_dir : string.

Definition ET_fromstring (text : string) : M Element :=
  match fromstring text with
  | Some root => mret root
  | None => raise ParseError
  end.

(** [client.chat.completions.create(model=..., messages=...)]: one
    request goes out, whatever comes back. *)
Definition chat_completions_create (client : OpenAI) (model : string)
    (messages : list message) : M (list string) := λ w,
  let req := Request model messages in
  (match service req with
   | Some choices => inr choices
   | None => inl OpenAIError
   end,
   World (w_fs w) (w_level w) (w_log w) (w_requests w ++ [req])).

(** ** Review Requester *)

Definition xml_template : string := "
    <CodeReview>
        <GeneralObservations>
            <Observation>
                General observations about the code's structure, style, programming practices, etc.
            </Observation>
            <!-- Additional general observations can be added here -->
        </GeneralObservations>
        <SpecificComments>
            <Comment>
                <Location> Specify the particular line or section of the code </Location>
                <Feedback>
                    Detailed comment regarding the specific line or section of the code
                </Feedback>
            </Comment>
            <!-- Additional specific comments can be added here -->
        </SpecificComments>
        <ImprovementSuggestions>
            <Suggestion>
                Specific suggestions for improving the code
            </Suggestion>
            <!-- Additional suggestions for improvements can be added here -->
        </ImprovementSuggestions>
    </CodeReview>
    ".

Definition get_review (file_content : string) (open_ai_instance : OpenAI)
  : M string :=
  let language := "English" in
  completion ← chat_completions_create open_ai_instance "gpt-3.5-turbo"
    [ Message "system"
        ("You are a program that reviews code and returns feedback in the specified XML format.I ncluding specific examples of issues. Please use the provided XML template for your response. The language of the review should be: "
           +:+ language +:+ ". The XML template is: ```" +:+ xml_template
           +:+ "```");
      Message "user" file_content ];
  match completion with
  | choice :: _ => mret choice
  | [] => raise IndexError
  end.

(** ** Report Renderer and Writer *)

Definition generate_report (review output_dir : string) : M unit :=
  root ← ET_fromstring review;
  let html_template_path :=
    Path.join (Path.join module_dir "templates")
      "code_review_template.html" in
  html_template ← open_read html_template_path;
  final_report ← lift (add_content_to_html html_template root);
  dir_exists ← os_path_exists output_dir;
  (if negb dir_exists then os_makedirs output_dir else mret ());;
  let output_file := Path.join output_dir "code_review.html" in
  open_write output_file final_report;;
  logger_info ("Report saved in " +:+ output_file).

(** ** Entry Point *)

Definition main (input_file output_dir : string) : M unit :=
  logger_info "Creating OpenAI client";;
  open_ai_client ← lift OpenAI_new;
  logger_info "Getting file content";;
  file_content ← get_file input_file;
  logger_info "Getting review";;
  review ← get_review file_content open_ai_client;
  logger_info "Generating report";;
  generate_report review output_dir;;
  logger_info "Done".

(** The module run as a script, after [parser.parse_args()]: the
    logger starts at [INFO] (module level, lines 9 to 15). *)
Definition script (a : args) : M unit :=
  logger_setLevel INFO;;
  (if verbose a then
     logger_setLevel DEBUG;;
     logger_debug "Verbose mode activated"
   else mret ());;
  main (input_file a) (output_path a).

End Pipeline.

(** ** Vocabulary of the specification

    Definitions that follow the specification's words, to state its
    claims about the code above. *)

(** Modelled from the spec: the lines of a file content, in order.
    Each line is its text and its line end: ["\n"], ["\r\n"], ["\r"],
    or nothing for a last line that the file does not end. *)
Fixpoint file_lines (content : string) : list (string * string) :=
  match content with
  | "" => []
  | String c rest =>
      if decide (c = LF) then ("", String LF "") :: file_lines rest
      else if decide (c = CR) then
        match rest with
        | String c' rest' =>
            if decide (c' = LF)
            then ("", String CR (String LF "")) :: file_lines rest'
            else ("", String CR "") :: file_lines rest
        | "" => [("", String CR "")]
        end
      else
        match file_lines rest with
        | [] => [(String c "", "")]
        | (line, line_end) :: lines => (String c line, line_end) :: lines
        end
  end.

(** Neither a carriage return nor a line feed in the string. *)
Fixpoint no_line_end (s : string) : Prop :=
  match s with
  | "" => True
  | String c s' => c ≠ LF ∧ c ≠ CR ∧ no_line_end s'
  end.

(** No carriage return in the string. *)
Fixpoint no_cr (s : string) : Prop :=
  match s with
  | "" => True
  | String c s' => c ≠ CR ∧ no_cr s'
  end.

(** Modelled from the spec: the text of a line holds no line end, and
    its line end is one of the three, or nothing after a last line
    that is not empty. *)
Definition line_ok (line : string * string) : Prop :=
  no_line_end line.1
  ∧ (line.2 = String LF "" ∨ line.2 = String CR (String LF "")
     ∨ line.2 = String CR "" ∨ (line.2 = "" ∧ line.1 ≠ "")).

(** Modelled from the spec: a line of the file as it is read in text
    mode: its line end, if it has one, is ["\n"]. *)
Definition read_line (line : string * string) : string :=
  line.1 +:+ (if decide (line.2 = "") then "" else String LF "").

(** Modelled from the spec: the value of a decimal digit. *)
Definition digit_value (c : ascii) : option nat :=
  if between 48 57 c then Some (N.to_nat (N_of_ascii c) - 48) else None.

(** Modelled from the spec: the number a string of decimal digits
    denotes, read from the left after the digits of [acc]. *)
Fixpoint numeral_value (acc : nat) (s : string) : option nat :=
  match s with
  | "" => Some acc
  | String c s' => d ← digit_value c; numeral_value (10 * acc + d) s'
  end.

(** Modelled from the spec: [s] is the decimal numeral of [n], as
    ["{n}"] writes it: digits only, at least one, no leading zero. *)
Definition decimal (n : nat) (s : string) : Prop :=
  s ≠ "" ∧ (startswith "0" s = true → s = "0") ∧ numeral_value 0 s = Some n.

(** Modelled from the spec: the prefixed line ["{numeral}: {line}"] of
    a line of the file; a line end of the file is read as ["\n"]. *)
Definition numbered_line (numeral : string) (line : string * string)
  : string :=
  numeral +:+ ": " +:+ line.1
    +:+ (if decide (line.2 = "") then "" else String LF "").

#[global] Instance decimal_dec n s : Decision (decimal n s).
Proof. unfold decimal. apply _. Defined.

(** Modelled from the spec: the decimal digits a string starts with,
    and what follows them. *)
Fixpoint span_digits (s : string) : string * string :=
  match s with
  | "" => ("", "")
  | String c s' =>
      if between 48 57 c then
        let (digits, rest) := span_digits s' in (String c digits, rest)
      else ("", s)
  end.

(** Modelled from the spec: the line without its prefix ["{n}: "]; a
    line that does not start with the numeral of [n], a colon and a
    space is left as it is. *)
Definition strip_number (n : nat) (line : string) : string :=
  let (digits, rest) := span_digits line in
  if decide (decimal n digits) then default line (drop_prefix ": " rest)
  else line.

(** Modelled from the spec: the numbered content split into its lines,
    each without the prefix ["{i+1}: "] of its position, joined
    again. *)
Definition strip_line_numbers (numbered : string) : string :=
  join_empty
    (imap (λ i line, strip_number (i + 1) line) (lines_keepends numbered)).

(** The group [name] of the review document [root] has the children
    [items]. *)
Definition group (root : Element) (name : string) (items : list Element)
  : Prop :=
  ∃ g, find root name = Some g ∧ children g = items.

(** The comment has a location and a feedback child, with these texts. *)
Definition comment_fields (comment : Element)
    (location feedback : option string) : Prop :=
  ∃ l f, find comment "Location" = Some l ∧ text l = location
         ∧ find comment "Feedback" = Some f ∧ text f = feedback.

(** The three-section shape: the three groups are there, and every
    comment has both children. *)
Definition well_formed (root : Element)
    (observations comments suggestions : list Element) : Prop :=
  group root "GeneralObservations" observations
  ∧ group root "SpecificComments" comments
  ∧ Forall (λ c, ∃ location feedback, comment_fields c location feedback)
      comments
  ∧ group root "ImprovementSuggestions" suggestions.

(** Some comment of the document lacks its location or its feedback. *)
Definition comment_lacks_child (root : Element) : Prop :=
  ∃ g comment, find root "SpecificComments" = Some g
    ∧ comment ∈ children g
    ∧ (find comment "Location" = None ∨ find comment "Feedback" = None).

(** The list item of an observation or a suggestion. *)
Definition text_item (e : Element) : string :=
  "<li>" +:+ format (text e) +:+ "</li>".

(** The list item of a comment with these texts. *)
Definition comment_item (location feedback : option string) : string :=
  "<li><strong>" +:+ format location +:+ ":</strong> " +:+ format feedback
    +:+ "</li>".

(** The items of the comments, in order. *)
Definition comment_items (comments : list Element) (items : list string)
  : Prop :=
  Forall2 (λ c item, ∃ location feedback,
             comment_fields c location feedback
             ∧ item = comment_item location feedback)
    comments items.

(** Modelled from the spec: what stands in the report for a text that
    may be absent: the text itself, or the word [None]. *)
Definition shown (t : option string) (s : string) : Prop :=
  match t with
  | Some x => s = x
  | None => s = "None"
  end.

(** Modelled from the spec: [item] is the list item of the observation
    or suggestion [e]. *)
Definition item_of_text (e : Element) (item : string) : Prop :=
  match text e with
  | Some s => item = "<li>" +:+ s +:+ "</li>"
  | None => item = "<li>None</li>"
  end.

(** Modelled from the spec: [item] is the list item of the comment
    [c]: the text of its location in bold, a colon, the text of its
    feedback. *)
Definition item_of_comment (c : Element) (item : string) : Prop :=
  ∃ l f location feedback,
    find c "Location" = Some l ∧ find c "Feedback" = Some f
    ∧ shown (text l) location ∧ shown (text f) feedback
    ∧ item = "<li><strong>" +:+ location +:+ ":</strong> " +:+ feedback
               +:+ "</li>".

(** The report: the template, the three sections in their order, the
    closing fragment. *)
Definition report (html_template : string)
    (observation_items comment_items suggestion_items : list string)
  : string :=
  html_template
    +:+ "<h2>General Observations</h2><ul>"
    +:+ join_empty observation_items +:+ "</ul>"
    +:+ "<h2>Specific Comments</h2><ul>"
    +:+ join_empty comment_items +:+ "</ul>"
    +:+ "<h2>Improvement Suggestions</h2><ul>"
    +:+ join_empty suggestion_items +:+ "</ul>"
    +:+ "</div></body></html>".

(** Neither the entry [p] nor one above it is a regular file. *)
Definition no_file_on_path (fs : files) (p : list string) : Prop :=
  ∀ q raw, q `prefix_of` p → FS.lookup fs q ≠ Some (File raw).

(** The same, as a test. *)
Definition no_file_on_path_test (fs : files) (p : list string) : bool :=
  forallb (λ n, match FS.lookup fs (take n p) with
                | Some (File _) => false
                | _ => true
                end)
    (seq 0 (S (length p))).

(** [fs'] is [fs] with some absent entries at or above [p] made
    directories. *)
Definition dirs_made (fs fs' : files) (p : list string) : Prop :=
  cwd fs' = cwd fs
  ∧ ∀ q, FS.lookup fs' q = FS.lookup fs q
         ∨ (q `prefix_of` p ∧ FS.lookup fs q = None
            ∧ FS.lookup fs' q = Some Dir).

(** The path string of the names [names], from the root when
    [absolute] and from the working directory otherwise. *)
Definition path_of (absolute : bool) (names : list string) : string :=
  (if absolute then "/" else "") +:+ join "/" names.

(** The output directory [output_dir], of the place [dir], can be
    used.  Either it is a directory.  Or it is absent and can be made:
    the path is made of plain names, no regular file is above it, and
    the working directory is there when the path starts from it. *)
Definition output_dir_usable (fs : files) (output_dir : string)
    (dir : list string) : Prop :=
  (FS.resolve fs output_dir = inr dir ∧ FS.lookup fs dir = Some Dir)
  ∨ ∃ absolute names,
      output_dir = path_of absolute names
      ∧ names ≠ []
      ∧ Forall (λ name, Path.file_name name = true) names
      ∧ dir = (if absolute then [] else cwd fs) ++ names
      ∧ FS.lookup fs (if absolute then [] else cwd fs) = Some Dir
      ∧ FS.lookup fs dir = None
      ∧ no_file_on_path fs dir.

(** Two worlds of a quiet and a verbose run: the same disk and the same
    requests, and logs that differ by the one debug line after [base]. *)
Definition quiet_loud (base : list (level * string)) (wq wl : world) : Prop :=
  w_fs wq = w_fs wl
  ∧ w_requests wq = w_requests wl
  ∧ w_level wq = INFO
  ∧ w_level wl = DEBUG
  ∧ ∃ records,
      w_log wq = base ++ records
      ∧ w_log wl = base ++ (DEBUG, "Verbose mode activated") :: records.

(** The computation does the same in a quiet and in a verbose world. *)
Definition level_blind (base : list (level * string)) {A} (m : M A) : Prop :=
  ∀ wq wl, quiet_loud base wq wl →
    (m wq).1 = (m wl).1 ∧ quiet_loud base (m wq).2 (m wl).2.

(** What a run of the Writer may change on the disk: an absent entry
    may become a directory, and an entry named [code_review.html] that
    is no directory may become a regular file; every other entry, and
    the working directory, stay as they are. *)
Definition report_footprint (fs fs' : files) : Prop :=
  cwd fs' = cwd fs
  ∧ ∀ q, FS.lookup fs' q = FS.lookup fs q
         ∨ (FS.lookup fs q = None ∧ FS.lookup fs' q = Some Dir)
         ∨ (last q = Some "code_review.html"
            ∧ FS.lookup fs q ≠ Some Dir
            ∧ ∃ html, FS.lookup fs' q = Some (File html)).

(** [w'] is [w] with more in the log, and nothing else changed. *)
Definition only_logged (w w' : world) : Prop :=
  w_fs w' = w_fs w
  ∧ w_requests w' = w_requests w
  ∧ w_level w' = w_level w
  ∧ w_log w `prefix_of` w_log w'.

(** The review cannot be rendered: its text does not parse, or the
    document has not the three-section shape. *)
Definition not_renderable (fromstring : string → option Element)
    (review : string) : Prop :=
  fromstring review = None
  ∨ ∃ root, fromstring review = Some root
      ∧ ¬ ∃ observations comments suggestions,
            well_formed root observations comments suggestions.

(** The system message of the requester (line 78 of the source, with
    [language] and [xml_template] filled in), and the request for a
    file content. *)
Definition system_prompt : string :=
  "You are a program that reviews code and returns feedback in the specified XML format.I ncluding specific examples of issues. Please use the provided XML template for your response. The language of the review should be: "
    +:+ "English" +:+ ". The XML template is: ```" +:+ xml_template
    +:+ "```".

Definition review_request (file_content : string) : request :=
  Request "gpt-3.5-turbo"
    [Message "system" system_prompt; Message "user" file_content].

(** ** A concrete installation

    A small disk, a parser that knows four review texts, and a service
    that always answers with the first of them: inputs to run the
    pipeline on. *)

Module Example.

Definition nl : string := String LF "".

(** A source file of two lines, the same with Windows line ends, and a
    file whose second line is no UTF-8. *)
Definition source : string := "a" +:+ nl +:+ "b" +:+ nl.
Definition source_crlf : string := "a" +:+ String CR nl +:+ "b".
Definition source_binary : string :=
  "ok" +:+ nl +:+ String "255" (String "254" nl).

Definition template : string := "<html><body><div>".

(** The program runs in [/work] and is installed in [/app]. *)
Definition disk : files :=
  Files
    (list_to_map
       [ (["work"], Dir);
         (["work"; "a.py"], File source);
         (["work"; "crlf.py"], File source_crlf);
         (["work"; "binary.py"], File source_binary);
         (["work"; "notes"], File "text");
         (["app"], Dir);
         (["app"; "templates"], Dir);
         (["app"; "templates"; "code_review_template.html"],
          File template) ])
    ["work"].

Definition start : world := World disk INFO [] [].

(** One observation, one comment, one suggestion. *)
Definition full_doc : Element :=
  Elem "CodeReview" None
    [ Elem "GeneralObservations" None
        [Elem "Observation" (Some "Good naming") []];
      Elem "SpecificComments" None
        [Elem "Comment" None
           [Elem "Location" (Some "Line 2") [];
            Elem "Feedback" (Some "Unused variable") []]];
      Elem "ImprovementSuggestions" None
        [Elem "Suggestion" (Some "Add tests") []] ].

(** The example of the specification: no comment. *)
Definition plain_doc : Element :=
  Elem "CodeReview" None
    [ Elem "GeneralObservations" None
        [Elem "Observation" (Some "Good naming") []];
      Elem "SpecificComments" None [];
      Elem "ImprovementSuggestions" None
        [Elem "Suggestion" (Some "Add tests") []] ].

(** Two observations, two comments, three suggestions. *)
Definition long_doc : Element :=
  Elem "CodeReview" None
    [ Elem "GeneralObservations" None
        [Elem "Observation" (Some "Good naming") [];
         Elem "Observation" (Some "Short functions") []];
      Elem "SpecificComments" None
        [Elem "Comment" None
           [Elem "Location" (Some "Line 2") [];
            Elem "Feedback" (Some "Unused variable") []];
         Elem "Comment" None
           [Elem "Location" (Some "Line 7") [];
            Elem "Feedback" None []]];
      Elem "ImprovementSuggestions" None
        [Elem "Suggestion" (Some "Add tests") [];
         Elem "Suggestion" None [];
         Elem "Suggestion" (Some "Add types") []] ].

(** An observation and a location without text. *)
Definition empty_text_doc : Element :=
  Elem "CodeReview" None
    [ Elem "GeneralObservations" None [Elem "Observation" None []];
      Elem "SpecificComments" None
        [Elem "Comment" None
           [Elem "Location" None [];
            Elem "Feedback" (Some "Unused variable") []]];
      Elem "ImprovementSuggestions" None [] ].

(** A comment without feedback. *)
Definition no_feedback_doc : Element :=
  Elem "CodeReview" None
    [ Elem "GeneralObservations" None [];
      Elem "SpecificComments" None
        [Elem "Comment" None [Elem "Location" (Some "Line 2") []]];
      Elem "ImprovementSuggestions" None [] ].

(** No group of suggestions. *)
Definition no_suggestions_doc : Element :=
  Elem "CodeReview" None
    [ Elem "GeneralObservations" None
        [Elem "Observation" (Some "Good naming") []];
      Elem "SpecificComments" None [] ].

Definition fromstring (text : string) : option Element :=
  if decide (text = "<full/>") then Some full_doc
  else if decide (text = "<plain/>") then Some plain_doc
  else if decide (text = "<no-feedback/>") then Some no_feedback_doc
  else if decide (text = "<no-suggestions/>") then Some no_suggestions_doc
  else None.

Definition service (req : request) : option (list string) :=
  Some ["<full/>"].

Definition module_dir : string := "/app".

Definition full_report : string :=
  "<html><body><div><h2>General Observations</h2><ul><li>Good naming</li></ul><h2>Specific Comments</h2><ul><li><strong>Line 2:</strong> Unused variable</li></ul><h2>Improvement Suggestions</h2><ul><li>Add tests</li></ul></div></body></html>".

Definition plain_report : string :=
  "<html><body><div><h2>General Observations</h2><ul><li>Good naming</li></ul><h2>Specific Comments</h2><ul></ul><h2>Improvement Suggestions</h2><ul><li>Add tests</li></ul></div></body></html>".

End Example.

(** ** More concrete inputs *)

Module Example2.

(** The disk of [Example] with an empty source file and an output
    directory in which [code_review.html] is a directory. *)
Definition disk : files :=
  FS.put ["work"; "empty.py"] (File "")
    (FS.put ["work"; "blocked"] Dir
       (FS.put ["work"; "blocked"; "code_review.html"] Dir Example.disk)).

Definition start : world := World disk INFO [] [].

(** [Example.full_doc] under another root tag, with a second group of
    observations and an unknown element after its children. *)
Definition full_doc_more : Element :=
  Elem "Review" (Some "text")
    (children Example.full_doc
       ++ [Elem "GeneralObservations" None
             [Elem "Observation" (Some "Not rendered") []];
           Elem "Unknown" None []]).

End Example2.

(** * Properties *)

(** ** Strings *)

Section StringFacts.

Implicit Types (s t u : string) (c : ascii) (ls : list string).

Lemma str_app_cons c s t : String c s +:+ t = String c (s +:+ t).
Proof. reflexivity. Qed.

Lemma str_app_nil_l s : "" +:+ s = s.
Proof. reflexivity. Qed.

Lemma str_app_nil_r s : s +:+ "" = s.
Proof. induction s as [|c s IH]; [done|]. by rewrite str_app_cons, IH. Qed.

Lemma str_app_assoc s t u : (s +:+ t) +:+ u = s +:+ t +:+ u.
Proof. induction s as [|c s IH]; [done|]. by rewrite !str_app_cons, IH. Qed.

Lemma join_empty_cons s ls : join_empty (s :: ls) = s +:+ join_empty ls.
Proof. reflexivity. Qed.

Lemma join_empty_app ls1 ls2 :
  join_empty (ls1 ++ ls2) = join_empty ls1 +:+ join_empty ls2.
Proof.
  induction ls1 as [|s ls1 IH]; [done|].
  by rewrite <- app_comm_cons, !join_empty_cons, IH, str_app_assoc.
Qed.

Lemma drop_prefix_app s t : drop_prefix s (s +:+ t) = Some t.
Proof.
  induction s as [|c s IH]; [by destruct t|].
  rewrite str_app_cons. simpl. by rewrite decide_True.
Qed.

Lemma substring_middle s t u : substring t (s +:+ t +:+ u).
Proof. by exists s, u. Qed.

Lemma substring_app_l p s t : substring p s → substring p (s +:+ t).
Proof.
  intros (a & b & ->). exists a, (b +:+ t). by rewrite !str_app_assoc.
Qed.

Lemma substring_app_r p s t : substring p t → substring p (s +:+ t).
Proof.
  intros (a & b & ->). exists (s +:+ a), b. by rewrite !str_app_assoc.
Qed.

Lemma substring_join_empty p s ls :
  s ∈ ls → substring p s → substring p (join_empty ls).
Proof.
  induction 1 as [s ls|s s' ls _ IH]; intros Hp; rewrite join_empty_cons.
  - by apply substring_app_l.
  - by apply substring_app_r, IH.
Qed.

(** *** Lines *)

Lemma no_lf_app s t : no_lf s → no_lf t → no_lf (s +:+ t).
Proof.
  induction s as [|c s IH]; [done|]. rewrite str_app_cons. simpl.
  intros [Hc Hs] Ht. auto.
Qed.

Lemma no_lf_string_of_uint (d : Decimal.uint) :
  no_lf (NilEmpty.string_of_uint d).
Proof. induction d; simpl; [done|split; [discriminate|done]..]. Qed.

Lemma no_lf_prefix (n : nat) : no_lf (str_int n +:+ ": ").
Proof.
  apply no_lf_app; [apply no_lf_string_of_uint|]. by compute.
Qed.

Lemma proper_lines_cons s ls :
  terminated s → proper_lines ls → proper_lines (s :: ls).
Proof. destruct ls; simpl; auto. Qed.

Lemma terminated_cons c s : c ≠ LF → terminated s → terminated (String c s).
Proof.
  intros Hc (body & Hb & ->). exists (String c body). by rewrite str_app_cons.
Qed.

Lemma lines_keepends_proper s : proper_lines (lines_keepends s).
Proof.
  induction s as [|c s IH]; [done|]. simpl.
  destruct (decide (c = LF)) as [->|Hc].
  - apply proper_lines_cons; [|done]. by exists "".
  - destruct (lines_keepends s) as [|l [|l' ls]]; simpl in *.
    + right. by split.
    + destruct IH as [Ht|[Hn _]];
        [left; by apply terminated_cons | right; by split].
    + destruct IH as [Ht IH]. split; [by apply terminated_cons | done].
Qed.

Lemma join_empty_lines_keepends s : join_empty (lines_keepends s) = s.
Proof.
  induction s as [|c s IH]; [done|]. simpl.
  destruct (decide (c = LF)) as [->|Hc].
  - by rewrite join_empty_cons, IH.
  - destruct (lines_keepends s) as [|l ls]; simpl in *.
    + by rewrite <- IH.
    + by rewrite <- IH.
Qed.

Lemma lines_keepends_terminated body rest :
  no_lf body →
  lines_keepends (body +:+ String LF rest)
  = (body +:+ String LF "") :: lines_keepends rest.
Proof.
  induction body as [|c body IH]; intros Hb.
  - by rewrite !str_app_nil_l.
  - destruct Hb as [Hc Hb]. rewrite !str_app_cons. simpl.
    rewrite decide_False by done. by rewrite IH.
Qed.

Lemma lines_keepends_unterminated s :
  unterminated s → lines_keepends s = [s].
Proof.
  intros [Hs Hne]. induction s as [|c s IH]; [done|].
  destruct Hs as [Hc Hs]. simpl. rewrite decide_False by done.
  destruct s as [|c' s]; [done|]. by rewrite IH.
Qed.

(** Prefixes without line feed do not change where the lines end. *)
Lemma lines_keepends_prefixed (pre : nat → string) ls :
  (∀ i, no_lf (pre i)) → proper_lines ls →
  lines_keepends (join_empty (imap (λ i l, pre i +:+ l) ls))
  = imap (λ i l, pre i +:+ l) ls.
Proof.
  revert pre. induction ls as [|l ls IH]; intros pre Hpre Hls; [done|].
  rewrite imap_cons, join_empty_cons.
  assert (terminated l ∨ (unterminated l ∧ ls = [])) as [Ht|[Hu ->]].
  { destruct ls; simpl in Hls; [destruct Hls; auto|left; tauto]. }
  - destruct Ht as (body & Hb & ->).
    rewrite <- !(str_app_assoc (pre 0) body (String LF "")).
    rewrite (str_app_assoc _ (String LF "")), str_app_cons, str_app_nil_l.
    rewrite lines_keepends_terminated by (apply no_lf_app; auto).
    f_equal. apply (IH (pre ∘ S)); [intros i; apply Hpre|].
    destruct ls; simpl in Hls; [done|tauto].
  - simpl. rewrite str_app_nil_r. apply lines_keepends_unterminated.
    destruct Hu as [Hl Hne]. split; [apply no_lf_app; auto|].
    destruct (pre 0), l; done.
Qed.

End StringFacts.

(** ** Lines and numerals *)

Section LineFacts.

Implicit Types (s raw : string) (c : ascii).

(** Induction on a string, two characters at a time where needed. *)
Lemma string_length_ind (P : string → Prop) :
  (∀ s, (∀ t, String.length t < String.length s → P t) → P s) → ∀ s, P s.
Proof.
  intros Hstep s. remember (S (String.length s)) as n eqn:Hn.
  assert (String.length s < n) as Hlt by lia. clear Hn.
  revert s Hlt. induction n as [|n IH]; intros s Hlt; [lia|].
  apply Hstep. intros t Ht. apply IH. lia.
Qed.

Lemma file_lines_read raw :
  lines_keepends (universal_newlines raw) = read_line <$> file_lines raw.
Proof.
  induction raw as [raw IH] using string_length_ind.
  destruct raw as [|c rest]; [done|]. cbn [universal_newlines file_lines].
  destruct (decide (c = CR)) as [->|Hcr].
  - rewrite (decide_False (P := CR = LF)) by done.
    destruct rest as [|c' rest'].
    + done.
    + destruct (decide (c' = LF)) as [->|Hlf].
      * cbn [lines_keepends]. rewrite decide_True by done.
        rewrite fmap_cons. f_equal. apply IH. simpl. lia.
      * cbn [lines_keepends]. rewrite decide_True by done.
        rewrite fmap_cons. f_equal. apply IH. simpl. lia.
  - destruct (decide (c = LF)) as [->|Hlf].
    + cbn [lines_keepends]. rewrite decide_True by done.
      rewrite fmap_cons. f_equal. apply IH. simpl. lia.
    + cbn [lines_keepends]. rewrite decide_False by done.
      rewrite (IH rest) by (simpl; lia).
      destruct (file_lines rest) as [|[line line_end] lines]; [done|].
      done.
Qed.

Lemma file_lines_join raw :
  join_empty ((λ line, line.1 +:+ line.2) <$> file_lines raw) = raw.
Proof.
  induction raw as [raw IH] using string_length_ind.
  destruct raw as [|c rest]; [done|]. cbn [file_lines].
  destruct (decide (c = LF)) as [->|Hlf].
  { rewrite fmap_cons, join_empty_cons, IH by (simpl; lia). done. }
  destruct (decide (c = CR)) as [->|Hcr].
  - destruct rest as [|c' rest']; [done|].
    destruct (decide (c' = LF)) as [->|Hlf'].
    + rewrite fmap_cons, join_empty_cons, IH by (simpl; lia). done.
    + rewrite fmap_cons, join_empty_cons, IH by (simpl; lia). done.
  - specialize (IH rest ltac:(simpl; lia)).
    destruct (file_lines rest) as [|[line line_end] lines].
    + simpl in IH. by subst rest.
    + rewrite fmap_cons, join_empty_cons in *. cbn [fst snd] in *.
      by rewrite str_app_cons, str_app_cons, IH.
Qed.

Lemma file_lines_ok raw : Forall line_ok (file_lines raw).
Proof.
  induction raw as [raw IH] using string_length_ind.
  destruct raw as [|c rest]; [constructor|]. cbn [file_lines].
  destruct (decide (c = LF)) as [->|Hlf].
  { constructor; [|apply IH; simpl; lia]. split; [done|]. by left. }
  destruct (decide (c = CR)) as [->|Hcr].
  - destruct rest as [|c' rest'].
    + constructor; [|constructor]. split; [done|]. auto.
    + destruct (decide (c' = LF)) as [->|Hlf'];
        (constructor; [|apply IH; simpl; lia]); (split; [done|]); auto.
  - specialize (IH rest ltac:(simpl; lia)).
    destruct (file_lines rest) as [|[line line_end] lines].
    + constructor; [|constructor]. split; [done|]. auto 10.
    + apply Forall_cons in IH as [[Hline Hend] IH].
      constructor; [|done]. split; [done|]. cbn [fst snd] in *.
      destruct Hend as [?|[?|[?|[? ?]]]]; auto 10.
Qed.

Lemma universal_newlines_no_cr raw : no_cr raw → universal_newlines raw = raw.
Proof.
  induction raw as [|c rest IH]; [done|]. intros [Hc Hrest].
  cbn [universal_newlines]. rewrite decide_False by done. by rewrite IH.
Qed.

(** Numbering the lines as read, and numbering the lines of the
    file. *)
Lemma numbered_lines (pre : nat → string) (lines : list (string * string)) :
  imap (λ i line, pre i +:+ ": " +:+ line) (read_line <$> lines)
  = zip_with numbered_line (imap (λ i _, pre i) lines) lines.
Proof.
  revert pre. induction lines as [|line lines IH]; intros pre; [done|].
  rewrite fmap_cons, !imap_cons. cbn [zip_with]. f_equal.
  apply (IH (pre ∘ S)).
Qed.

End LineFacts.

Section NumeralFacts.

Lemma numeral_value_string_of_uint (d : Decimal.uint) (acc : nat) :
  numeral_value acc (NilEmpty.string_of_uint d)
  = Some (Nat.of_uint_acc d acc).
Proof.
  revert acc.
  induction d as [|d IH|d IH|d IH|d IH|d IH|d IH|d IH|d IH|d IH|d IH];
    intros acc;
    cbn [NilEmpty.string_of_uint numeral_value Nat.of_uint_acc];
    [done|..]; rewrite Nat.tail_mul_spec;
    match goal with |- context [digit_value ?c] =>
      let v := eval vm_compute in (digit_value c) in
      change (digit_value c) with v
    end;
    cbn [mbind option_bind]; rewrite IH; do 2 f_equal; lia.
Qed.

Lemma nzhead_no_zero (d d' : Decimal.uint) : Decimal.nzhead d ≠ Decimal.D0 d'.
Proof. induction d; done. Qed.

Lemma unorm_leading_zero (d d' : Decimal.uint) :
  Decimal.unorm d = Decimal.D0 d' → d' = Decimal.Nil.
Proof.
  unfold Decimal.unorm. destruct (Decimal.nzhead d) eqn:E; try done.
  - by intros [= <-].
  - by destruct (nzhead_no_zero d u).
Qed.

Lemma to_uint_normal (n : nat) :
  Nat.to_uint n = Decimal.unorm (Nat.to_uint n).
Proof.
  rewrite <- DecimalNat.Unsigned.to_of. by rewrite DecimalNat.Unsigned.of_to.
Qed.

Lemma str_int_decimal (n : nat) : decimal n (str_int n).
Proof.
  unfold decimal, str_int. pose proof (to_uint_normal n) as Hnorm.
  split_and!.
  - destruct (Nat.to_uint n); done.
  - intros Hzero.
    destruct (Nat.to_uint n) as [|d| | | | | | | | |] eqn:E; try done.
    symmetry in Hnorm. apply unorm_leading_zero in Hnorm. by subst d.
  - rewrite numeral_value_string_of_uint.
    f_equal. apply DecimalNat.Unsigned.of_to.
Qed.

Lemma digit_value_inv (c : ascii) (d : nat) :
  digit_value c = Some d → d < 10 ∧ c = ascii_of_nat (48 + d).
Proof.
  unfold digit_value, between. destruct (_ && _) eqn:Hc; [|done].
  intros [= <-]. apply andb_prop in Hc as [Hlo Hhi].
  apply N.leb_le in Hlo, Hhi. split; [lia|].
  rewrite <- (ascii_N_embedding c) at 1. unfold ascii_of_nat. f_equal. lia.
Qed.

Lemma numeral_value_ge (acc : nat) (s : string) (v : nat) :
  numeral_value acc s = Some v → acc ≤ v ∧ (s ≠ "" → 10 * acc ≤ v).
Proof.
  revert acc. induction s as [|c s IH]; intros acc.
  - intros [= <-]. split; [lia|done].
  - cbn [numeral_value]. destruct (digit_value c) as [d|]; [|done].
    cbn [mbind option_bind]. intros [Hv _]%IH. split; [lia|]. lia.
Qed.

(** The numeral of a number below ten is its digit. *)
Lemma decimal_digit (n : nat) (s : string) :
  n < 10 → decimal n s → s = String (ascii_of_nat (48 + n)) "".
Proof.
  intros Hn (Hne & Hzero & Hvalue). destruct s as [|c s]; [done|].
  cbn [numeral_value] in Hvalue.
  destruct (digit_value c) as [d|] eqn:Hd; [|done].
  cbn [mbind option_bind] in Hvalue.
  apply digit_value_inv in Hd as [Hd ->].
  destruct s as [|c' s].
  - by injection Hvalue as <-.
  - apply numeral_value_ge in Hvalue as [_ Hvalue].
    specialize (Hvalue ltac:(done)).
    assert (d = 0) as -> by lia. by specialize (Hzero eq_refl).
Qed.

End NumeralFacts.

(** ** File Loader *)

Section Loader.

Implicit Types (w : world) (file_path raw : string).

(** The prefixed line at position [i]. *)
Local Abbreviation prefixed_line := (λ i line, str_int (i + 1) +:+ ": " +:+ line).

Lemma get_file_found w file_path raw :
  FS.stat (w_fs w) (Path.normpath file_path) = inr (File raw) →
  utf8_valid raw = true →
  get_file file_path w
  = (inr (join_empty
            (imap prefixed_line (lines_keepends (universal_newlines raw)))),
     (logger_info ("File " +:+ Path.normpath file_path +:+ " loaded") w).2).
Proof.
  intros Hfile Hvalid. unfold get_file, mbind, M_bind, os_path_isfile, FS.isfile.
  rewrite Hfile. simpl. unfold open_readlines, FS.read_text.
  rewrite Hfile. cbn [mbind result_bind]. unfold FS.decode.
  rewrite Hvalid. reflexivity.
Qed.

(** A regular file that is no UTF-8 stops the loader when it is read,
    before anything is logged. *)
Lemma get_file_not_decoded w file_path raw :
  FS.stat (w_fs w) (Path.normpath file_path) = inr (File raw) →
  utf8_valid raw = false →
  get_file file_path w = (inl UnicodeDecodeError, w).
Proof.
  intros Hfile Hvalid. unfold get_file, mbind, M_bind, os_path_isfile, FS.isfile.
  rewrite Hfile. simpl. unfold open_readlines, FS.read_text.
  rewrite Hfile. cbn [mbind result_bind]. unfold FS.decode.
  rewrite Hvalid. reflexivity.
Qed.

Lemma get_file_missing w file_path :
  FS.isfile (w_fs w) (Path.normpath file_path) = false →
  let msg := "File " +:+ Path.normpath file_path +:+ " not found" in
  get_file file_path w = (inl (FileNotFoundError msg), (logger_error msg w).2).
Proof.
  intros Hfile. unfold get_file, mbind, M_bind, os_path_isfile.
  rewrite Hfile. reflexivity.
Qed.

Lemma logger_log_fs l msg w : w_fs (logger_log l msg w).2 = w_fs w.
Proof. unfold logger_log. simpl. by case_match. Qed.

Lemma logger_log_requests l msg w :
  w_requests (logger_log l msg w).2 = w_requests w.
Proof. unfold logger_log. simpl. by case_match. Qed.

(** C1, amended. For an existing regular file whose content is UTF-8
    and is made of the [N] lines [file_lines raw] (each a text without
    line end, and its line end in the file), [get_file] returns the
    concatenation of exactly [N] prefixed lines: the one at position
    [i] is the decimal numeral of [i+1], a colon and a space, the
    unchanged text of line [i], and ["\n"] when line [i] has a line
    end in the file. *)
Theorem get_file_numbers_every_line w file_path raw :
  FS.stat (w_fs w) (Path.normpath file_path) = inr (File raw) →
  utf8_valid raw = true →
  ∃ numerals : list string,
    (get_file file_path w).1
    = inr (join_empty (zip_with numbered_line numerals (file_lines raw)))
    ∧ length numerals = length (file_lines raw)
    ∧ (∀ i numeral, numerals !! i = Some numeral → decimal (i + 1) numeral)
    ∧ join_empty ((λ line, line.1 +:+ line.2) <$> file_lines raw) = raw
    ∧ Forall line_ok (file_lines raw).
Proof.
  intros Hfile Hvalid.
  exists (imap (λ i _, str_int (i + 1)) (file_lines raw)).
  rewrite (get_file_found _ _ _ Hfile Hvalid). cbn [fst]. split_and!.
  - by rewrite file_lines_read, (numbered_lines (λ i, str_int (i + 1))).
  - apply length_imap.
  - intros i numeral. rewrite list_lookup_imap.
    destruct (file_lines raw !! i); [|done]. intros [= <-].
    apply str_int_decimal.
  - apply file_lines_join.
  - apply file_lines_ok.
Qed.

Lemma span_digits_numeral (d : Decimal.uint) (rest : string) :
  span_digits (NilEmpty.string_of_uint d +:+ ": " +:+ rest)
  = (NilEmpty.string_of_uint d, ": " +:+ rest).
Proof.
  induction d as [|d IH|d IH|d IH|d IH|d IH|d IH|d IH|d IH|d IH|d IH];
    cbn [NilEmpty.string_of_uint]; [done|..];
    rewrite str_app_cons; cbn [span_digits];
    match goal with |- context [between 48 57 ?c] =>
      change (between 48 57 c) with true
    end;
    cbn match; by rewrite IH.
Qed.

Lemma strip_number_prefixed (n : nat) (line : string) :
  strip_number n (str_int n +:+ ": " +:+ line) = line.
Proof.
  unfold strip_number, str_int. rewrite span_digits_numeral.
  rewrite decide_True by apply str_int_decimal.
  by rewrite (drop_prefix_app ": " line).
Qed.

Lemma strip_prefixed (ls : list string) :
  imap (λ i line, strip_number (i + 1) line) (imap prefixed_line ls) = ls.
Proof.
  assert (∀ (f g : nat → string → string),
            (∀ i l, f i (g i l) = l) → imap f (imap g ls) = ls) as Hinv.
  { induction ls as [|l ls IH]; intros f g Hfg; [done|].
    rewrite !imap_cons, Hfg. f_equal. apply IH. intros i l'. apply Hfg. }
  apply Hinv. intros i l. apply strip_number_prefixed.
Qed.

Lemma strip_line_numbers_numbered (text : string) :
  strip_line_numbers (join_empty (imap prefixed_line (lines_keepends text)))
  = text.
Proof.
  unfold strip_line_numbers.
  rewrite (imap_ext prefixed_line (λ i l, (str_int (i + 1) +:+ ": ") +:+ l))
    at 1 by (intros; by rewrite str_app_assoc).
  rewrite (lines_keepends_prefixed (λ i, str_int (i + 1) +:+ ": "))
    by (first [intros i; apply no_lf_prefix | apply lines_keepends_proper]).
  rewrite (imap_ext (λ i l, (str_int (i + 1) +:+ ": ") +:+ l) prefixed_line)
    by (intros; by rewrite str_app_assoc).
  rewrite strip_prefixed. apply join_empty_lines_keepends.
Qed.

(** C9, amended. For an existing regular file whose content is UTF-8,
    splitting the output of [get_file] into its lines and removing the
    prefix ["{i+1}: "] from the line at position [i] gives back the
    lines of the file, each with its line end read as ["\n"]; for a
    file without carriage return this is the content of the file. *)
Theorem get_file_strip_line_numbers w file_path raw :
  FS.stat (w_fs w) (Path.normpath file_path) = inr (File raw) →
  utf8_valid raw = true →
  ∃ numbered,
    (get_file file_path w).1 = inr numbered
    ∧ strip_line_numbers numbered = join_empty (read_line <$> file_lines raw)
    ∧ (no_cr raw → strip_line_numbers numbered = raw).
Proof.
  intros Hfile Hvalid. eexists. rewrite (get_file_found _ _ _ Hfile Hvalid).
  split; [done|]. rewrite strip_line_numbers_numbered. split.
  - by rewrite <- file_lines_read, join_empty_lines_keepends.
  - apply universal_newlines_no_cr.
Qed.

End Loader.

(** ** Report Renderer *)

Section Renderer.

Implicit Types (root e c : Element) (html_template acc : string).
Implicit Types (observations comments suggestions : list Element).

(** The body of the loops over observations and suggestions. *)
Local Abbreviation text_body :=
  (λ html_report e,
     mret (html_report +:+ "<li>" +:+ format (text e) +:+ "</li>")
     : result string).

(** The body of the loop over comments. *)
Local Abbreviation comment_body :=
  (λ html_report comment,
     location ← text_attr (find comment "Location");
     feedback ← text_attr (find comment "Feedback");
     mret (html_report +:+ "<li><strong>" +:+ format location
             +:+ ":</strong> " +:+ format feedback +:+ "</li>")
     : result string).

Lemma for_each_text (items : list Element) acc :
  for_each items text_body acc
  = inr (acc +:+ join_empty (text_item <$> items)).
Proof.
  revert acc. induction items as [|e items IH]; intros acc.
  - simpl. by rewrite str_app_nil_r.
  - cbn [for_each]. unfold mbind, result_bind, mret, result_ret.
    rewrite IH, fmap_cons, join_empty_cons. unfold text_item.
    by rewrite !str_app_assoc.
Qed.

Lemma comment_body_fields c location feedback acc :
  comment_fields c location feedback →
  comment_body acc c = inr (acc +:+ comment_item location feedback).
Proof. by intros (l & f & -> & <- & -> & <-). Qed.

Lemma for_each_comments comments :
  Forall (λ c, ∃ location feedback, comment_fields c location feedback)
    comments →
  ∃ items, comment_items comments items
    ∧ ∀ acc, for_each comments comment_body acc
             = inr (acc +:+ join_empty items).
Proof.
  induction 1 as [|c comments (location & feedback & Hc) _ (items & Hi & IH)].
  - exists []. split; [constructor|]. intros acc. simpl. by rewrite str_app_nil_r.
  - exists (comment_item location feedback :: items). split.
    + constructor; [by exists location, feedback | done].
    + intros acc. cbn [for_each].
      rewrite (comment_body_fields _ _ _ _ Hc).
      unfold mbind, result_bind. rewrite IH.
      by rewrite join_empty_cons, !str_app_assoc.
Qed.

(** A loop stops with the exception of the first item whose body
    raises. *)
Lemma for_each_raises {A S} (items : list A) (body : S → A → result S)
    (x : A) (st : S) :
  x ∈ items → (∀ st', is_error (body st' x)) →
  is_error (for_each items body st).
Proof.
  intros Hx Hbody. revert st.
  induction Hx as [x items|x y items _ IH]; intros st; simpl.
  - destruct (Hbody st) as [err ->]. by exists err.
  - unfold mbind, result_bind. destruct (body st y) as [err|st'];
      [by exists err | by apply IH].
Qed.

Lemma add_content_to_html_well_formed html_template root
    observations comments suggestions :
  well_formed root observations comments suggestions →
  ∃ items, comment_items comments items
    ∧ add_content_to_html html_template root
      = inr (report html_template (text_item <$> observations) items
               (text_item <$> suggestions)).
Proof.
  intros ((g1 & Hg1 & <-) & (g2 & Hg2 & <-) & Hfields & (g3 & Hg3 & <-)).
  destruct (for_each_comments _ Hfields) as (items & Hitems & Hloop).
  exists items. split; [done|].
  unfold add_content_to_html. rewrite Hg1, Hg2, Hg3. cbn [iter].
  unfold mbind at 1. unfold result_bind at 1. rewrite for_each_text.
  unfold mbind at 1 2. unfold result_bind at 1 2. rewrite Hloop.
  unfold mbind at 1 2. unfold result_bind at 1 2. rewrite for_each_text.
  unfold mbind, result_bind, mret, result_ret, report.
  by rewrite !str_app_assoc.
Qed.

Lemma comment_fields_unique c location feedback location' feedback' :
  comment_fields c location feedback →
  comment_fields c location' feedback' →
  location = location' ∧ feedback = feedback'.
Proof.
  intros (l & f & Hl & <- & Hf & <-) (l' & f' & Hl' & <- & Hf' & <-).
  by simplify_eq.
Qed.

Lemma substring_comment_item_location location feedback :
  substring (format location) (comment_item location feedback).
Proof. apply substring_middle. Qed.

Lemma substring_comment_item_feedback location feedback :
  substring (format feedback) (comment_item location feedback).
Proof.
  exists ("<li><strong>" +:+ format location +:+ ":</strong> "), "</li>".
  unfold comment_item. by rewrite !str_app_assoc.
Qed.

Lemma comment_items_lookup comments items c :
  comment_items comments items → c ∈ comments →
  ∃ location feedback,
    comment_fields c location feedback
    ∧ comment_item location feedback ∈ items.
Proof.
  intros Hitems (i & Hi)%list_elem_of_lookup.
  destruct (Forall2_lookup_l _ _ _ _ _ Hitems Hi)
    as (item & Hitem & location & feedback & Hc & ->).
  exists location, feedback. split; [done|].
  apply list_elem_of_lookup. by exists i.
Qed.

Lemma item_of_text_item e : item_of_text e (text_item e).
Proof. unfold item_of_text, text_item. by destruct (text e). Qed.

Lemma items_of_text (items : list Element) :
  Forall2 item_of_text items (text_item <$> items).
Proof.
  apply Forall2_fmap_r, Forall_Forall2_diag, Forall_forall.
  intros e _. apply item_of_text_item.
Qed.

Lemma shown_format (t : option string) : shown t (format t).
Proof. by destruct t. Qed.

Lemma items_of_comments comments items :
  comment_items comments items → Forall2 item_of_comment comments items.
Proof.
  intros Hitems. eapply Forall2_impl; [exact Hitems|].
  intros c item (location & feedback & (l & f & Hl & <- & Hf & <-) & ->).
  exists l, f, (format (text l)), (format (text f)).
  split_and!; [done..|apply shown_format|apply shown_format|done].
Qed.

(** Every item of a section is a piece of the report. *)
Lemma substring_report html_template os cs ss item :
  item ∈ os ++ cs ++ ss →
  substring item (report html_template os cs ss).
Proof.
  intros Hitem. unfold report.
  assert (∀ ls, item ∈ ls → substring item (join_empty ls)) as Hsec.
  { intros ls Hls. apply (substring_join_empty _ item); [done|].
    exists "", "". by rewrite str_app_nil_r. }
  apply elem_of_app in Hitem as [Ho|Hitem];
    [|apply elem_of_app in Hitem as [Hc|Hs]].
  - do 2 apply substring_app_r. by apply substring_app_l, Hsec.
  - do 5 apply substring_app_r. by apply substring_app_l, Hsec.
  - do 8 apply substring_app_r. by apply substring_app_l, Hsec.
Qed.

(** C2. For a well-formed review document with [G] observations, [C]
    comments and [S] suggestions, the report is the template followed
    by the list of the [G] observation items, the list of the [C]
    comment items and the list of the [S] suggestion items: one item
    for each element, in order, that of an observation or suggestion
    being its text between [<li>] and [</li>], and that of a comment
    holding the text of its location and the text of its feedback. *)
Theorem add_content_to_html_item_counts html_template root
    observations comments suggestions :
  well_formed root observations comments suggestions →
  ∃ observation_items comment_items suggestion_items,
    add_content_to_html html_template root
    = inr (html_template
             +:+ "<h2>General Observations</h2><ul>"
             +:+ join_empty observation_items +:+ "</ul>"
             +:+ "<h2>Specific Comments</h2><ul>"
             +:+ join_empty comment_items +:+ "</ul>"
             +:+ "<h2>Improvement Suggestions</h2><ul>"
             +:+ join_empty suggestion_items +:+ "</ul>"
             +:+ "</div></body></html>")
    ∧ Forall2 item_of_text observations observation_items
    ∧ Forall2 item_of_comment comments comment_items
    ∧ Forall2 item_of_text suggestions suggestion_items
    ∧ length observation_items = length observations
    ∧ length comment_items = length comments
    ∧ length suggestion_items = length suggestions
    ∧ Forall2 (λ c item, ∀ child s,
                 find c "Location" = Some child
                 ∨ find c "Feedback" = Some child →
                 text child = Some s → substring s item)
        comments comment_items.
Proof.
  intros Hwf.
  destruct (add_content_to_html_well_formed html_template _ _ _ _ Hwf)
    as (items & Hitems & Hrender).
  exists (text_item <$> observations), items, (text_item <$> suggestions).
  split; [done|]. rewrite !length_fmap.
  split; [apply items_of_text|].
  split; [by apply items_of_comments|].
  split; [apply items_of_text|].
  split; [done|]. split; [symmetry; by eapply Forall2_length|].
  split; [done|].
  eapply Forall2_impl; [exact Hitems|].
  intros c item (location & feedback & (l & f & Hl & <- & Hf & <-) & ->).
  intros child s [Hchild|Hchild] Htext.
  - rewrite Hl in Hchild. injection Hchild as ->. rewrite Htext.
    apply (substring_comment_item_location (Some s)).
  - rewrite Hf in Hchild. injection Hchild as ->. rewrite Htext.
    apply (substring_comment_item_feedback _ (Some s)).
Qed.

(** C7. For a well-formed review document the report is exactly the
    template, then the sections General Observations, Specific
    Comments and Improvement Suggestions in this order, then the
    closing fragment; a text that is present stands in its item as it
    is, character for character. *)
Theorem add_content_to_html_verbatim html_template root
    observations comments suggestions :
  well_formed root observations comments suggestions →
  (∃ items, comment_items comments items
     ∧ add_content_to_html html_template root
       = inr (html_template
                +:+ "<h2>General Observations</h2><ul>"
                +:+ join_empty (text_item <$> observations) +:+ "</ul>"
                +:+ "<h2>Specific Comments</h2><ul>"
                +:+ join_empty items +:+ "</ul>"
                +:+ "<h2>Improvement Suggestions</h2><ul>"
                +:+ join_empty (text_item <$> suggestions) +:+ "</ul>"
                +:+ "</div></body></html>"))
  ∧ (∀ e s, text e = Some s → text_item e = "<li>" +:+ s +:+ "</li>")
  ∧ (∀ location feedback,
       comment_item (Some location) (Some feedback)
       = "<li><strong>" +:+ location +:+ ":</strong> " +:+ feedback
           +:+ "</li>").
Proof.
  intros Hwf. split; [|split].
  - apply (add_content_to_html_well_formed html_template _ _ _ _ Hwf).
  - intros e s He. unfold text_item. by rewrite He.
  - done.
Qed.

(** C10. For a well-formed review document the renderer does not fail
    on an element without text: an observation or a suggestion without
    text gives the item ["<li>None</li>"], and a comment whose location
    or feedback has no text gives an item with [None] in that place. *)
Theorem add_content_to_html_empty_text html_template root
    observations comments suggestions :
  well_formed root observations comments suggestions →
  ∃ html,
    add_content_to_html html_template root = inr html
    ∧ (∀ e, e ∈ observations ++ suggestions → text e = None →
         substring "<li>None</li>" html)
    ∧ (∀ c feedback, c ∈ comments → comment_fields c None feedback →
         substring ("<li><strong>None:</strong> " +:+ format feedback
                      +:+ "</li>") html)
    ∧ (∀ c location, c ∈ comments → comment_fields c location None →
         substring ("<li><strong>" +:+ format location
                      +:+ ":</strong> None</li>") html).
Proof.
  intros Hwf.
  destruct (add_content_to_html_well_formed html_template _ _ _ _ Hwf)
    as (items & Hitems & Hrender).
  eexists. split; [exact Hrender|]. split_and!.
  - intros e He Htext. apply substring_report.
    replace "<li>None</li>" with (text_item e)
      by (unfold text_item; by rewrite Htext).
    apply elem_of_app in He as [He|He].
    + apply elem_of_app. left. by apply list_elem_of_fmap_2.
    + do 2 (apply elem_of_app; right). by apply list_elem_of_fmap_2.
  - intros c feedback Hc Hfields.
    destruct (comment_items_lookup _ _ _ Hitems Hc)
      as (location' & feedback' & Hfields' & Hitem).
    destruct (comment_fields_unique _ _ _ _ _ Hfields Hfields') as [<- <-].
    apply substring_report.
    apply elem_of_app. right. apply elem_of_app. by left.
  - intros c location Hc Hfields.
    destruct (comment_items_lookup _ _ _ Hitems Hc)
      as (location' & feedback' & Hfields' & Hitem).
    destruct (comment_fields_unique _ _ _ _ _ Hfields Hfields') as [<- <-].
    apply substring_report.
    apply elem_of_app. right. apply elem_of_app. left. exact Hitem.
Qed.

(** Without one of the three groups the loop over it raises. *)
Lemma render_missing_group html_template root :
  find root "GeneralObservations" = None
  ∨ find root "SpecificComments" = None
  ∨ find root "ImprovementSuggestions" = None →
  is_error (add_content_to_html html_template root).
Proof.
  intros Hmissing. unfold add_content_to_html.
  destruct (find root "GeneralObservations") as [g1|];
    [|by exists TypeError].
  cbn [iter]. unfold mbind at 1. unfold result_bind at 1.
  rewrite for_each_text. unfold mbind at 1. unfold result_bind at 1.
  destruct (find root "SpecificComments") as [g2|];
    [|by exists TypeError].
  cbn [iter]. unfold mbind at 1. unfold result_bind at 1.
  match goal with |- context [for_each ?l ?b ?a] =>
    destruct (for_each l b a) as [err|html] end; [by exists err|].
  unfold mbind at 1. unfold result_bind at 1.
  destruct (find root "ImprovementSuggestions") as [g3|];
    [|by exists TypeError].
  destruct Hmissing as [?|[?|?]]; done.
Qed.

(** A comment without location or feedback stops the loop over the
    comments. *)
Lemma render_comment_lacks_child html_template root :
  comment_lacks_child root →
  is_error (add_content_to_html html_template root).
Proof.
  intros (g & c & Hg & Hc & Hmiss). unfold add_content_to_html.
  destruct (find root "GeneralObservations") as [g1|];
    [|by exists TypeError].
  cbn [iter]. unfold mbind at 1. unfold result_bind at 1.
  rewrite for_each_text. unfold mbind at 1. unfold result_bind at 1.
  rewrite Hg. cbn [iter]. unfold mbind at 1. unfold result_bind at 1.
  match goal with |- context [for_each ?l ?b ?a] =>
    destruct (for_each_raises l b c a Hc) as [err ->] end;
    [|by exists err].
  intros st. destruct Hmiss as [-> | ->].
  - by exists AttributeError.
  - exists AttributeError. by destruct (find c "Location").
Qed.

End Renderer.

(** ** Paths *)

Section PathFacts.

Implicit Types (a b s : string) (c : ascii) (names : list string).

Lemma split_nonempty sep s : ∃ w ws, split sep s = w :: ws.
Proof.
  destruct s as [|c s]; simpl; [by eexists _, _|].
  destruct (decide (c = sep)); [by eexists _, _|].
  destruct (split sep s); by eexists _, _.
Qed.

Lemma split_app_sep sep a b :
  split sep (a +:+ String sep b) = split sep a ++ split sep b.
Proof.
  induction a as [|c a IH].
  - rewrite str_app_nil_l. simpl. by rewrite decide_True.
  - rewrite str_app_cons. simpl. destruct (decide (c = sep)).
    + by rewrite IH.
    + rewrite IH. by destruct (split_nonempty sep a) as (w & ws & ->).
Qed.

Lemma split_no_slash b : Path.no_slash b = true → split SLASH b = [b].
Proof.
  induction b as [|c b IH]; [done|]. simpl.
  intros [Hc Hb]%andb_prop. apply negb_true_iff, bool_decide_eq_false in Hc.
  rewrite decide_False by done. by rewrite IH.
Qed.

Lemma endswith_slash_inv a :
  endswith_slash a = true → ∃ a', a = a' +:+ String SLASH "".
Proof.
  induction a as [|c a IH]; [done|]. simpl. destruct a as [|c' a].
  - intros ->%bool_decide_eq_true. by exists "".
  - intros (a' & ->)%IH. by exists (String c a').
Qed.

Lemma endswith_slash_app a b :
  b ≠ "" → endswith_slash (a +:+ b) = endswith_slash b.
Proof.
  intros Hb. induction a as [|c a IH]; [done|]. rewrite str_app_cons.
  cbn [endswith_slash]. destruct (a +:+ b) eqn:E; [|done].
  by destruct a, b.
Qed.

Lemma file_name_inv b :
  Path.file_name b = true →
  Path.no_slash b = true ∧ Path.has_nul b = false
  ∧ b ≠ "" ∧ b ≠ "." ∧ b ≠ "..".
Proof.
  unfold Path.file_name. intros [[Hs Hn]%andb_prop Hb]%andb_prop.
  apply negb_true_iff in Hn. apply negb_true_iff, bool_decide_eq_false in Hb.
  split_and!; [done..| | |]; intros ->; apply Hb; auto.
Qed.

Lemma file_name_first b :
  Path.file_name b = true → ∃ c b', b = String c b' ∧ c ≠ SLASH.
Proof.
  intros (Hs & _ & Hb & _)%file_name_inv. destruct b as [|c b]; [done|].
  exists c, b. split; [done|]. simpl in Hs.
  apply andb_prop in Hs as [Hc _].
  by apply negb_true_iff, bool_decide_eq_false in Hc.
Qed.

Lemma endswith_slash_no_slash b :
  Path.no_slash b = true → endswith_slash b = false.
Proof.
  induction b as [|c b IH]; [done|]. cbn [Path.no_slash endswith_slash].
  intros [Hc Hb]%andb_prop. apply negb_true_iff in Hc.
  destruct b; [done|]. by apply IH.
Qed.

Lemma startswith_slash_file_name b :
  Path.file_name b = true → startswith "/" b = false.
Proof.
  intros (c & b' & -> & Hc)%file_name_first. simpl.
  rewrite bool_decide_eq_false_2; [done|]. by intros <-.
Qed.

Lemma startswith_app a b :
  a ≠ "" → startswith "/" (a +:+ b) = startswith "/" a.
Proof. by destruct a. Qed.

Lemma has_nul_app a b :
  Path.has_nul (a +:+ b) = Path.has_nul a || Path.has_nul b.
Proof.
  induction a as [|c a IH]; [done|]. rewrite str_app_cons.
  cbn [Path.has_nul]. by rewrite IH, orb_assoc.
Qed.

(** [os.path.join] of a directory and a file name, case by case. *)
Lemma join_file_name a b :
  Path.file_name b = true →
  (a = "" ∧ Path.join a b = b)
  ∨ (∃ a', a = a' +:+ String SLASH "" ∧ Path.join a b = a' +:+ String SLASH b)
  ∨ (a ≠ "" ∧ endswith_slash a = false
     ∧ Path.join a b = a +:+ String SLASH b).
Proof.
  intros Hb%startswith_slash_file_name. unfold Path.join. rewrite Hb.
  destruct (decide (a = "")) as [->|Ha]; [by left|right].
  rewrite (bool_decide_eq_false_2 _ Ha). cbn [orb].
  destruct (endswith_slash a) eqn:Hend.
  - left. destruct (endswith_slash_inv a Hend) as (a' & ->). exists a'.
    split; [done|]. by rewrite str_app_assoc, str_app_cons, str_app_nil_l.
  - right. by rewrite str_app_cons, str_app_nil_l.
Qed.

(** The components of a file joined to a directory. *)
Lemma split_join a b :
  Path.file_name b = true →
  ∃ comps, split SLASH (Path.join a b) = comps ++ [b]
    ∧ (a ≠ "" →
       split SLASH a = comps
       ∨ split SLASH a = comps ++ [""]).
Proof.
  intros Hb. destruct (file_name_inv b Hb) as (Hs & _).
  destruct (join_file_name a b Hb)
    as [[-> ->]|[(a' & -> & ->)|(Ha & Hend & ->)]].
  - exists []. by rewrite (split_no_slash b Hs).
  - exists (split SLASH a'). rewrite !split_app_sep, (split_no_slash b Hs).
    split; [done|]. intros _. right. done.
  - exists (split SLASH a). rewrite split_app_sep, (split_no_slash b Hs).
    split; [done|]. intros _. by left.
Qed.

Lemma join_not_empty a b : Path.file_name b = true → Path.join a b ≠ "".
Proof.
  intros Hb. destruct (file_name_first b Hb) as (c & b' & -> & _).
  destruct (join_file_name a _ Hb)
    as [[-> ->]|[(a' & -> & ->)|(Ha & Hend & ->)]]; [done|..].
  - by destruct a'.
  - by destruct a.
Qed.

Lemma has_nul_join a b :
  Path.file_name b = true → Path.has_nul a = false →
  Path.has_nul (Path.join a b) = false.
Proof.
  intros Hb Ha. destruct (file_name_inv b Hb) as (_ & Hn & _).
  destruct (join_file_name a b Hb)
    as [[-> ->]|[(a' & -> & ->)|(_ & _ & ->)]]; [done|..].
  - rewrite has_nul_app in Ha. apply orb_false_elim in Ha as [Ha _].
    rewrite has_nul_app, Ha. cbn. by rewrite Hn.
  - rewrite has_nul_app, Ha. cbn. by rewrite Hn.
Qed.

Lemma startswith_join a b :
  Path.file_name b = true → a ≠ "" →
  startswith "/" (Path.join a b) = startswith "/" a.
Proof.
  intros Hb Ha.
  destruct (join_file_name a b Hb)
    as [[-> ->]|[(a' & -> & ->)|(_ & _ & ->)]]; [done|..].
  - by destruct a'.
  - by apply startswith_app.
Qed.

Lemma endswith_slash_join a b :
  Path.file_name b = true → endswith_slash (Path.join a b) = false.
Proof.
  intros Hb. destruct (file_name_inv b Hb) as (Hs & _ & Hne & _).
  pose proof (endswith_slash_no_slash b Hs) as Hend.
  destruct (join_file_name a b Hb)
    as [[-> ->]|[(a' & -> & ->)|(_ & _ & ->)]]; [done|..].
  - rewrite <- (str_app_nil_l b), <- str_app_cons, <- str_app_assoc.
    by rewrite endswith_slash_app.
  - rewrite <- (str_app_nil_l b), <- str_app_cons, <- str_app_assoc.
    by rewrite endswith_slash_app.
Qed.

(** *** [os.path.split] *)

Lemma rpartition_no_slash b :
  Path.no_slash b = true → Path.rpartition b = ("", b).
Proof.
  induction b as [|c b IH]; [done|]. cbn [Path.no_slash Path.rpartition].
  intros [Hc Hb]%andb_prop. apply negb_true_iff, bool_decide_eq_false in Hc.
  rewrite (IH Hb). rewrite bool_decide_eq_true_2 by done.
  by rewrite bool_decide_eq_false_2.
Qed.

Lemma rpartition_app a b :
  Path.no_slash b = true →
  Path.rpartition (a +:+ String SLASH b) = (a +:+ String SLASH "", b).
Proof.
  intros Hb. induction a as [|c a IH].
  - rewrite !str_app_nil_l. cbn [Path.rpartition].
    rewrite (rpartition_no_slash b Hb).
    by rewrite !bool_decide_eq_true_2.
  - rewrite !str_app_cons. cbn [Path.rpartition]. rewrite IH.
    rewrite bool_decide_eq_false_2; [done|]. by destruct a.
Qed.

Lemma rstrip_app_slash a : Path.rstrip (a +:+ String SLASH "") = Path.rstrip a.
Proof.
  induction a as [|c a IH].
  - reflexivity.
  - rewrite str_app_cons. cbn [Path.rstrip]. by rewrite IH.
Qed.

Lemma rstrip_no_trailing a : endswith_slash a = false → Path.rstrip a = a.
Proof.
  induction a as [|c a IH]; [done|]. cbn [endswith_slash Path.rstrip].
  destruct a as [|c' a].
  - intros Hc%bool_decide_eq_false. cbn. by rewrite bool_decide_eq_false_2.
  - intros Hend. rewrite (IH Hend). done.
Qed.

(** The path of some names and one more: the head is the path of the
    names. *)
Lemma split_app a b :
  a ≠ "" → endswith_slash a = false → Path.no_slash b = true →
  Path.split (a +:+ String SLASH b) = (a, b).
Proof.
  intros Ha Hend Hb. unfold Path.split. rewrite (rpartition_app a b Hb).
  rewrite rstrip_app_slash, (rstrip_no_trailing a Hend).
  rewrite bool_decide_eq_true_2; [done|]. split; [by destruct a|done].
Qed.

Lemma split_root b :
  Path.no_slash b = true → Path.split (String SLASH b) = ("/", b).
Proof.
  intros Hb. unfold Path.split.
  rewrite <- (str_app_nil_l (String SLASH b)), (rpartition_app "" b Hb).
  rewrite str_app_nil_l. rewrite bool_decide_eq_false_2; [done|].
  intros [_ Hr]. apply Hr. cbn. by rewrite bool_decide_eq_true_2.
Qed.

Lemma split_name b : Path.no_slash b = true → Path.split b = ("", b).
Proof.
  intros Hb. unfold Path.split. rewrite (rpartition_no_slash b Hb).
  rewrite bool_decide_eq_false_2; [done|]. by intros [? _].
Qed.

(** *** Paths of plain names *)

Lemma join_snoc names b :
  names ≠ [] → join "/" (names ++ [b]) = join "/" names +:+ String SLASH b.
Proof.
  induction names as [|x names IH]; [done|]. intros _.
  destruct names as [|y names].
  - done.
  - change (join "/" ((x :: y :: names) ++ [b]))
      with (x +:+ "/" +:+ join "/" ((y :: names) ++ [b])).
    rewrite IH by done. cbn [join]. by rewrite !str_app_assoc.
Qed.

Lemma path_of_snoc absolute names b :
  names ≠ [] →
  path_of absolute (names ++ [b])
  = path_of absolute names +:+ String SLASH b.
Proof.
  intros Hne. unfold path_of. rewrite (join_snoc names b Hne).
  by rewrite str_app_assoc.
Qed.

Lemma path_of_single absolute b :
  path_of absolute [b] = if absolute then String SLASH b else b.
Proof. by destruct absolute. Qed.

Lemma split_join_names names :
  names ≠ [] → Forall (λ name, Path.file_name name = true) names →
  split SLASH (join "/" names) = names.
Proof.
  induction names as [|x names IH] using rev_ind; [done|]. intros _ Hall.
  apply Forall_app in Hall as [Hall Hx]. rewrite Forall_singleton in Hx.
  destruct (file_name_inv x Hx) as (Hs & _).
  destruct (decide (names = [])) as [->|Hne].
  - cbn. by apply split_no_slash.
  - rewrite (join_snoc names x Hne), split_app_sep, IH by done.
    by rewrite (split_no_slash x Hs).
Qed.

Lemma split_path_of absolute names :
  names ≠ [] → Forall (λ name, Path.file_name name = true) names →
  split SLASH (path_of absolute names)
  = (if absolute then [""] else []) ++ names.
Proof.
  intros Hne Hall. unfold path_of. destruct absolute.
  - change ("/" +:+ join "/" names) with ("" +:+ String SLASH (join "/" names)).
    rewrite split_app_sep. by rewrite split_join_names.
  - rewrite str_app_nil_l. by rewrite split_join_names.
Qed.

Lemma path_of_not_empty absolute names :
  names ≠ [] → Forall (λ name, Path.file_name name = true) names →
  path_of absolute names ≠ "".
Proof.
  intros Hne Hall Hempty.
  pose proof (split_path_of absolute names Hne Hall) as Hsplit.
  rewrite Hempty in Hsplit. cbn in Hsplit.
  destruct absolute, names as [|x [|y names]]; simplify_eq/=.
  by rewrite Forall_singleton in Hall.
Qed.

Lemma has_nul_join_names names :
  Forall (λ name, Path.file_name name = true) names →
  Path.has_nul (join "/" names) = false.
Proof.
  induction names as [|x names IH]; [done|]. intros Hall.
  apply Forall_cons in Hall as [Hx Hall].
  destruct (file_name_inv x Hx) as (_ & Hn & _).
  destruct names as [|y names]; [done|].
  change (join "/" (x :: y :: names)) with (x +:+ "/" +:+ join "/" (y :: names)).
  rewrite !has_nul_app, Hn, (IH Hall). done.
Qed.

Lemma has_nul_path_of absolute names :
  Forall (λ name, Path.file_name name = true) names →
  Path.has_nul (path_of absolute names) = false.
Proof.
  intros Hall. unfold path_of. rewrite has_nul_app, has_nul_join_names by done.
  by destruct absolute.
Qed.

Lemma startswith_path_of absolute names :
  names ≠ [] → Forall (λ name, Path.file_name name = true) names →
  startswith "/" (path_of absolute names) = absolute.
Proof.
  intros Hne Hall. unfold path_of. destruct absolute; [done|].
  rewrite str_app_nil_l. destruct names as [|x names]; [done|].
  apply Forall_cons in Hall as [Hx _].
  destruct (file_name_first x Hx) as (c & x' & -> & Hc).
  assert (startswith "/" (String c x') = false) as Hstart.
  { cbn. rewrite bool_decide_eq_false_2; [done|]. by intros <-. }
  destruct names as [|y names]; [done|].
  change (join "/" (String c x' :: y :: names))
    with (String c x' +:+ "/" +:+ join "/" (y :: names)).
  by rewrite startswith_app.
Qed.

Lemma endswith_slash_path_of absolute names :
  names ≠ [] → Forall (λ name, Path.file_name name = true) names →
  endswith_slash (path_of absolute names) = false.
Proof.
  intros Hne Hall. destruct names as [|x names _] using rev_ind; [done|].
  apply Forall_app in Hall as [_ Hx]. rewrite Forall_singleton in Hx.
  destruct (file_name_inv x Hx) as (Hs & _ & Hx' & _).
  pose proof (endswith_slash_no_slash x Hs) as Hend.
  destruct (decide (names = [])) as [->|Hnames].
  - rewrite app_nil_l, path_of_single. destruct absolute; [|done].
    rewrite <- (str_app_nil_l x), <- str_app_cons.
    by rewrite endswith_slash_app.
  - rewrite path_of_snoc by done.
    rewrite <- (str_app_nil_l x), <- str_app_cons, <- str_app_assoc.
    by rewrite endswith_slash_app.
Qed.

(** [os.path.split] of a path of plain names. *)
Lemma split_path_of_snoc absolute names b :
  Forall (λ name, Path.file_name name = true) names →
  Path.file_name b = true →
  Path.split (path_of absolute (names ++ [b]))
  = (if decide (names = []) then (if absolute then "/" else "")
     else path_of absolute names, b).
Proof.
  intros Hall Hb. destruct (file_name_inv b Hb) as (Hs & _).
  destruct (decide (names = [])) as [->|Hne].
  - rewrite app_nil_l, path_of_single.
    destruct absolute; [by apply split_root | by apply split_name].
  - rewrite path_of_snoc by done. apply split_app; [|by apply endswith_slash_path_of|done].
    by apply path_of_not_empty.
Qed.

Lemma str_length_app a b :
  String.length (a +:+ b) = String.length a + String.length b.
Proof.
  induction a as [|c a IH]; [done|]. rewrite str_app_cons. cbn. by rewrite IH.
Qed.

Lemma length_path_of_snoc absolute names b :
  names ≠ [] →
  String.length (path_of absolute names)
  < String.length (path_of absolute (names ++ [b])).
Proof.
  intros Hne. rewrite path_of_snoc by done.
  rewrite str_length_app. cbn. lia.
Qed.

End PathFacts.

(** ** The file system *)

Section FSFacts.

Implicit Types (fs : files) (p q cur : list string) (n : node).
Implicit Types (path a b : string) (names comps : list string) (absolute : bool).

Lemma removelast_ne p : p ≠ [] → removelast p ≠ p.
Proof.
  intros Hp Heq. apply (f_equal length) in Heq.
  rewrite (app_removelast_last "" Hp) in Heq at 2.
  rewrite length_app in Heq. simpl in Heq. lia.
Qed.

Lemma last_snoc {A} (l : list A) (x : A) : last (l ++ [x]) = Some x.
Proof. induction l as [|y [|z l] IH]; done. Qed.

Lemma lookup_root fs : FS.lookup fs [] = Some Dir.
Proof. done. Qed.

Lemma lookup_None fs p :
  FS.lookup fs p = None → p ≠ [] ∧ entries fs !! p = None.
Proof. unfold FS.lookup. by case_bool_decide. Qed.

Lemma lookup_not_dir fs p : FS.lookup fs p ≠ Some Dir → p ≠ [].
Proof. by intros Hp ->. Qed.

Lemma lookup_put_same fs p n : p ≠ [] → FS.lookup (FS.put p n fs) p = Some n.
Proof.
  intros Hp. unfold FS.lookup, FS.put. cbn [entries].
  rewrite bool_decide_eq_false_2 by done. by rewrite lookup_insert_eq.
Qed.

Lemma lookup_put_other fs p q n :
  q ≠ p → FS.lookup (FS.put p n fs) q = FS.lookup fs q.
Proof.
  intros Hq. unfold FS.lookup, FS.put. cbn [entries].
  case_bool_decide; [done|]. by rewrite lookup_insert_ne.
Qed.

Lemma well_formed_lookup fs p :
  FS.well_formed fs → is_Some (FS.lookup fs p) →
  FS.lookup fs (removelast p) = Some Dir.
Proof.
  intros Hwf [n Hp]. unfold FS.lookup in Hp. case_bool_decide as Hroot.
  - by subst p.
  - by apply (Hwf p n).
Qed.

Lemma well_formed_put_dir fs p :
  FS.well_formed fs → FS.lookup fs p = None →
  FS.lookup fs (removelast p) = Some Dir →
  FS.well_formed (FS.put p Dir fs).
Proof.
  intros Hwf Hp Hparent. destruct (lookup_None _ _ Hp) as (Hp1 & _).
  apply map_Forall_insert_2.
  - rewrite lookup_put_other; [done|]. by apply removelast_ne.
  - intros q n Hq. cbn beta. destruct (decide (removelast q = p)) as [->|Hne].
    + by apply lookup_put_same.
    + rewrite lookup_put_other by done. by apply (Hwf q n).
Qed.

Lemma well_formed_put_file fs p text :
  FS.well_formed fs → FS.lookup fs p ≠ Some Dir →
  FS.lookup fs (removelast p) = Some Dir →
  FS.well_formed (FS.put p (File text) fs).
Proof.
  intros Hwf Hp Hparent. pose proof (lookup_not_dir _ _ Hp) as Hp1.
  apply map_Forall_insert_2.
  - rewrite lookup_put_other; [done|]. by apply removelast_ne.
  - intros q n Hq. cbn beta. destruct (decide (removelast q = p)) as [<-|Hne].
    + destruct Hp. by apply (Hwf q n).
    + rewrite lookup_put_other by done. by apply (Hwf q n).
Qed.

(** In a well-formed file system everything above an entry is a
    directory. *)
Lemma well_formed_above fs p q :
  FS.well_formed fs → is_Some (FS.lookup fs p) → q `prefix_of` p → q ≠ p →
  FS.lookup fs q = Some Dir.
Proof.
  intros Hwf Hp [k ->] Hne. revert Hp Hne.
  induction k as [|x k IH] using rev_ind; intros Hp Hne.
  - by rewrite app_nil_r in Hne.
  - pose proof (well_formed_lookup _ _ Hwf Hp) as Hparent.
    rewrite (assoc_L (++)), removelast_last in Hparent.
    destruct k as [|y k] using rev_ind; [by rewrite app_nil_r in Hparent|].
    apply IH; [by rewrite Hparent|].
    intros Heq. apply (f_equal length) in Heq.
    rewrite !length_app in Heq. simpl in Heq. lia.
Qed.

(** Above a directory and at it, directories. *)
Lemma well_formed_dirs fs p q :
  FS.well_formed fs → FS.lookup fs p = Some Dir → q `prefix_of` p →
  FS.lookup fs q = Some Dir.
Proof.
  intros Hwf Hp Hq. destruct (decide (q = p)) as [->|Hne]; [done|].
  by apply (well_formed_above fs p); rewrite ?Hp.
Qed.

Lemma no_file_on_path_test_true fs p :
  no_file_on_path_test fs p = true → no_file_on_path fs p.
Proof.
  intros Htest q raw Hq Hfile.
  assert (q = take (length q) p) as Htake.
  { destruct Hq as [k ->]. by rewrite take_app_length. }
  apply prefix_length in Hq.
  apply (proj1 (forallb_forall _ _)) with (x := length q) in Htest.
  - by rewrite <- Htake, Hfile in Htest.
  - apply in_seq. lia.
Qed.

Lemma dirs_made_refl fs p : dirs_made fs fs p.
Proof. split; [done|]. intros q. by left. Qed.

(** *** Resolution *)

Lemma walk_app fs path cur comps1 comps2 :
  FS.walk fs path cur (comps1 ++ comps2)
  = FS.walk fs path cur comps1 ≫= λ k, FS.walk fs path k comps2.
Proof.
  revert cur. induction comps1 as [|comp comps1 IH]; intros cur; [done|].
  cbn [app FS.walk]. destruct (FS.lookup fs cur) as [[raw|]|]; [done| |done].
  apply IH.
Qed.

(** The path is in the error only. *)
Lemma walk_path fs path path' cur comps k :
  FS.walk fs path cur comps = inr k → FS.walk fs path' cur comps = inr k.
Proof.
  revert cur. induction comps as [|comp comps IH]; intros cur; [done|].
  cbn [FS.walk]. destruct (FS.lookup fs cur) as [[raw|]|]; [done| |done].
  apply IH.
Qed.

(** A resolution goes through directories only: it stays what it is
    when they stay. *)
Lemma walk_kept fs fs' path cur comps k :
  (∀ q, FS.lookup fs q = Some Dir → FS.lookup fs' q = Some Dir) →
  FS.walk fs path cur comps = inr k → FS.walk fs' path cur comps = inr k.
Proof.
  intros Hkept. revert cur.
  induction comps as [|comp comps IH]; intros cur; [done|].
  cbn [FS.walk]. destruct (FS.lookup fs cur) as [[raw|]|] eqn:E; [done| |done].
  rewrite (Hkept _ E). apply IH.
Qed.

Lemma walk_snoc_empty fs path cur comps k :
  FS.walk fs path cur (comps ++ [""]) = inr k →
  FS.walk fs path cur comps = inr k ∧ FS.lookup fs k = Some Dir.
Proof.
  rewrite walk_app. destruct (FS.walk fs path cur comps) as [e|k']; [done|].
  cbn [mbind result_bind FS.walk].
  destruct (FS.lookup fs k') as [[raw|]|] eqn:E; [done| |done].
  rewrite bool_decide_eq_true_2 by auto. by intros [= <-].
Qed.

Lemma walk_snoc_name fs path cur comps dir b :
  Path.file_name b = true →
  FS.walk fs path cur comps = inr dir → FS.lookup fs dir = Some Dir →
  FS.walk fs path cur (comps ++ [b]) = inr (dir ++ [b]).
Proof.
  intros (_ & _ & Hb1 & Hb2 & Hb3)%file_name_inv Hwalk Hdir.
  rewrite walk_app, Hwalk. cbn [mbind result_bind FS.walk]. rewrite Hdir.
  rewrite bool_decide_eq_false_2 by (by intros [?|?]).
  by rewrite bool_decide_eq_false_2.
Qed.

(** Plain names lead down, one directory after the other. *)
Lemma walk_names fs path cur names :
  Forall (λ name, Path.file_name name = true) names →
  (∀ i, i < length names → FS.lookup fs (cur ++ take i names) = Some Dir) →
  FS.walk fs path cur names = inr (cur ++ names).
Proof.
  intros Hall. revert cur.
  induction Hall as [|b names Hb _ IH]; intros cur Hdirs.
  { by rewrite app_nil_r. }
  destruct (file_name_inv b Hb) as (_ & _ & Hb1 & Hb2 & Hb3).
  cbn [FS.walk]. specialize (Hdirs 0 ltac:(simpl; lia)) as Hcur.
  rewrite take_0, app_nil_r in Hcur. rewrite Hcur.
  rewrite bool_decide_eq_false_2 by (by intros [?|?]).
  rewrite bool_decide_eq_false_2 by done.
  rewrite IH; [by rewrite <- (assoc_L (++))|].
  intros i Hi. rewrite <- (assoc_L (++)). apply (Hdirs (S i)). simpl. lia.
Qed.

Lemma walk_names_inv fs path cur names k :
  Forall (λ name, Path.file_name name = true) names →
  FS.walk fs path cur names = inr k → k = cur ++ names.
Proof.
  intros Hall. revert cur.
  induction Hall as [|b names Hb _ IH]; intros cur.
  { rewrite app_nil_r. by intros [= <-]. }
  destruct (file_name_inv b Hb) as (_ & _ & Hb1 & Hb2 & Hb3).
  cbn [FS.walk]. destruct (FS.lookup fs cur) as [[raw|]|]; [done| |done].
  rewrite bool_decide_eq_false_2 by (by intros [?|?]).
  rewrite bool_decide_eq_false_2 by done.
  intros Hwalk%IH. by rewrite <- (assoc_L (++)) in Hwalk.
Qed.

(** The components of a path of plain names, from where it starts. *)
Lemma walk_path_of fs path absolute names :
  names ≠ [] → Forall (λ name, Path.file_name name = true) names →
  FS.walk fs path (FS.start fs (path_of absolute names))
    (split SLASH (path_of absolute names))
  = FS.walk fs path (if absolute then [] else cwd fs) names.
Proof.
  intros Hne Hall. unfold FS.start.
  rewrite startswith_path_of, split_path_of by done.
  destruct absolute; [|done]. cbn [app FS.walk]. rewrite lookup_root.
  by rewrite bool_decide_eq_true_2 by auto.
Qed.

Lemma resolve_path_of fs absolute names :
  names ≠ [] → Forall (λ name, Path.file_name name = true) names →
  FS.resolve fs (path_of absolute names)
  = FS.walk fs (path_of absolute names)
      (if absolute then [] else cwd fs) names.
Proof.
  intros Hne Hall. unfold FS.resolve.
  rewrite has_nul_path_of by done.
  rewrite bool_decide_eq_false_2 by (by apply path_of_not_empty).
  by apply walk_path_of.
Qed.

Lemma exists_root fs : FS.exists_ fs "/" = true.
Proof. reflexivity. Qed.

(** The place of a file name in a directory. *)
Lemma resolve_join fs a b dir :
  Path.file_name b = true →
  FS.resolve fs a = inr dir → FS.lookup fs dir = Some Dir →
  ∃ comps,
    split SLASH (Path.join a b) = comps ++ [b]
    ∧ FS.walk fs (Path.join a b) (FS.start fs (Path.join a b)) comps
      = inr dir
    ∧ FS.resolve fs (Path.join a b) = inr (dir ++ [b]).
Proof.
  intros Hb Hres Hdir. unfold FS.resolve in Hres.
  destruct (Path.has_nul a) eqn:Hnul; [done|].
  case_bool_decide as Ha; [done|].
  destruct (split_join a b Hb) as (comps & Hsplit & Hcomps).
  exists comps. split; [done|].
  assert (FS.walk fs (Path.join a b) (FS.start fs (Path.join a b)) comps
          = inr dir) as Hwalk.
  { unfold FS.start. rewrite startswith_join by done.
    destruct (Hcomps Ha) as [Heq|Heq]; rewrite Heq in Hres.
    - by apply (walk_path _ a).
    - apply walk_snoc_empty in Hres as [Hres _]. by apply (walk_path _ a). }
  split; [done|]. unfold FS.resolve.
  rewrite has_nul_join by done.
  rewrite bool_decide_eq_false_2 by (by apply join_not_empty).
  rewrite Hsplit. by apply walk_snoc_name.
Qed.

Lemma rstrip_empty_snoc comps b :
  b ≠ "" → FS.rstrip_empty (comps ++ [b]) = comps ++ [b].
Proof.
  intros Hb. induction comps as [|comp comps IH].
  - cbn. by rewrite bool_decide_eq_false_2.
  - cbn [app FS.rstrip_empty]. rewrite IH. by destruct comps.
Qed.

(** *** Writing *)

Lemma write_text_join fs a b dir text :
  Path.file_name b = true →
  FS.resolve fs a = inr dir → FS.lookup fs dir = Some Dir →
  FS.lookup fs (dir ++ [b]) ≠ Some Dir →
  FS.write_text (Path.join a b) text fs
  = (inr (), FS.put (dir ++ [b]) (File text) fs).
Proof.
  intros Hb Hres Hdir Hfile.
  destruct (resolve_join fs a b dir Hb Hres Hdir) as (comps & Hsplit & Hwalk & _).
  destruct (file_name_inv b Hb) as (_ & _ & Hb1 & Hb2 & Hb3).
  unfold FS.resolve in Hres. destruct (Path.has_nul a) eqn:Hnul; [done|].
  unfold FS.write_text. rewrite has_nul_join by done.
  rewrite bool_decide_eq_false_2 by (by apply join_not_empty).
  cbn zeta. rewrite Hsplit, rstrip_empty_snoc, last_snoc, removelast_last by done.
  rewrite Hwalk, Hdir, endswith_slash_join by done.
  rewrite bool_decide_eq_false_2 by (by intros [?|?]). cbn [orb].
  by destruct (FS.lookup fs (dir ++ [b])) as [[raw|]|].
Qed.

(** What a write can do to the disk. *)
Lemma write_text_cases fs path text :
  (FS.write_text path text fs).2 = fs
  ∨ ∃ parent name,
      FS.write_text path text fs
      = (inr (), FS.put (parent ++ [name]) (File text) fs)
      ∧ last (FS.rstrip_empty (split SLASH path)) = Some name
      ∧ FS.lookup fs parent = Some Dir
      ∧ FS.lookup fs (parent ++ [name]) ≠ Some Dir.
Proof.
  unfold FS.write_text. destruct (Path.has_nul path); [by left|].
  case_bool_decide; [by left|]. cbn zeta.
  destruct (last (FS.rstrip_empty (split SLASH path))) as [name|] eqn:Hlast;
    [|by left].
  destruct (FS.walk _ _ _ _) as [e|parent]; [by left|].
  destruct (FS.lookup fs parent) as [[raw|]|] eqn:Hparent; [by left| |by left].
  destruct (endswith_slash path) eqn:Hend; [by left|]. cbn [orb].
  case_bool_decide; [by left|].
  destruct (FS.lookup fs (parent ++ [name])) as [[raw|]|] eqn:Hfile;
    [right|by left|right]; exists parent, name; by rewrite Hfile.
Qed.

Lemma write_text_well_formed fs path text :
  FS.well_formed fs → FS.well_formed (FS.write_text path text fs).2.
Proof.
  intros Hwf.
  destruct (write_text_cases fs path text)
    as [->|(parent & name & -> & _ & Hparent & Hfile)]; [done|].
  apply well_formed_put_file; [done..|]. by rewrite removelast_last.
Qed.

Lemma write_text_cwd fs path text :
  cwd (FS.write_text path text fs).2 = cwd fs.
Proof.
  destruct (write_text_cases fs path text)
    as [->|(parent & name & -> & _)]; done.
Qed.

(** *** Making directories *)

(** What [os.mkdir] can do to the disk. *)
Lemma mkdir_cases fs path :
  (∃ e, FS.mkdir path fs = (inl e, fs) ∧ e ≠ RecursionError)
  ∨ ∃ parent name,
      FS.mkdir path fs = (inr (), FS.put (parent ++ [name]) Dir fs)
      ∧ FS.lookup fs parent = Some Dir
      ∧ FS.lookup fs (parent ++ [name]) = None.
Proof.
  assert (∀ cur comps,
            FS.walk fs path cur comps ≠ inl RecursionError) as Hwalk.
  { intros cur comps. revert cur.
    induction comps as [|comp comps IH]; intros cur; [done|].
    cbn [FS.walk]. destruct (FS.lookup fs cur) as [[raw|]|]; [done| |done].
    apply IH. }
  unfold FS.mkdir. destruct (Path.has_nul path); [left; by eexists|].
  case_bool_decide; [left; by eexists|]. cbn zeta.
  destruct (last (FS.rstrip_empty (split SLASH path))) as [name|];
    [|left; by eexists].
  destruct (FS.walk _ _ _ _) as [e|parent] eqn:E.
  { left. exists e. split; [done|]. intros ->. by destruct (Hwalk _ _ E). }
  destruct (FS.lookup fs parent) as [[raw|]|] eqn:Hparent;
    [left; by eexists| |left; by eexists].
  case_bool_decide; [left; by eexists|].
  destruct (FS.lookup fs (parent ++ [name])) as [n|] eqn:Hname;
    [left; by eexists|].
  right. by exists parent, name.
Qed.

Lemma mkdir_well_formed fs path :
  FS.well_formed fs → FS.well_formed (FS.mkdir path fs).2.
Proof.
  intros Hwf. destruct (mkdir_cases fs path)
    as [(e & -> & _)|(parent & name & -> & Hparent & Hname)]; [done|].
  apply well_formed_put_dir; [done..|]. by rewrite removelast_last.
Qed.

(** Making a directory named by plain names, in a directory that is
    there. *)
Lemma mkdir_names fs absolute names b :
  Forall (λ name, Path.file_name name = true) names →
  Path.file_name b = true →
  let base : list string := if absolute then [] else cwd fs in
  (∀ i, i ≤ length names → FS.lookup fs (base ++ take i names) = Some Dir) →
  FS.lookup fs (base ++ names ++ [b]) = None →
  FS.mkdir (path_of absolute (names ++ [b])) fs
  = (inr (), FS.put (base ++ names ++ [b]) Dir fs).
Proof.
  intros Hall Hb base Hdirs Hnew.
  assert (Forall (λ name, Path.file_name name = true) (names ++ [b])) as Hall'.
  { apply Forall_app. split; [done|]. by apply Forall_singleton. }
  assert (names ++ [b] ≠ []) as Hne by (by destruct names).
  destruct (file_name_inv b Hb) as (_ & _ & Hb1 & Hb2 & Hb3).
  unfold FS.mkdir. rewrite has_nul_path_of by done.
  rewrite bool_decide_eq_false_2 by (by apply path_of_not_empty).
  cbn zeta. rewrite split_path_of by done.
  rewrite (assoc_L (++)), rstrip_empty_snoc, last_snoc, removelast_last
    by done.
  assert (FS.walk fs (path_of absolute (names ++ [b]))
            (FS.start fs (path_of absolute (names ++ [b])))
            ((if absolute then [""] else []) ++ names)
          = inr (base ++ names)) as ->.
  { unfold FS.start. rewrite startswith_path_of by done. subst base.
    assert (∀ cur, (∀ i, i < length names →
                      FS.lookup fs (cur ++ take i names) = Some Dir) →
              FS.walk fs (path_of absolute (names ++ [b])) cur names
              = inr (cur ++ names)) as Hwalk.
    { intros cur Hcur. by apply walk_names. }
    destruct absolute.
    - cbn [app FS.walk]. rewrite lookup_root.
      rewrite bool_decide_eq_true_2 by auto.
      apply Hwalk. intros i Hi. apply Hdirs. lia.
    - apply Hwalk. intros i Hi. apply Hdirs. lia. }
  specialize (Hdirs (length names) ltac:(lia)) as Hparent.
  rewrite firstn_all in Hparent. rewrite Hparent.
  rewrite bool_decide_eq_false_2 by (by intros [?|?]).
  rewrite <- (assoc_L (++)), Hnew. done.
Qed.

End FSFacts.

Section Makedirs.

Implicit Types (fs : files) (p q cur : list string) (n : node).
Implicit Types (path a b : string) (names comps : list string) (absolute : bool).

Lemma stat_path_of fs absolute names n :
  names ≠ [] → Forall (λ name, Path.file_name name = true) names →
  FS.stat fs (path_of absolute names) = inr n →
  FS.lookup fs ((if absolute then [] else cwd fs) ++ names) = Some n.
Proof.
  intros Hne Hall. unfold FS.stat. rewrite resolve_path_of by done.
  destruct (FS.walk _ _ _ _) as [e|k] eqn:Hwalk; [done|].
  apply walk_names_inv in Hwalk as ->; [|done].
  cbn [mbind result_bind].
  destruct (FS.lookup _ _); [by intros [= ->]|done].
Qed.

(** A directory named by plain names resolves to its place. *)
Lemma resolve_names fs absolute names :
  names ≠ [] → Forall (λ name, Path.file_name name = true) names →
  FS.well_formed fs →
  FS.lookup fs ((if absolute then [] else cwd fs) ++ names) = Some Dir →
  FS.resolve fs (path_of absolute names)
  = inr ((if absolute then [] else cwd fs) ++ names).
Proof.
  intros Hne Hall Hwf Hdir. rewrite resolve_path_of by done.
  apply walk_names; [done|]. intros i Hi.
  apply (well_formed_dirs fs _ _ Hwf Hdir).
  apply prefix_app, prefix_take.
Qed.

(** [os.makedirs] makes an absent directory named by plain names, and
    what is absent above it, when no regular file is in the way. *)
Lemma makedirs_fuel_names absolute names :
  Forall (λ name, Path.file_name name = true) names → names ≠ [] →
  ∀ fuel fs,
    String.length (path_of absolute names) < fuel →
    FS.well_formed fs →
    FS.lookup fs (if absolute then [] else cwd fs) = Some Dir →
    FS.lookup fs ((if absolute then [] else cwd fs) ++ names) = None →
    no_file_on_path fs ((if absolute then [] else cwd fs) ++ names) →
    ∃ fs', FS.makedirs_fuel fuel (path_of absolute names) fs = (inr (), fs')
      ∧ FS.well_formed fs'
      ∧ FS.lookup fs' ((if absolute then [] else cwd fs) ++ names) = Some Dir
      ∧ dirs_made fs fs' ((if absolute then [] else cwd fs) ++ names).
Proof.
  induction names as [|b names IH] using rev_ind; [done|].
  intros Hall _ fuel fs Hfuel Hwf Hbase Habsent Hno.
  apply Forall_app in Hall as [Hall Hb]. rewrite Forall_singleton in Hb.
  destruct (file_name_inv b Hb) as (_ & _ & Hb1 & Hb2 & Hb3).
  set (base := if absolute then [] else cwd fs) in *.
  destruct fuel as [|fuel]; [lia|]. cbn [FS.makedirs_fuel].
  rewrite split_path_of_snoc by done.
  rewrite (bool_decide_eq_false_2 (b = "")) by done.
  (* the directory made last, in a disk where its parent is there *)
  assert (∀ fs1, cwd fs1 = cwd fs → FS.well_formed fs1 →
            FS.lookup fs1 (base ++ names) = Some Dir →
            dirs_made fs fs1 (base ++ names) →
            ∃ fs', FS.mkdir (path_of absolute (names ++ [b])) fs1
                   = (inr (), fs')
              ∧ FS.well_formed fs'
              ∧ FS.lookup fs' (base ++ names ++ [b]) = Some Dir
              ∧ dirs_made fs fs' (base ++ names ++ [b])) as Hlast.
  { intros fs1 Hcwd Hwf1 Hdir [_ Hmade].
    assert (FS.lookup fs1 (base ++ names ++ [b]) = None) as Hnew.
    { destruct (Hmade (base ++ names ++ [b])) as [->|(Hq & _)]; [done|].
      apply prefix_length in Hq. rewrite !length_app in Hq.
      simpl in Hq. lia. }
    assert (base ++ names ++ [b] ≠ []) as Hkey by (by destruct base, names).
    exists (FS.put (base ++ names ++ [b]) Dir fs1).
    split_and!.
    - rewrite (mkdir_names fs1 absolute names b Hall Hb);
        rewrite Hcwd; fold base; [done| |done].
      intros i Hi. apply (well_formed_dirs fs1 _ _ Hwf1 Hdir).
      apply prefix_app, prefix_take.
    - apply well_formed_put_dir; [done..|].
      by rewrite !(assoc_L (++)), removelast_last.
    - by apply lookup_put_same.
    - split; [done|]. intros q.
      destruct (decide (q = base ++ names ++ [b])) as [->|Hq].
      + right. split_and!; [done|done|]. by apply lookup_put_same.
      + rewrite lookup_put_other by done.
        destruct (Hmade q) as [->|(Hq' & Hq1 & Hq2)]; [by left|right].
        split_and!; [|done..]. etrans; [done|]. by apply prefix_app, prefix_app_r. }
  destruct (decide (names = [])) as [->|Hne].
  - (* one name: the head is empty or the root, which is there *)
    assert (bool_decide ((if absolute then "/" else "") ≠ "" ∧ b ≠ "")
            && negb (FS.exists_ fs (if absolute then "/" else ""))
            = false) as ->.
    { destruct absolute; [by rewrite exists_root, andb_false_r|].
      by rewrite bool_decide_eq_false_2 by (by intros [? _]). }
    cbn [app] in *.
    apply (Hlast fs); [done|done|by rewrite app_nil_r|apply dirs_made_refl].
  - rewrite bool_decide_eq_true_2
      by (split; [by apply path_of_not_empty|done]).
    cbn [andb].
    destruct (FS.lookup fs (base ++ names)) as [n|] eqn:Hparent.
    + (* the parent is there *)
      assert (n = Dir) as ->.
      { destruct n as [raw|]; [|done]. destruct (Hno (base ++ names) raw);
          [|done]. by apply prefix_app, prefix_app_r. }
      assert (FS.exists_ fs (path_of absolute names) = true) as ->.
      { unfold FS.exists_, FS.stat.
        rewrite (resolve_names fs absolute names) by done.
        cbn [mbind result_bind]. fold base. by rewrite Hparent. }
      cbn [negb]. apply Hlast; [done..|apply dirs_made_refl].
    + (* the parent is made first *)
      assert (FS.exists_ fs (path_of absolute names) = false) as ->.
      { unfold FS.exists_.
        destruct (FS.stat fs (path_of absolute names)) as [e|n] eqn:Hstat;
          [done|].
        apply stat_path_of in Hstat; [|done..]. fold base in Hstat.
        by rewrite Hparent in Hstat. }
      cbn [negb].
      destruct (IH Hall Hne fuel fs) as (fs1 & -> & Hwf1 & Hdir & Hmade);
        [|done..| |].
      { pose proof (length_path_of_snoc absolute names b Hne). lia. }
      { intros q raw Hq. apply Hno. etrans; [done|].
        by apply prefix_app, prefix_app_r. }
      fold base in Hdir, Hmade.
      rewrite (bool_decide_eq_false_2 (b = ".")) by done.
      apply Hlast; [by destruct Hmade|done..].
Qed.

(** *** What a call may change *)

Lemma footprint_refl fs : report_footprint fs fs.
Proof. split; [done|]. intros q. by left. Qed.

Lemma footprint_trans fs1 fs2 fs3 :
  report_footprint fs1 fs2 → report_footprint fs2 fs3 →
  report_footprint fs1 fs3.
Proof.
  intros [Hcwd1 H1] [Hcwd2 H2]. split; [congruence|]. intros q.
  destruct (H1 q) as [E1|[(Ha1 & Hd1)|(Hl1 & Hn1 & html1 & Hf1)]],
    (H2 q) as [E2|[(Ha2 & Hd2)|(Hl2 & Hn2 & html2 & Hf2)]].
  - left. congruence.
  - right. left. split; congruence.
  - right. right. split_and!; [done|congruence|by exists html2].
  - right. left. split; congruence.
  - congruence.
  - by destruct Hn2.
  - right. right. split_and!; [done..|]. exists html1. congruence.
  - congruence.
  - right. right. split_and!; [done..|]. by exists html2.
Qed.

Lemma footprint_put_dir fs p :
  FS.lookup fs p = None → report_footprint fs (FS.put p Dir fs).
Proof.
  intros Hp. destruct (lookup_None fs p Hp) as [Hne _].
  split; [done|]. intros q. destruct (decide (q = p)) as [->|Hq].
  - right. left. split; [done|]. by apply lookup_put_same.
  - left. by apply lookup_put_other.
Qed.

Lemma mkdir_footprint fs path : report_footprint fs (FS.mkdir path fs).2.
Proof.
  destruct (mkdir_cases fs path)
    as [(e & -> & _)|(parent & name & -> & Hparent & Hname)].
  - apply footprint_refl.
  - by apply footprint_put_dir.
Qed.

Lemma makedirs_fuel_footprint fuel path fs :
  report_footprint fs (FS.makedirs_fuel fuel path fs).2.
Proof.
  revert path fs. induction fuel as [|fuel IH]; intros path fs.
  { apply footprint_refl. }
  cbn [FS.makedirs_fuel].
  destruct (Path.split path) as [head tail].
  destruct (if bool_decide (tail = "") then Path.split head else (head, tail))
    as [head' tail'].
  destruct (bool_decide (head' ≠ "" ∧ tail' ≠ "")
            && negb (FS.exists_ fs head')); [|apply mkdir_footprint].
  specialize (IH head' fs).
  destruct (FS.makedirs_fuel fuel head' fs) as [[e|[]] fs1]; cbn [snd] in IH.
  - destruct e; try done.
    destruct (bool_decide (tail' = ".")); [done|].
    eapply footprint_trans; [done|apply mkdir_footprint].
  - destruct (bool_decide (tail' = ".")); [done|].
    eapply footprint_trans; [done|apply mkdir_footprint].
Qed.

Lemma makedirs_fuel_well_formed fuel path fs :
  FS.well_formed fs → FS.well_formed (FS.makedirs_fuel fuel path fs).2.
Proof.
  revert path fs. induction fuel as [|fuel IH]; intros path fs Hwf; [done|].
  cbn [FS.makedirs_fuel].
  destruct (Path.split path) as [head tail].
  destruct (if bool_decide (tail = "") then Path.split head else (head, tail))
    as [head' tail'].
  destruct (bool_decide (head' ≠ "" ∧ tail' ≠ "")
            && negb (FS.exists_ fs head')); [|by apply mkdir_well_formed].
  specialize (IH head' fs Hwf).
  destruct (FS.makedirs_fuel fuel head' fs) as [[e|[]] fs1]; cbn [snd] in IH.
  - destruct e; try done.
    destruct (bool_decide (tail' = ".")); [done|].
    by apply mkdir_well_formed.
  - destruct (bool_decide (tail' = ".")); [done|].
    by apply mkdir_well_formed.
Qed.

(** The file a write makes, seen from the disk before. *)
Lemma write_text_footprint fs a b text :
  Path.file_name b = true →
  ∀ q, FS.lookup (FS.write_text (Path.join a b) text fs).2 q = FS.lookup fs q
       ∨ (last q = Some b ∧ FS.lookup fs q ≠ Some Dir
          ∧ FS.lookup (FS.write_text (Path.join a b) text fs).2 q
            = Some (File text)).
Proof.
  intros Hb q. destruct (file_name_inv b Hb) as (_ & _ & Hb1 & _).
  destruct (write_text_cases fs (Path.join a b) text)
    as [->|(parent & name & -> & Hlast & Hparent & Hfile)]; [by left|].
  destruct (split_join a b Hb) as (comps & Hsplit & _).
  rewrite Hsplit, rstrip_empty_snoc, last_snoc in Hlast by done.
  injection Hlast as <-. cbn [snd].
  destruct (decide (q = parent ++ [b])) as [->|Hq].
  - right. rewrite last_snoc. split_and!; [done..|].
    apply lookup_put_same. by destruct parent.
  - left. by apply lookup_put_other.
Qed.

End Makedirs.

Section Frames.

Implicit Types (fs : files) (p q cur : list string) (n : node).
Implicit Types (path a b : string) (names comps : list string) (absolute : bool).

(** *** The recursion of [os.makedirs] ends *)

Lemma rpartition_app_eq path :
  (Path.rpartition path).1 +:+ (Path.rpartition path).2 = path.
Proof.
  induction path as [|c path IH]; [done|]. cbn [Path.rpartition].
  destruct (Path.rpartition path) as [head tail]. cbn [fst snd] in IH.
  case_bool_decide as Hhead.
  - subst head. rewrite str_app_nil_l in IH. subst tail.
    by case_bool_decide.
  - cbn [fst snd]. by rewrite str_app_cons, IH.
Qed.

Lemma rstrip_length s : String.length (Path.rstrip s) ≤ String.length s.
Proof.
  induction s as [|c s IH]; [done|]. cbn [Path.rstrip].
  destruct (Path.rstrip s) as [|c' s'].
  - case_bool_decide; cbn; lia.
  - cbn in *. lia.
Qed.

Lemma split_length path :
  String.length (Path.split path).1 + String.length (Path.split path).2
  ≤ String.length path.
Proof.
  unfold Path.split. pose proof (rpartition_app_eq path) as Heq.
  destruct (Path.rpartition path) as [head tail]. cbn [fst snd] in *.
  rewrite <- Heq, str_length_app.
  pose proof (rstrip_length head). case_bool_decide; lia.
Qed.

(** With fuel above the length of the path, it never runs out. *)
Lemma makedirs_fuel_enough fuel path fs :
  String.length path < fuel →
  (FS.makedirs_fuel fuel path fs).1 ≠ inl RecursionError.
Proof.
  assert (∀ path fs, (FS.mkdir path fs).1 ≠ inl RecursionError) as Hmkdir.
  { intros path' fs'. destruct (mkdir_cases fs' path')
      as [(e & -> & He)|(parent & name & -> & _)]; [|done].
    by intros [= ->]. }
  revert path fs. induction fuel as [|fuel IH]; intros path fs Hfuel; [lia|].
  cbn [FS.makedirs_fuel].
  pose proof (split_length path) as Hlen.
  destruct (Path.split path) as [head tail]. cbn [fst snd] in Hlen.
  assert (∀ head' tail',
            (if bool_decide (tail = "") then Path.split head
             else (head, tail)) = (head', tail') →
            tail' ≠ "" → String.length head' < fuel) as Hhead.
  { intros head' tail' Heq Htail. case_bool_decide.
    - pose proof (split_length head) as Hlen'. rewrite Heq in Hlen'.
      cbn [fst snd] in Hlen'. destruct tail'; [done|]. cbn in Hlen'. lia.
    - injection Heq as <- <-. destruct tail; [done|]. cbn in Hlen. lia. }
  destruct (if bool_decide (tail = "") then Path.split head else (head, tail))
    as [head' tail'].
  case_bool_decide as Hcond; cbn [andb]; [|apply Hmkdir].
  destruct (FS.exists_ fs head'); cbn [negb]; [apply Hmkdir|].
  specialize (IH head' fs (Hhead _ _ eq_refl (proj2 Hcond))).
  destruct (FS.makedirs_fuel fuel head' fs) as [[e|[]] fs1]; cbn [fst] in IH.
  - destruct e; try done; destruct (bool_decide (tail' = "."));
      first [done | apply Hmkdir].
  - destruct (bool_decide (tail' = ".")); [done|apply Hmkdir].
Qed.

(** *** What stays under a footprint *)

Lemma footprint_dir_kept fs fs' q :
  report_footprint fs fs' → FS.lookup fs q = Some Dir →
  FS.lookup fs' q = Some Dir.
Proof.
  intros [_ Hfoot] Hdir.
  destruct (Hfoot q) as [->|[(Ha & _)|(_ & Hn & _)]]; [done|congruence|done].
Qed.

Lemma dirs_made_footprint fs fs' p :
  dirs_made fs fs' p → report_footprint fs fs'.
Proof.
  intros [Hcwd Hmade]. split; [done|]. intros q.
  destruct (Hmade q) as [->|(_ & Ha & Hd)]; [by left|right; by left].
Qed.

Lemma resolve_footprint fs fs' path k :
  report_footprint fs fs' →
  FS.resolve fs path = inr k → FS.resolve fs' path = inr k.
Proof.
  intros Hfoot. unfold FS.resolve, FS.start. rewrite (proj1 Hfoot).
  destruct (Path.has_nul path); [done|]. case_bool_decide; [done|].
  apply walk_kept. intros q. by apply footprint_dir_kept.
Qed.

(** The place of a file joined to a directory ends with its name. *)
Lemma resolve_join_inv fs a b k :
  Path.file_name b = true → FS.resolve fs (Path.join a b) = inr k →
  last k = Some b.
Proof.
  intros Hb. destruct (file_name_inv b Hb) as (_ & _ & Hb1 & Hb2 & Hb3).
  unfold FS.resolve. destruct (Path.has_nul _); [done|].
  case_bool_decide; [done|].
  destruct (split_join a b Hb) as (comps & -> & _). rewrite walk_app.
  destruct (FS.walk _ _ _ comps) as [e|dir]; [done|].
  cbn [mbind result_bind FS.walk].
  destruct (FS.lookup fs dir) as [[raw|]|]; [done| |done].
  rewrite bool_decide_eq_false_2 by (by intros [?|?]).
  rewrite bool_decide_eq_false_2 by done. intros [= <-]. apply last_snoc.
Qed.

(** A regular file of another name than the report's is read the same
    after a run of the Writer. *)
Lemma stat_footprint fs fs' a b raw :
  report_footprint fs fs' →
  Path.file_name b = true → b ≠ "code_review.html" →
  FS.stat fs (Path.join a b) = inr (File raw) →
  FS.stat fs' (Path.join a b) = inr (File raw).
Proof.
  intros Hfoot Hb Hname. unfold FS.stat.
  destruct (FS.resolve fs (Path.join a b)) as [e|k] eqn:Hres; [done|].
  rewrite (resolve_footprint _ _ _ _ Hfoot Hres). cbn [mbind result_bind].
  pose proof (resolve_join_inv _ _ _ _ Hb Hres) as Hlast.
  destruct (FS.lookup fs k) as [n|] eqn:Hk; [|done]. intros [= ->].
  destruct Hfoot as [_ Hfoot].
  destruct (Hfoot k) as [->|[(Ha & _)|(Hl & _)]]; [by rewrite Hk|congruence|].
  rewrite Hlast in Hl. by injection Hl.
Qed.

End Frames.

(** ** The monad *)

Section MonadFacts.

Context {A B : Type}.
Implicit Types (m : M A) (k : A → M B) (w : world).

Lemma bind_ok m k w a w' : m w = (inr a, w') → (m ≫= k) w = k a w'.
Proof. intros Hm. unfold mbind, M_bind. by rewrite Hm. Qed.

Lemma bind_raise m k w e w' :
  m w = (inl e, w') → (m ≫= k) w = (inl e, w').
Proof. intros Hm. unfold mbind, M_bind. by rewrite Hm. Qed.

End MonadFacts.

(** ** The verbosity flag *)

Section LevelBlind.

Variable base : list (level * string).

Lemma blind_ret {A} (a : A) : level_blind base (mret a).
Proof. by intros wq wl Hw. Qed.

Lemma blind_raise {A} (e : exn) : level_blind base (raise (A:=A) e).
Proof. by intros wq wl Hw. Qed.

Lemma blind_lift {A} (r : result A) : level_blind base (lift r).
Proof. by intros wq wl Hw. Qed.

Lemma blind_bind {A B} (m : M A) (k : A → M B) :
  level_blind base m → (∀ a, level_blind base (k a)) →
  level_blind base (m ≫= k).
Proof.
  intros Hm Hk wq wl Hw. destruct (Hm wq wl Hw) as [Hres Hw'].
  unfold mbind, M_bind.
  destruct (m wq) as [[e|a] wq'], (m wl) as [[e'|a'] wl'];
    simplify_eq/=; [done|]. by apply Hk.
Qed.

(** A record at [INFO] or above is emitted in both worlds. *)
Lemma blind_log l msg :
  l ≠ DEBUG → level_blind base (logger_log l msg).
Proof.
  intros Hl wq wl (Hfs & Hreq & Hq & Hl' & records & Hlogq & Hlogl).
  unfold logger_log. rewrite Hq, Hl'.
  destruct l; [done|..]; cbn; (split; [done|]);
    (split_and!; [done..|]); eexists; cbn;
    (split; [by rewrite Hlogq, <- (assoc_L (++))|]);
    by rewrite Hlogl, <- (assoc_L (++)).
Qed.

(** A computation that reads the disk only. *)
Lemma blind_read_fs {A} (f : files → result A) :
  level_blind base (λ w, (f (w_fs w), w)).
Proof.
  intros wq wl Hw. cbn. split; [|done]. by destruct Hw as (-> & _).
Qed.

Lemma blind_on_fs {A} (op : files → result A * files) :
  level_blind base (on_fs op).
Proof.
  intros wq wl (Hfs & Hreq & Hq & Hl & Hlog). unfold on_fs. rewrite Hfs.
  by destruct (op (w_fs wl)).
Qed.

Lemma blind_get_file file_path : level_blind base (get_file file_path).
Proof.
  unfold get_file. apply blind_bind.
  { apply (blind_read_fs (λ fs, inr (FS.isfile fs _))). }
  intros [|]; cbn [negb].
  - apply blind_bind.
    { apply (blind_read_fs (λ fs, lines_keepends <$> FS.read_text fs _)). }
    intros lines. apply blind_bind; [by apply blind_log|].
    intros _. apply blind_ret.
  - apply blind_bind; [by apply blind_log|]. intros _. apply blind_raise.
Qed.

End LevelBlind.

(** ** Report Renderer and Writer, Entry Point *)

Section PipelineFacts.

Variable fromstring : string → option Element.
Variable OpenAI_new : result OpenAI.
Variable service : request → option (list string).
Variable module_dir : string.

Implicit Types (w : world) (review output_dir : string) (root : Element).

(** The path of the template. *)
Local Abbreviation html_template_path :=
  (Path.join (Path.join module_dir "templates") "code_review_template.html").

(** When the text does not parse or the document does not render,
    nothing happens but the exception. *)
Lemma generate_report_no_render review output_dir w :
  (fromstring review = None
   ∨ ∃ root, fromstring review = Some root
       ∧ ∀ html_template, is_error (add_content_to_html html_template root)) →
  ∃ e, generate_report fromstring module_dir review output_dir w = (inl e, w).
Proof.
  intros Hbad. unfold generate_report, ET_fromstring.
  destruct Hbad as [->|(root & -> & Hrender)];
    [exists ParseError; reflexivity|].
  unfold mbind, M_bind, mret, M_ret, open_read, lift.
  destruct (FS.read_text (w_fs w) html_template_path) as [e|tpl];
    [by exists e|].
  destruct (Hrender tpl) as [e ->]. by exists e.
Qed.

(** What a log call does. *)
Lemma logger_log_run l msg w :
  logger_log l msg w
  = (inr (),
     World (w_fs w) (w_level w)
       (w_log w
          ++ (if levelno (w_level w) <=? levelno l then [(l, msg)] else []))
       (w_requests w)).
Proof.
  unfold logger_log. destruct w as [fs lvl log reqs]. cbn.
  case_match; by rewrite ?(right_id_L [] (++)).
Qed.

Lemma emitted_sublist (enabled : bool) (record : level * string) :
  (if enabled then [record] else []) `sublist_of` [record].
Proof. destruct enabled; [done|]. apply sublist_nil_l. Qed.

(** C3. For a malformed review, one whose text does not parse as XML
    or one with a comment that lacks its location or its feedback,
    [generate_report] raises and leaves the world as it was: no file
    is written and an output file that exists is not changed. *)
Theorem generate_report_malformed review output_dir w :
  (fromstring review = None
   ∨ ∃ root, fromstring review = Some root ∧ comment_lacks_child root) →
  ∃ e, generate_report fromstring module_dir review output_dir w = (inl e, w).
Proof.
  intros [Hparse|(root & Hparse & Hlacks)];
    apply generate_report_no_render; [by left|right].
  exists root. split; [done|]. intros html_template.
  by apply render_comment_lacks_child.
Qed.

(** C5. When the root of the parsed review lacks one of the three
    groups, rendering raises whatever the template is, and
    [generate_report] raises and leaves the world as it was: nothing
    is rendered from the groups that are there. *)
Theorem generate_report_missing_group review output_dir w root :
  fromstring review = Some root →
  find root "GeneralObservations" = None
  ∨ find root "SpecificComments" = None
  ∨ find root "ImprovementSuggestions" = None →
  (∀ html_template, is_error (add_content_to_html html_template root))
  ∧ ∃ e, generate_report fromstring module_dir review output_dir w = (inl e, w).
Proof.
  intros Hparse Hmissing.
  assert (∀ html_template,
            is_error (add_content_to_html html_template root)) as Hrender.
  { intros html_template. by apply render_missing_group. }
  split; [done|]. apply generate_report_no_render. right. by exists root.
Qed.

(** The run of [main] on a path that is no regular file. *)
Lemma main_input_file_missing_run input_file output_dir w :
  FS.isfile (w_fs w) (Path.normpath input_file) = false →
  let msg := "File " +:+ Path.normpath input_file +:+ " not found" in
  let emitted l text :=
    if levelno (w_level w) <=? levelno l then [(l, text)] else [] in
  main fromstring OpenAI_new service module_dir input_file output_dir w
  = (inl (match OpenAI_new with
          | inl e => e
          | inr _ => FileNotFoundError msg
          end),
     World (w_fs w) (w_level w)
       (w_log w ++ emitted INFO "Creating OpenAI client"
          ++ match OpenAI_new with
             | inl _ => []
             | inr _ => emitted INFO "Getting file content"
                          ++ emitted ERROR msg
             end)
       (w_requests w)).
Proof.
  intros Hfile msg emitted. unfold main, logger_info, logger_error.
  unfold mbind at 1. unfold M_bind at 1. rewrite logger_log_run.
  unfold mbind at 1. unfold M_bind at 1. unfold lift at 1.
  destruct OpenAI_new as [e|client].
  { by rewrite (right_id_L [] (++)). }
  unfold mbind at 1. unfold M_bind at 1. rewrite logger_log_run.
  unfold mbind at 1. unfold M_bind at 1.
  rewrite get_file_missing by done. cbn zeta. fold msg.
  unfold logger_error. rewrite logger_log_run.
  cbn [fst snd w_fs w_requests w_log w_level].
  by rewrite <- !(assoc_L (++)).
Qed.

(** C4. When the path does not resolve to an existing regular file,
    [get_file] raises the file-not-found error, and [main] stops with
    an exception before the review request: no request has gone out,
    the disk is as it was, and the log has grown by at most the two
    lines before the load and the error line of the loader. *)
Theorem main_input_file_missing input_file output_dir w :
  FS.isfile (w_fs w) (Path.normpath input_file) = false →
  let msg := "File " +:+ Path.normpath input_file +:+ " not found" in
  let run := main fromstring OpenAI_new service module_dir input_file output_dir w in
  (get_file input_file w).1 = inl (FileNotFoundError msg)
  ∧ run.1 = inl (match OpenAI_new with
                 | inl e => e
                 | inr _ => FileNotFoundError msg
                 end)
  ∧ w_requests run.2 = w_requests w
  ∧ w_fs run.2 = w_fs w
  ∧ ∃ records,
      w_log run.2 = w_log w ++ records
      ∧ records `sublist_of` [(INFO, "Creating OpenAI client");
                              (INFO, "Getting file content");
                              (ERROR, msg)].
Proof.
  intros Hfile msg run. split.
  { by rewrite get_file_missing. }
  subst run. rewrite main_input_file_missing_run by done.
  cbn [fst snd w_fs w_requests w_log]. split_and!; [done..|].
  eexists. split; [done|]. apply (sublist_app _ [_] _ [_; _]).
  { apply emitted_sublist. }
  destruct OpenAI_new; [apply sublist_nil_l|].
  apply (sublist_app _ [_] _ [_]); apply emitted_sublist.
Qed.

(** The entry of the report in the directory of the place [dir]. *)
Local Abbreviation report_key dir := (dir ++ ["code_review.html"]).

Lemma set_fs_same w : set_fs (w_fs w) w = w.
Proof. by destruct w. Qed.

(** [generate_report], stage by stage. *)
Lemma generate_report_stages review output_dir w :
  generate_report fromstring module_dir review output_dir w
  = match fromstring review with
    | None => (inl ParseError, w)
    | Some root =>
        match FS.read_text (w_fs w) html_template_path with
        | inl e => (inl e, w)
        | inr html_template =>
            match add_content_to_html html_template root with
            | inl e => (inl e, w)
            | inr final_report =>
                let made :=
                  if FS.exists_ (w_fs w) output_dir then (inr (), w_fs w)
                  else FS.makedirs output_dir (w_fs w) in
                match made.1 with
                | inl e => (inl e, set_fs made.2 w)
                | inr _ =>
                    let written :=
                      FS.write_text
                        (Path.join output_dir "code_review.html")
                        final_report made.2 in
                    match written.1 with
                    | inl e => (inl e, set_fs written.2 w)
                    | inr _ =>
                        logger_info
                          ("Report saved in "
                             +:+ Path.join output_dir "code_review.html")
                          (set_fs written.2 w)
                    end
                end
            end
        end
    end.
Proof.
  unfold generate_report, ET_fromstring.
  destruct (fromstring review) as [root|]; [|done].
  unfold mbind, M_bind, mret, M_ret, open_read, lift, os_path_exists.
  destruct (FS.read_text _ _) as [e|html_template]; [done|].
  destruct (add_content_to_html _ _) as [e|final_report]; [done|].
  cbn zeta. destruct (FS.exists_ (w_fs w) output_dir); cbn [negb fst snd].
  - unfold open_write, on_fs.
    destruct (FS.write_text _ _ _) as [[e|[]] fs2]; done.
  - unfold os_makedirs, on_fs at 1.
    destruct (FS.makedirs _ _) as [[e|[]] fs1]; [done|]. cbn [fst snd].
    unfold open_write, on_fs. cbn [w_fs set_fs].
    destruct (FS.write_text _ _ _) as [[e|[]] fs2]; done.
Qed.

(** The file the Writer writes, seen from the disk before. *)
Lemma write_report_footprint (fs : files) output_dir text :
  report_footprint fs
    (FS.write_text (Path.join output_dir "code_review.html") text fs).2.
Proof.
  split; [apply write_text_cwd|]. intros q.
  destruct (write_text_footprint fs output_dir "code_review.html" text
              eq_refl q) as [->|(Hlast & Hfile & Hq)]; [by left|].
  right. right. split_and!; [done..|by eexists].
Qed.

(** The directory stage: what it leaves on the disk. *)
Lemma made_stage output_dir (fs : files) :
  let made := if FS.exists_ fs output_dir then (inr (), fs)
              else FS.makedirs output_dir fs in
  report_footprint fs made.2
  ∧ (FS.well_formed fs → FS.well_formed made.2).
Proof.
  cbn zeta. destruct (FS.exists_ fs output_dir).
  - split; [apply footprint_refl|done].
  - split; [apply makedirs_fuel_footprint|apply makedirs_fuel_well_formed].
Qed.

(** What a run of [generate_report] changes. *)
Lemma generate_report_changes review output_dir w :
  let run := generate_report fromstring module_dir review output_dir w in
  w_requests run.2 = w_requests w
  ∧ w_level run.2 = w_level w
  ∧ w_log w `prefix_of` w_log run.2
  ∧ report_footprint (w_fs w) (w_fs run.2)
  ∧ (FS.well_formed (w_fs w) → FS.well_formed (w_fs run.2)).
Proof.
  cbn zeta. rewrite generate_report_stages.
  assert (w_requests w = w_requests w ∧ w_level w = w_level w
          ∧ w_log w `prefix_of` w_log w
          ∧ report_footprint (w_fs w) (w_fs w)
          ∧ (FS.well_formed (w_fs w) → FS.well_formed (w_fs w))) as Hsame.
  { split_and!; [done..|apply footprint_refl|done]. }
  destruct (fromstring review) as [root|]; [|done].
  destruct (FS.read_text _ _) as [e|html_template]; [done|].
  destruct (add_content_to_html _ _) as [e|final_report]; [done|].
  cbn zeta. destruct (made_stage output_dir (w_fs w)) as [Hmade Hwf].
  cbn zeta in Hmade, Hwf.
  destruct (if FS.exists_ (w_fs w) output_dir then _ else _)
    as [[e|[]] fs1]; cbn [fst snd] in *.
  { by split_and!. }
  pose proof (write_report_footprint fs1 output_dir final_report) as Hfoot.
  pose proof (write_text_well_formed fs1
                (Path.join output_dir "code_review.html") final_report)
    as Hwf'.
  destruct (FS.write_text _ _ _) as [[e|[]] fs2]; cbn [fst snd] in *.
  { split_and!; [done..|by eapply footprint_trans|auto]. }
  unfold logger_info. rewrite logger_log_run.
  cbn [snd w_requests w_level w_log w_fs set_fs].
  split_and!; [done..|by eexists|by eapply footprint_trans|auto].
Qed.

(** The directory is there when the report is written. *)
Lemma output_dir_ready output_dir dir (fs : files) :
  FS.well_formed fs →
  output_dir_usable fs output_dir dir →
  ∃ fs_mid,
    (if FS.exists_ fs output_dir then (inr (), fs)
     else FS.makedirs output_dir fs) = (inr (), fs_mid)
    ∧ FS.well_formed fs_mid
    ∧ FS.resolve fs_mid output_dir = inr dir
    ∧ FS.lookup fs_mid dir = Some Dir
    ∧ dirs_made fs fs_mid dir.
Proof.
  intros Hwf [[Hres Hdir]|(absolute & names & -> & Hne & Hall & -> & Hbase
                             & Habsent & Hno)].
  - exists fs. unfold FS.exists_, FS.stat. rewrite Hres.
    cbn [mbind result_bind]. rewrite Hdir.
    split_and!; [done..|apply dirs_made_refl].
  - assert (FS.exists_ fs (path_of absolute names) = false) as ->.
    { unfold FS.exists_.
      destruct (FS.stat fs (path_of absolute names)) as [e|n] eqn:Hstat;
        [done|].
      apply stat_path_of in Hstat; [|done..]. by rewrite Habsent in Hstat. }
    unfold FS.makedirs.
    destruct (makedirs_fuel_names absolute names Hall Hne
                (S (String.length (path_of absolute names))) fs)
      as (fs' & Hrun & Hwf' & Hdir & Hmade); [lia|done..|].
    exists fs'. split_and!; [done..| |done|done].
    destruct Hmade as [Hcwd _].
    rewrite (resolve_names fs' absolute names); rewrite ?Hcwd; done.
Qed.

Lemma footprint_put_file (fs : files) (p : list string) text :
  FS.lookup fs p ≠ Some Dir → last p = Some "code_review.html" →
  report_footprint fs (FS.put p (File text) fs).
Proof.
  intros Hp Hlast. pose proof (lookup_not_dir fs p Hp) as Hne.
  split; [done|]. intros q. destruct (decide (q = p)) as [->|Hq].
  - right. right. split_and!; [done..|]. eexists. by apply lookup_put_same.
  - left. by apply lookup_put_other.
Qed.

(** One successful run of [generate_report]. *)
Lemma generate_report_ok review output_dir dir root raw html w :
  FS.well_formed (w_fs w) →
  fromstring review = Some root →
  FS.stat (w_fs w) html_template_path = inr (File raw) →
  utf8_valid raw = true →
  add_content_to_html (universal_newlines raw) root = inr html →
  output_dir_usable (w_fs w) output_dir dir →
  FS.lookup (w_fs w) (report_key dir) ≠ Some Dir →
  ∃ fs_mid,
    generate_report fromstring module_dir review output_dir w
    = logger_info
        ("Report saved in " +:+ Path.join output_dir "code_review.html")
        (set_fs (FS.put (report_key dir) (File html) fs_mid) w)
    ∧ FS.well_formed fs_mid
    ∧ FS.resolve fs_mid output_dir = inr dir
    ∧ FS.lookup fs_mid dir = Some Dir
    ∧ FS.lookup fs_mid (report_key dir) ≠ Some Dir
    ∧ dirs_made (w_fs w) fs_mid dir
    ∧ (FS.exists_ (w_fs w) output_dir = true → fs_mid = w_fs w).
Proof.
  intros Hwf Hparse Htpl Hvalid Hrender Husable Hreport.
  destruct (output_dir_ready output_dir dir (w_fs w) Hwf Husable)
    as (fs_mid & Hready & Hwf_mid & Hres & Hdir & Hmade).
  assert (FS.exists_ (w_fs w) output_dir = true → fs_mid = w_fs w) as Hsame.
  { intros Hexists. rewrite Hexists in Hready. by injection Hready. }
  assert (FS.lookup fs_mid (report_key dir) ≠ Some Dir) as Hreport'.
  { destruct Hmade as [_ Hmade].
    destruct (Hmade (report_key dir)) as [->|(Hq & _)]; [done|].
    apply prefix_length in Hq. rewrite length_app in Hq. simpl in Hq. lia. }
  exists fs_mid. split_and!; [|done..].
  rewrite generate_report_stages, Hparse. unfold FS.read_text.
  rewrite Htpl. cbn [mbind result_bind]. unfold FS.decode. rewrite Hvalid.
  cbn [fmap result_fmap]. rewrite Hrender. cbn zeta. rewrite Hready.
  cbn [fst snd].
  by rewrite (write_text_join fs_mid output_dir "code_review.html" dir html).
Qed.

(** What holds after one successful run: the report is in its file,
    the directory and all above it are directories, and what made the
    run succeed still holds. *)
Lemma generate_report_post review output_dir dir root raw html w :
  FS.well_formed (w_fs w) →
  fromstring review = Some root →
  FS.stat (w_fs w) html_template_path = inr (File raw) →
  utf8_valid raw = true →
  add_content_to_html (universal_newlines raw) root = inr html →
  output_dir_usable (w_fs w) output_dir dir →
  FS.lookup (w_fs w) (report_key dir) ≠ Some Dir →
  let run := generate_report fromstring module_dir review output_dir w in
  run.1 = inr ()
  ∧ FS.well_formed (w_fs run.2)
  ∧ FS.resolve (w_fs run.2) output_dir = inr dir
  ∧ (∀ q, q `prefix_of` dir → FS.lookup (w_fs run.2) q = Some Dir)
  ∧ FS.resolve (w_fs run.2) (Path.join output_dir "code_review.html")
    = inr (report_key dir)
  ∧ FS.lookup (w_fs run.2) (report_key dir) = Some (File html)
  ∧ FS.stat (w_fs run.2) html_template_path = inr (File raw).
Proof.
  intros Hwf Hparse Htpl Hvalid Hrender Husable Hreport run.
  destruct (generate_report_ok _ _ _ _ _ _ _ Hwf Hparse Htpl Hvalid Hrender
              Husable Hreport)
    as (fs_mid & Hrun & Hwf_mid & Hres & Hdir & Hreport' & Hmade & _).
  subst run. rewrite Hrun. unfold logger_info.
  rewrite logger_log_fs. cbn [w_fs set_fs]. rewrite logger_log_run.
  cbn [fst].
  assert (report_footprint fs_mid (FS.put (report_key dir) (File html) fs_mid))
    as Hfoot by (apply footprint_put_file; [done|apply last_snoc]).
  assert (FS.lookup (FS.put (report_key dir) (File html) fs_mid) dir
          = Some Dir) as Hdir' by (by apply (footprint_dir_kept fs_mid)).
  assert (FS.well_formed (FS.put (report_key dir) (File html) fs_mid))
    as Hwf'.
  { apply well_formed_put_file; [done..|]. by rewrite removelast_last. }
  assert (FS.resolve (FS.put (report_key dir) (File html) fs_mid) output_dir
          = inr dir) as Hres' by (by apply (resolve_footprint fs_mid)).
  split_and!; [done..| | | |].
  - intros q Hq. by apply (well_formed_dirs _ dir).
  - by destruct (resolve_join _ output_dir "code_review.html" dir eq_refl
                   Hres' Hdir') as (_ & _ & _ & ->).
  - apply lookup_put_same. by destruct dir.
  - apply (stat_footprint (w_fs w)); [|done..].
    eapply footprint_trans; [by eapply dirs_made_footprint|done].
Qed.


Lemma blind_get_review base file_content client :
  level_blind base (get_review service file_content client).
Proof.
  unfold get_review. apply blind_bind.
  - intros wq wl (Hfs & Hreq & Hq & Hl & Hlog).
    unfold chat_completions_create. cbn. rewrite Hreq. by split.
  - intros [|choice choices]; [apply blind_raise | apply blind_ret].
Qed.

Lemma blind_generate_report base review output_dir :
  level_blind base (generate_report fromstring module_dir review output_dir).
Proof.
  unfold generate_report. apply blind_bind.
  { unfold ET_fromstring. destruct (fromstring review);
      [apply blind_ret | apply blind_raise]. }
  intros root. apply blind_bind.
  { apply (blind_read_fs _ (λ fs, FS.read_text fs _)). }
  intros html_template. apply blind_bind; [apply blind_lift|].
  intros final_report. apply blind_bind.
  { apply (blind_read_fs _ (λ fs, inr (FS.exists_ fs _))). }
  intros dir_exists. apply blind_bind.
  { destruct dir_exists; [apply blind_ret | apply blind_on_fs]. }
  intros _. apply blind_bind; [apply blind_on_fs|].
  intros _. by apply blind_log.
Qed.

Lemma blind_main base input_file output_dir :
  level_blind base (main fromstring OpenAI_new service module_dir input_file output_dir).
Proof.
  unfold main.
  apply blind_bind; [by apply blind_log|]. intros _.
  apply blind_bind; [apply blind_lift|]. intros client.
  apply blind_bind; [by apply blind_log|]. intros _.
  apply blind_bind; [apply blind_get_file|]. intros file_content.
  apply blind_bind; [by apply blind_log|]. intros _.
  apply blind_bind; [apply blind_get_review|]. intros review.
  apply blind_bind; [by apply blind_log|]. intros _.
  apply blind_bind; [apply blind_generate_report|]. intros _.
  by apply blind_log.
Qed.

(** C8. Two runs of the script on the same world and arguments, one
    with and one without the verbosity flag, end alike: the same
    result, the same disk (so the same report file) and the same
    requests; the log of the verbose run has the one debug line
    more. *)
Theorem verbose_changes_logging_only input_file output_path w :
  let quiet := script fromstring OpenAI_new service module_dir (Args input_file output_path false) w in
  let loud := script fromstring OpenAI_new service module_dir (Args input_file output_path true) w in
  quiet.1 = loud.1
  ∧ w_fs quiet.2 = w_fs loud.2
  ∧ w_requests quiet.2 = w_requests loud.2
  ∧ ∃ records,
      w_log quiet.2 = w_log w ++ records
      ∧ w_log loud.2
        = w_log w ++ (DEBUG, "Verbose mode activated") :: records.
Proof.
  intros quiet loud.
  set (wq := World (w_fs w) INFO (w_log w) (w_requests w)).
  set (wl := World (w_fs w) DEBUG
               (w_log w ++ [(DEBUG, "Verbose mode activated")])
               (w_requests w)).
  assert (quiet = main fromstring OpenAI_new service module_dir input_file output_path wq) as -> by done.
  assert (loud = main fromstring OpenAI_new service module_dir input_file output_path wl) as -> by done.
  destruct (blind_main (w_log w) input_file output_path wq wl)
    as (Hres & Hfs & Hreq & _ & _ & Hlog); [|done].
  split_and!; [done..|]. exists []. by rewrite (right_id_L [] (++)).
Qed.

End PipelineFacts.

(** * Concrete runs

    The theorems above at the inputs of [Example]. *)

Section Runs.

Import Example.

Lemma disk_well_formed : FS.well_formed disk.
Proof. refine (bool_decide_unpack _ _). vm_compute. exact I. Defined.

Lemma full_doc_well_formed :
  well_formed full_doc
    [Elem "Observation" (Some "Good naming") []]
    [Elem "Comment" None
       [Elem "Location" (Some "Line 2") [];
        Elem "Feedback" (Some "Unused variable") []]]
    [Elem "Suggestion" (Some "Add tests") []].
Proof.
  split_and!; [by eexists..| |by eexists].
  repeat constructor. by eexists _, _, _, _.
Defined.

Lemma long_doc_well_formed :
  well_formed long_doc
    [Elem "Observation" (Some "Good naming") [];
     Elem "Observation" (Some "Short functions") []]
    [Elem "Comment" None
       [Elem "Location" (Some "Line 2") [];
        Elem "Feedback" (Some "Unused variable") []];
     Elem "Comment" None
       [Elem "Location" (Some "Line 7") [];
        Elem "Feedback" None []]]
    [Elem "Suggestion" (Some "Add tests") [];
     Elem "Suggestion" None [];
     Elem "Suggestion" (Some "Add types") []].
Proof.
  split_and!; [by eexists..| |by eexists].
  repeat constructor; by eexists _, _, _, _.
Defined.

Lemma empty_text_doc_well_formed :
  well_formed empty_text_doc
    [Elem "Observation" None []]
    [Elem "Comment" None
       [Elem "Location" None [];
        Elem "Feedback" (Some "Unused variable") []]]
    [].
Proof.
  split_and!; [by eexists..| |by eexists].
  repeat constructor. by eexists _, _, _, _.
Defined.

(** The example of the specification for the loader. *)
Example get_file_two_lines :
  (get_file "a.py" start).1 = inr ("1: a" +:+ nl +:+ "2: b" +:+ nl).
Proof. vm_compute. reflexivity. Qed.

(** The example of the specification for the renderer. *)
Example add_content_to_html_plain :
  add_content_to_html template plain_doc = inr plain_report.
Proof. vm_compute. reflexivity. Qed.

Lemma get_file_numbers_every_line_run :
  FS.stat (w_fs start) (Path.normpath "a.py") = inr (File source)
  ∧ utf8_valid source = true
  ∧ file_lines source = [("a", nl); ("b", nl)]
  ∧ (get_file "a.py" start).1 = inr ("1: a" +:+ nl +:+ "2: b" +:+ nl).
Proof.
  split; [vm_compute; reflexivity|]. split; [vm_compute; reflexivity|].
  split; [vm_compute; reflexivity|].
  destruct (get_file_numbers_every_line start "a.py" source)
    as (numerals & Hget & Hlen & Hdec & _);
    [vm_compute; reflexivity..|].
  destruct numerals as [|one [|two [|three numerals]]]; try discriminate Hlen.
  rewrite Hget.
  rewrite (decimal_digit 1 one) by (first [lia | apply (Hdec 0); reflexivity]).
  rewrite (decimal_digit 2 two) by (first [lia | apply (Hdec 1); reflexivity]).
  reflexivity.
Defined.

(** C1 as it is stated fails on a regular file that is no text in the
    encoding of the locale: the file has two lines, the second is no
    UTF-8, and [get_file] raises when it reads the file. *)
Lemma get_file_not_utf8 :
  FS.stat (w_fs start) (Path.normpath "binary.py")
  = inr (File source_binary)
  ∧ file_lines source_binary
    = [("ok", nl); (String "255" (String "254" ""), nl)]
  ∧ get_file "binary.py" start = (inl UnicodeDecodeError, start).
Proof. split_and!; vm_compute; reflexivity. Qed.

Lemma get_file_strip_line_numbers_run :
  FS.stat (w_fs start) (Path.normpath "crlf.py") = inr (File source_crlf)
  ∧ utf8_valid source_crlf = true
  ∧ ∃ numbered,
      (get_file "crlf.py" start).1 = inr numbered
      ∧ strip_line_numbers numbered = "a" +:+ nl +:+ "b".
Proof.
  split; [vm_compute; reflexivity|]. split; [vm_compute; reflexivity|].
  destruct (get_file_strip_line_numbers start "crlf.py" source_crlf)
    as (numbered & Hget & Hstrip & _); [vm_compute; reflexivity..|].
  exists numbered. split; [exact Hget | exact Hstrip].
Defined.

(** C9 as it is stated fails on a file with Windows line ends: the
    file holds ["a\r\nb"], the lines without their numbers give
    ["a\nb"]. *)
Lemma get_file_strip_line_numbers_crlf :
  FS.stat (w_fs start) (Path.normpath "crlf.py") = inr (File source_crlf)
  ∧ ∃ numbered,
      (get_file "crlf.py" start).1 = inr numbered
      ∧ strip_line_numbers numbered = "a" +:+ nl +:+ "b"
      ∧ strip_line_numbers numbered ≠ source_crlf.
Proof.
  split; [vm_compute; reflexivity|]. eexists.
  split; [vm_compute; reflexivity|].
  split; [vm_compute; reflexivity|].
  intros Heq. vm_compute in Heq. discriminate Heq.
Qed.

Lemma add_content_to_html_item_counts_run :
  well_formed long_doc
    [Elem "Observation" (Some "Good naming") [];
     Elem "Observation" (Some "Short functions") []]
    [Elem "Comment" None
       [Elem "Location" (Some "Line 2") [];
        Elem "Feedback" (Some "Unused variable") []];
     Elem "Comment" None
       [Elem "Location" (Some "Line 7") [];
        Elem "Feedback" None []]]
    [Elem "Suggestion" (Some "Add tests") [];
     Elem "Suggestion" None [];
     Elem "Suggestion" (Some "Add types") []]
  ∧ add_content_to_html template long_doc
    = inr (template
             +:+ "<h2>General Observations</h2><ul>"
             +:+ "<li>Good naming</li><li>Short functions</li>"
             +:+ "</ul>"
             +:+ "<h2>Specific Comments</h2><ul>"
             +:+ "<li><strong>Line 2:</strong> Unused variable</li><li><strong>Line 7:</strong> None</li>"
             +:+ "</ul>"
             +:+ "<h2>Improvement Suggestions</h2><ul>"
             +:+ "<li>Add tests</li><li>None</li><li>Add types</li>"
             +:+ "</ul>"
             +:+ "</div></body></html>").
Proof.
  split; [exact long_doc_well_formed|].
  destruct (add_content_to_html_item_counts template long_doc _ _ _
              long_doc_well_formed)
    as (os & cs & ss & Hrender & Hos & Hcs & Hss & _).
  rewrite Hrender. clear Hrender.
  apply Forall2_cons_inv_l in Hos as (o1 & os1 & Ho1 & Hos & ->).
  apply Forall2_cons_inv_l in Hos as (o2 & os2 & Ho2 & Hos & ->).
  apply Forall2_nil_inv_l in Hos as ->.
  apply Forall2_cons_inv_l in Hss as (s1 & ss1 & Hs1 & Hss & ->).
  apply Forall2_cons_inv_l in Hss as (s2 & ss2 & Hs2 & Hss & ->).
  apply Forall2_cons_inv_l in Hss as (s3 & ss3 & Hs3 & Hss & ->).
  apply Forall2_nil_inv_l in Hss as ->.
  apply Forall2_cons_inv_l in Hcs as (c1 & cs1 & Hc1 & Hcs & ->).
  apply Forall2_cons_inv_l in Hcs as (c2 & cs2 & Hc2 & Hcs & ->).
  apply Forall2_nil_inv_l in Hcs as ->.
  cbv [item_of_text text] in Ho1, Ho2, Hs1, Hs2, Hs3.
  destruct Hc1 as (l1 & f1 & lt1 & ft1 & Hl1 & Hf1 & Hlt1 & Hft1 & ->).
  destruct Hc2 as (l2 & f2 & lt2 & ft2 & Hl2 & Hf2 & Hlt2 & Hft2 & ->).
  injection Hl1 as <-. injection Hf1 as <-.
  injection Hl2 as <-. injection Hf2 as <-.
  cbv [shown text] in Hlt1, Hft1, Hlt2, Hft2.
  rewrite Ho1, Ho2, Hs1, Hs2, Hs3, Hlt1, Hft1, Hlt2, Hft2.
  reflexivity.
Defined.

Lemma add_content_to_html_verbatim_run :
  well_formed full_doc
    [Elem "Observation" (Some "Good naming") []]
    [Elem "Comment" None
       [Elem "Location" (Some "Line 2") [];
        Elem "Feedback" (Some "Unused variable") []]]
    [Elem "Suggestion" (Some "Add tests") []]
  ∧ ∃ items,
      comment_items
        [Elem "Comment" None
           [Elem "Location" (Some "Line 2") [];
            Elem "Feedback" (Some "Unused variable") []]]
        items
      ∧ add_content_to_html template full_doc
        = inr (template
                 +:+ "<h2>General Observations</h2><ul>"
                 +:+ join_empty ["<li>Good naming</li>"] +:+ "</ul>"
                 +:+ "<h2>Specific Comments</h2><ul>"
                 +:+ join_empty items +:+ "</ul>"
                 +:+ "<h2>Improvement Suggestions</h2><ul>"
                 +:+ join_empty ["<li>Add tests</li>"] +:+ "</ul>"
                 +:+ "</div></body></html>").
Proof.
  split; [exact full_doc_well_formed|].
  exact (proj1 (add_content_to_html_verbatim template full_doc _ _ _
                  full_doc_well_formed)).
Defined.

Lemma add_content_to_html_empty_text_run :
  well_formed empty_text_doc
    [Elem "Observation" None []]
    [Elem "Comment" None
       [Elem "Location" None [];
        Elem "Feedback" (Some "Unused variable") []]]
    []
  ∧ ∃ html,
      add_content_to_html template empty_text_doc = inr html
      ∧ substring "<li>None</li>" html
      ∧ substring "<li><strong>None:</strong> Unused variable</li>" html.
Proof.
  split; [exact empty_text_doc_well_formed|].
  destruct (add_content_to_html_empty_text template empty_text_doc _ _ _
              empty_text_doc_well_formed)
    as (html & Hrender & Htext & Hlocation & _).
  exists html. split; [exact Hrender|]. split.
  - apply (Htext (Elem "Observation" None [])); [|reflexivity].
    apply elem_of_app. left. apply list_elem_of_here.
  - apply (Hlocation _ (Some "Unused variable") (list_elem_of_here _ _)).
    by eexists _, _.
Defined.

Lemma generate_report_malformed_run :
  (fromstring "<no-feedback/>" = None
   ∨ ∃ root, fromstring "<no-feedback/>" = Some root
       ∧ comment_lacks_child root)
  ∧ ∃ e, generate_report fromstring module_dir "<no-feedback/>" "out" start
         = (inl e, start).
Proof.
  assert (fromstring "<no-feedback/>" = None
          ∨ ∃ root, fromstring "<no-feedback/>" = Some root
              ∧ comment_lacks_child root) as Hbad.
  { right. exists no_feedback_doc. split; [reflexivity|].
    eexists _, _. split; [reflexivity|].
    split; [apply list_elem_of_here|]. right. reflexivity. }
  split; [exact Hbad|].
  exact (generate_report_malformed fromstring module_dir _ "out" start Hbad).
Defined.

Lemma generate_report_missing_group_run :
  fromstring "<no-suggestions/>" = Some no_suggestions_doc
  ∧ find no_suggestions_doc "ImprovementSuggestions" = None
  ∧ (∀ html_template,
       is_error (add_content_to_html html_template no_suggestions_doc))
  ∧ ∃ e, generate_report fromstring module_dir "<no-suggestions/>" "out"
           start
         = (inl e, start).
Proof.
  split; [reflexivity|]. split; [reflexivity|].
  apply (generate_report_missing_group fromstring module_dir
           "<no-suggestions/>" "out" start no_suggestions_doc);
    [reflexivity|]. right. right. reflexivity.
Defined.

Lemma main_input_file_missing_run_example :
  FS.isfile (w_fs start) (Path.normpath "missing.py") = false
  ∧ (get_file "missing.py" start).1
    = inl (FileNotFoundError "File missing.py not found")
  ∧ (main fromstring (inr Client) service module_dir "missing.py" "out"
       start).1
    = inl (FileNotFoundError "File missing.py not found")
  ∧ w_requests
      (main fromstring (inr Client) service module_dir "missing.py" "out"
         start).2
    = []
  ∧ w_fs
      (main fromstring (inr Client) service module_dir "missing.py" "out"
         start).2
    = disk.
Proof.
  split; [vm_compute; reflexivity|].
  destruct (main_input_file_missing fromstring (inr Client) service
              module_dir "missing.py" "out" start)
    as (Hget & Hmain & Hreq & Hfs & _); [vm_compute; reflexivity|].
  split; [exact Hget|]. split; [exact Hmain|].
  split; [exact Hreq | exact Hfs].
Defined.

Lemma out_x_usable : output_dir_usable disk "out/x" ["work"; "out"; "x"].
Proof.
  right. exists false, ["out"; "x"].
  split; [reflexivity|]. split; [discriminate|].
  split; [repeat constructor|]. split; [reflexivity|].
  split; [vm_compute; reflexivity|]. split; [vm_compute; reflexivity|].
  apply no_file_on_path_test_true. vm_compute. reflexivity.
Defined.



End Runs.

(** * Further properties *)

(** ** Report Renderer: when it raises, and what it ignores *)

Section RendererShape.

Implicit Types (root e c : Element) (html_template acc : string).

(** The body of the loop over comments. *)
Local Abbreviation comment_body :=
  (λ html_report comment,
     location ← text_attr (find comment "Location");
     feedback ← text_attr (find comment "Feedback");
     mret (html_report +:+ "<li><strong>" +:+ format location
             +:+ ":</strong> " +:+ format feedback +:+ "</li>")
     : result string).

(** The renderer, stage by stage. *)
Lemma render_stages html_template root :
  add_content_to_html html_template root
  = match find root "GeneralObservations" with
    | None => inl TypeError
    | Some g1 =>
        match find root "SpecificComments" with
        | None => inl TypeError
        | Some g2 =>
            match for_each (children g2) comment_body
                    (html_template +:+ "<h2>General Observations</h2><ul>"
                       +:+ join_empty (text_item <$> children g1)
                       +:+ "</ul>" +:+ "<h2>Specific Comments</h2><ul>") with
            | inl e => inl e
            | inr html =>
                match find root "ImprovementSuggestions" with
                | None => inl TypeError
                | Some g3 =>
                    inr (html +:+ "</ul>"
                           +:+ "<h2>Improvement Suggestions</h2><ul>"
                           +:+ join_empty (text_item <$> children g3)
                           +:+ "</ul>" +:+ "</div></body></html>")
                end
            end
        end
    end.
Proof.
  unfold add_content_to_html.
  destruct (find root "GeneralObservations") as [g1|]; [|done].
  cbn [iter]. unfold mbind at 1. unfold result_bind at 1.
  rewrite for_each_text. unfold mbind at 1. unfold result_bind at 1.
  destruct (find root "SpecificComments") as [g2|]; [|done].
  cbn [iter]. unfold mbind at 1. unfold result_bind at 1.
  rewrite !str_app_assoc.
  match goal with |- context [for_each ?l ?b ?a] =>
    destruct (for_each l b a) as [err|html] end; [done|].
  unfold mbind at 1. unfold result_bind at 1.
  destruct (find root "ImprovementSuggestions") as [g3|]; [|done].
  cbn [iter]. unfold mbind at 1. unfold result_bind at 1.
  rewrite for_each_text. unfold mbind, result_bind, mret, result_ret.
  by rewrite !str_app_assoc.
Qed.

Lemma comment_body_inv c acc :
  (∃ location feedback,
     comment_fields c location feedback
     ∧ comment_body acc c = inr (acc +:+ comment_item location feedback))
  ∨ ((find c "Location" = None ∨ find c "Feedback" = None)
     ∧ comment_body acc c = inl AttributeError).
Proof.
  cbn beta.
  destruct (find c "Location") as [l|] eqn:Hl;
    [|right; split; [by left|reflexivity]].
  destruct (find c "Feedback") as [f|] eqn:Hf;
    [|right; split; [by right|reflexivity]].
  left. exists (text l), (text f). split; [by exists l, f|reflexivity].
Qed.

(** The loop over the comments either appends one item per comment or
    stops with [AttributeError] at a comment that lacks a child. *)
Lemma for_each_comments_inv (comments : list Element) acc :
  (Forall (λ c, ∃ location feedback, comment_fields c location feedback)
     comments
   ∧ is_ok (for_each comments comment_body acc))
  ∨ (Exists (λ c, find c "Location" = None ∨ find c "Feedback" = None)
       comments
     ∧ for_each comments comment_body acc = inl AttributeError).
Proof.
  revert acc. induction comments as [|c comments IH]; intros acc.
  { left. split; [constructor|by eexists]. }
  cbn [for_each].
  destruct (comment_body_inv c acc)
    as [(location & feedback & Hc & ->)|[Hmiss ->]].
  - unfold mbind, result_bind.
    destruct (IH (acc +:+ comment_item location feedback))
      as [[Hall Hok]|[Hex Herr]].
    + left. split; [|done]. constructor; [by exists location, feedback|done].
    + right. split; [by apply Exists_cons_tl|done].
  - right. split; [by apply Exists_cons_hd|done].
Qed.

Lemma find_app_found root root' extra name :
  children root' = children root ++ extra →
  is_Some (find root name) → find root' name = find root name.
Proof.
  unfold find. intros -> [g Hg]. rewrite Hg.
  induction (children root) as [|c cs IH]; [done|]. simpl in *.
  destruct (bool_decide (tag c = name)); [done|]. by apply IH.
Qed.

Lemma for_each_comments_prefix (comments : list Element) prefix acc :
  for_each comments comment_body (prefix +:+ acc)
  = String.append prefix <$> for_each comments comment_body acc.
Proof.
  revert acc. induction comments as [|c comments IH]; intros acc; [done|].
  cbn [for_each].
  destruct (comment_body_inv c acc)
    as [(location & feedback & Hc & ->)|[Hmiss ->]].
  - rewrite (comment_body_fields _ _ _ _ Hc).
    unfold mbind, result_bind. by rewrite str_app_assoc, IH.
  - destruct (comment_body_inv c (prefix +:+ acc))
      as [(location & feedback & Hc & _)|[_ ->]]; [|done].
    destruct Hc as (l & f & Hl & _ & Hf & _).
    destruct Hmiss as [Hmiss|Hmiss]; congruence.
Qed.

(** A document that renders has the three-section shape. *)
Lemma render_ok_well_formed html_template root :
  is_ok (add_content_to_html html_template root) →
  ∃ observations comments suggestions,
    well_formed root observations comments suggestions.
Proof.
  rewrite render_stages. intros [html Hok].
  destruct (find root "GeneralObservations") as [g1|] eqn:Hg1; [|done].
  destruct (find root "SpecificComments") as [g2|] eqn:Hg2; [|done].
  match type of Hok with context [for_each ?l ?b ?a] =>
    destruct (for_each_comments_inv l a) as [[Hall _]|[_ Herr]];
      [|by rewrite Herr in Hok] end.
  destruct (for_each _ _ _) as [err|html']; [done|].
  destruct (find root "ImprovementSuggestions") as [g3|] eqn:Hg3; [|done].
  exists (children g1), (children g2), (children g3).
  split_and!; [by exists g1|by exists g2|done|by exists g3].
Qed.

(** X1. Rendering succeeds exactly on the documents of the
    three-section shape: the three groups are there and every comment
    has a location and a feedback child. *)
Theorem add_content_to_html_ok_iff html_template root :
  is_ok (add_content_to_html html_template root)
  ↔ ∃ observations comments suggestions,
      well_formed root observations comments suggestions.
Proof.
  split; [apply render_ok_well_formed|].
  intros (observations & comments & suggestions & Hwf).
  destruct (add_content_to_html_well_formed html_template _ _ _ _ Hwf)
    as (items & _ & ->). by eexists.
Qed.

(** X2. The renderer raises nothing but [TypeError] and
    [AttributeError], and it raises [AttributeError] exactly when the
    first two groups are there and some comment lacks its location or
    its feedback. *)
Theorem add_content_to_html_exceptions html_template root :
  (is_ok (add_content_to_html html_template root)
   ∨ add_content_to_html html_template root = inl TypeError
   ∨ add_content_to_html html_template root = inl AttributeError)
  ∧ (add_content_to_html html_template root = inl AttributeError
     ↔ is_Some (find root "GeneralObservations")
       ∧ comment_lacks_child root).
Proof.
  rewrite render_stages. unfold comment_lacks_child.
  destruct (find root "GeneralObservations") as [g1|] eqn:Hg1.
  2: { split; [auto|]. split; [done|]. by intros [[? ?] _]. }
  destruct (find root "SpecificComments") as [g2|] eqn:Hg2.
  2: { split; [auto|]. split; [done|]. by intros [_ (? & ? & ? & _)]. }
  match goal with |- context [for_each ?l ?b ?a] =>
    destruct (for_each_comments_inv l a) as [[Hall [html ->]]|[Hex ->]] end.
  - assert (¬ ∃ g c, Some g2 = Some g ∧ c ∈ children g
              ∧ (find c "Location" = None ∨ find c "Feedback" = None))
      as Hnone.
    { intros (g & c & [= <-] & Hc & Hmiss).
      apply (proj1 (Forall_forall _ _) Hall c) in Hc
        as (location & feedback & l & f & Hl & _ & Hf & _).
      destruct Hmiss; congruence. }
    destruct (find root "ImprovementSuggestions") as [g3|].
    + split; [left; by eexists|]. split; [done|]. by intros [_ ?].
    + split; [auto|]. split; [done|]. by intros [_ ?].
  - split; [auto|]. split; [|done]. intros _. split; [by eexists|].
    apply Exists_exists in Hex as (c & Hc & Hmiss). by exists g2, c.
Qed.

(** X3. The template is an opaque prefix: rendering on a template is
    rendering on the empty template with the template put in front, and
    raises the same exception when that raises. *)
Theorem add_content_to_html_template_prefix html_template root :
  add_content_to_html html_template root
  = String.append html_template <$> add_content_to_html "" root.
Proof.
  rewrite !render_stages.
  destruct (find root "GeneralObservations") as [g1|]; [|done].
  destruct (find root "SpecificComments") as [g2|]; [|done].
  rewrite for_each_comments_prefix, str_app_nil_l.
  destruct (for_each _ _ _) as [err|html]; [done|].
  destruct (find root "ImprovementSuggestions") as [g3|]; [|done].
  cbn. by rewrite !str_app_assoc.
Qed.

(** X4. Only the first group of each name counts: when the root has
    the three groups, children added after its own, whatever their
    tags, do not change the report; neither do the tag and the text of
    the root. *)
Theorem add_content_to_html_ignores_more_children html_template
    root root' extra :
  children root' = children root ++ extra →
  is_Some (find root "GeneralObservations") →
  is_Some (find root "SpecificComments") →
  is_Some (find root "ImprovementSuggestions") →
  add_content_to_html html_template root'
  = add_content_to_html html_template root.
Proof.
  intros Hchildren Hg1 Hg2 Hg3. rewrite !render_stages.
  by rewrite !(find_app_found root root' extra).
Qed.

End RendererShape.

(** ** File Loader and Review Requester: their effects *)

Section LoaderEffects.

Implicit Types (w : world) (file_path raw : string).

Lemma isfile_stat (fs : files) path :
  FS.isfile fs path = true ↔ ∃ raw, FS.stat fs path = inr (File raw).
Proof.
  unfold FS.isfile. destruct (FS.stat fs path) as [e|[raw|]].
  - split; [done|]. by intros [raw ?].
  - split; [by exists raw|done].
  - split; [done|]. by intros [raw ?].
Qed.

(** The three ways the loader ends. *)
Lemma get_file_cases file_path w :
  (∃ raw, FS.stat (w_fs w) (Path.normpath file_path) = inr (File raw)
     ∧ utf8_valid raw = true
     ∧ get_file file_path w
       = (inr (join_empty
                 (imap (λ i line, str_int (i + 1) +:+ ": " +:+ line)
                    (lines_keepends (universal_newlines raw)))),
          (logger_info ("File " +:+ Path.normpath file_path +:+ " loaded")
             w).2))
  ∨ (∃ raw, FS.stat (w_fs w) (Path.normpath file_path) = inr (File raw)
       ∧ utf8_valid raw = false
       ∧ get_file file_path w = (inl UnicodeDecodeError, w))
  ∨ (FS.isfile (w_fs w) (Path.normpath file_path) = false
     ∧ get_file file_path w
       = (inl (FileNotFoundError
                 ("File " +:+ Path.normpath file_path +:+ " not found")),
          (logger_error
             ("File " +:+ Path.normpath file_path +:+ " not found") w).2)).
Proof.
  destruct (FS.isfile (w_fs w) (Path.normpath file_path)) eqn:Hfound.
  - apply isfile_stat in Hfound as [raw Hraw].
    destruct (utf8_valid raw) eqn:Hvalid.
    + left. exists raw. split_and!; [done..|].
      by apply (get_file_found w file_path raw).
    + right. left. exists raw. split_and!; [done..|].
      by apply (get_file_not_decoded w file_path raw).
  - right. right. split; [done|]. by apply get_file_missing.
Qed.

Lemma universal_newlines_empty raw : universal_newlines raw = "" → raw = "".
Proof.
  destruct raw as [|c raw]; [done|]. simpl.
  destruct (decide (c = CR)); [|done].
  destruct raw as [|c' raw]; [done|]. by destruct (decide (c' = LF)).
Qed.

Lemma lines_keepends_empty text : lines_keepends text = [] → text = "".
Proof. intros Hl. by rewrite <- (join_empty_lines_keepends text), Hl. Qed.

(** X6. The numbered content is empty exactly for an empty file. *)
Theorem get_file_empty_iff file_path raw w :
  FS.stat (w_fs w) (Path.normpath file_path) = inr (File raw) →
  (get_file file_path w).1 = inr "" ↔ raw = "".
Proof.
  intros Hfile. destruct (utf8_valid raw) eqn:Hvalid.
  - rewrite (get_file_found _ _ _ Hfile Hvalid). cbn [fst]. split.
    + intros [= Hempty]. apply universal_newlines_empty, lines_keepends_empty.
      destruct (lines_keepends (universal_newlines raw)) as [|l ls]; [done|].
      rewrite imap_cons, join_empty_cons in Hempty.
      by destruct (str_int (0 + 1)).
    + by intros ->.
  - rewrite (get_file_not_decoded _ _ _ Hfile Hvalid). cbn [fst].
    split; [done|]. by intros ->.
Qed.

End LoaderEffects.

Section RequesterEffects.

Variable service : request → option (list string).

(** One call of the requester: its result and its world. *)
Lemma get_review_run file_content client w :
  get_review service file_content client w
  = (match service (review_request file_content) with
     | None => inl OpenAIError
     | Some [] => inl IndexError
     | Some (choice :: _) => inr choice
     end,
     World (w_fs w) (w_level w) (w_log w)
       (w_requests w ++ [review_request file_content])).
Proof.
  unfold get_review, chat_completions_create, mbind, M_bind. cbn zeta.
  fold system_prompt. fold (review_request file_content).
  destruct (service _) as [[|choice choices]|]; reflexivity.
Qed.

End RequesterEffects.

(** ** Report Renderer and Writer: every run *)

Section WriterRuns.

Variable fromstring : string → option Element.
Variable module_dir : string.

Implicit Types (w : world) (review output_dir : string) (root : Element).

(** The path of the template. *)
Local Abbreviation html_template_path :=
  (Path.join (Path.join module_dir "templates") "code_review_template.html").

(** X8. Whatever the review, the output path and the disk, a run of
    [generate_report] sends nothing and removes nothing: every
    directory is a directory after the run, every regular file keeps
    its content unless its name is [code_review.html], and what is new
    is a directory or a regular file named [code_review.html]. *)
Theorem generate_report_footprint review output_dir w :
  let run := generate_report fromstring module_dir review output_dir w in
  w_requests run.2 = w_requests w
  ∧ cwd (w_fs run.2) = cwd (w_fs w)
  ∧ (∀ q, FS.lookup (w_fs w) q = Some Dir →
       FS.lookup (w_fs run.2) q = Some Dir)
  ∧ (∀ q raw, FS.lookup (w_fs w) q = Some (File raw) →
       last q ≠ Some "code_review.html" →
       FS.lookup (w_fs run.2) q = Some (File raw))
  ∧ (∀ q, FS.lookup (w_fs w) q = None →
       FS.lookup (w_fs run.2) q = None
       ∨ FS.lookup (w_fs run.2) q = Some Dir
       ∨ (last q = Some "code_review.html"
          ∧ ∃ html, FS.lookup (w_fs run.2) q = Some (File html))).
Proof.
  intros run.
  destruct (generate_report_changes fromstring module_dir review output_dir w)
    as (Hreq & _ & _ & [Hcwd Hfs] & _). fold run in Hreq, Hcwd, Hfs.
  split; [done|]. split; [done|]. split_and!.
  - intros q Hq.
    destruct (Hfs q) as [->|[(Ha & _)|(_ & Hn & _)]]; [done|congruence|done].
  - intros q raw Hq Hlast.
    destruct (Hfs q) as [->|[(Ha & _)|(Hl & _)]]; [done|congruence|done].
  - intros q Hq.
    destruct (Hfs q) as [->|[(_ & ->)|(Hl & _ & html & ->)]];
      [by left|right; by left|right; right]. split; [done|by exists html].
Qed.

(** X9. [generate_report] keeps the disk well-formed: after any run,
    with or without exception, every entry is in a directory. *)
Theorem generate_report_well_formed review output_dir w :
  FS.well_formed (w_fs w) →
  FS.well_formed
    (w_fs (generate_report fromstring module_dir review output_dir w).2).
Proof.
  intros Hwf.
  by destruct (generate_report_changes fromstring module_dir review
                 output_dir w) as (_ & _ & _ & _ & Hkeeps); apply Hkeeps.
Qed.

(** X10. When the template is not a regular file, [generate_report]
    raises and leaves the world as it was, whatever the review. *)
Theorem generate_report_template_missing review output_dir w :
  FS.isfile (w_fs w) html_template_path = false →
  ∃ e, generate_report fromstring module_dir review output_dir w
       = (inl e, w).
Proof.
  intros Htpl. rewrite generate_report_stages.
  destruct (fromstring review) as [root|]; [|by eexists].
  unfold FS.read_text. unfold FS.isfile in Htpl.
  destruct (FS.stat _ _) as [e|[raw|]]; [by eexists|done|by eexists].
Qed.

(** The report cannot be opened in a regular file. *)
Lemma write_text_in_file (fs : files) a b raw text :
  Path.file_name b = true →
  FS.stat fs a = inr (File raw) →
  FS.write_text (Path.join a b) text fs = (inl NotADirectoryError, fs).
Proof.
  intros Hb Hstat. destruct (file_name_inv b Hb) as (_ & _ & Hb1 & _).
  unfold FS.stat in Hstat.
  destruct (FS.resolve fs a) as [e|k] eqn:Hres; [done|].
  cbn [mbind result_bind] in Hstat.
  destruct (FS.lookup fs k) as [n|] eqn:Hk; [|done].
  injection Hstat as ->. unfold FS.resolve in Hres.
  destruct (Path.has_nul a) eqn:Hnul; [done|].
  case_bool_decide as Ha; [done|].
  destruct (split_join a b Hb) as (comps & Hsplit & Hcomps).
  assert (FS.walk fs (Path.join a b) (FS.start fs (Path.join a b)) comps
          = inr k) as Hwalk.
  { unfold FS.start. rewrite startswith_join by done.
    destruct (Hcomps Ha) as [Heq|Heq]; rewrite Heq in Hres.
    - by apply (walk_path _ a).
    - apply walk_snoc_empty in Hres as [_ Hdir]. congruence. }
  unfold FS.write_text. rewrite has_nul_join by done.
  rewrite bool_decide_eq_false_2 by (by apply join_not_empty).
  cbn zeta.
  rewrite Hsplit, rstrip_empty_snoc, last_snoc, removelast_last by done.
  by rewrite Hwalk, Hk.
Qed.

(** X11. When the output path is a regular file, a review that renders
    is not written: no directory is made, opening the report in it
    raises [NotADirectoryError], and the world is as it was. *)
Theorem generate_report_file_in_the_way review output_dir root raw html
    raw' w :
  fromstring review = Some root →
  FS.stat (w_fs w) html_template_path = inr (File raw) →
  utf8_valid raw = true →
  add_content_to_html (universal_newlines raw) root = inr html →
  FS.stat (w_fs w) output_dir = inr (File raw') →
  generate_report fromstring module_dir review output_dir w
  = (inl NotADirectoryError, w).
Proof.
  intros Hparse Htpl Hvalid Hrender Hfile.
  rewrite generate_report_stages, Hparse. unfold FS.read_text.
  rewrite Htpl. cbn [mbind result_bind]. unfold FS.decode. rewrite Hvalid.
  cbn [fmap result_fmap]. rewrite Hrender. cbn zeta.
  unfold FS.exists_. rewrite Hfile. cbn [fst snd].
  rewrite (write_text_in_file _ _ _ raw') by done. cbn [fst snd].
  by rewrite set_fs_same.
Qed.

Lemma isdir_resolve (fs : files) path :
  FS.isdir fs path = true →
  ∃ dir, FS.resolve fs path = inr dir ∧ FS.lookup fs dir = Some Dir.
Proof.
  unfold FS.isdir, FS.stat.
  destruct (FS.resolve fs path) as [e|dir]; [done|].
  cbn [mbind result_bind].
  destruct (FS.lookup fs dir) as [[raw|]|] eqn:Hdir; [done| |done].
  by exists dir.
Qed.

(** X12. When the output directory is there and [code_review.html] in
    it is a directory, a review that renders is not written:
    [generate_report] raises [IsADirectoryError] and leaves the world as
    it was. *)
Theorem generate_report_report_is_directory review output_dir root raw
    html w :
  fromstring review = Some root →
  FS.stat (w_fs w) html_template_path = inr (File raw) →
  utf8_valid raw = true →
  add_content_to_html (universal_newlines raw) root = inr html →
  FS.isdir (w_fs w) output_dir = true →
  FS.isdir (w_fs w) (Path.join output_dir "code_review.html") = true →
  generate_report fromstring module_dir review output_dir w
  = (inl IsADirectoryError, w).
Proof.
  intros Hparse Htpl Hvalid Hrender Hdir Hreport.
  destruct (isdir_resolve _ _ Hdir) as (dir & Hres & Hlookup).
  destruct (resolve_join _ output_dir "code_review.html" dir eq_refl Hres
              Hlookup) as (comps & Hsplit & Hwalk & Hres').
  destruct (isdir_resolve _ _ Hreport) as (dir' & Hres'' & Hlookup').
  rewrite Hres' in Hres''. injection Hres'' as <-.
  rewrite generate_report_stages, Hparse. unfold FS.read_text.
  rewrite Htpl. cbn [mbind result_bind]. unfold FS.decode. rewrite Hvalid.
  cbn [fmap result_fmap]. rewrite Hrender. cbn zeta.
  assert (FS.exists_ (w_fs w) output_dir = true) as ->.
  { unfold FS.exists_. unfold FS.isdir in Hdir.
    by destruct (FS.stat (w_fs w) output_dir). }
  cbn [fst snd]. unfold FS.resolve in Hres.
  destruct (Path.has_nul output_dir) eqn:Hnul; [done|].
  unfold FS.write_text. rewrite has_nul_join by done.
  rewrite bool_decide_eq_false_2 by (by apply join_not_empty).
  cbn zeta.
  rewrite Hsplit, rstrip_empty_snoc, last_snoc, removelast_last by done.
  rewrite Hwalk, Hlookup, endswith_slash_join by done.
  rewrite bool_decide_eq_false_2 by (by intros [?|?]). cbn [orb].
  rewrite Hlookup'. cbn [fst snd]. by rewrite set_fs_same.
Qed.

Lemma put_same (fs : files) (p : list string) (n : node) :
  p ≠ [] → FS.lookup fs p = Some n → FS.put p n fs = fs.
Proof.
  intros Hp Hn. unfold FS.lookup in Hn.
  rewrite bool_decide_eq_false_2 in Hn by done.
  destruct fs as [es dir]. unfold FS.put. cbn [entries cwd] in *.
  by rewrite insert_id.
Qed.

(** X13. Writing the same review again changes nothing on the disk:
    under the conditions of a successful run, a second run with the
    same review succeeds and leaves the disk as the first run left
    it. *)
Theorem generate_report_twice_same review output_dir dir root raw html w :
  FS.well_formed (w_fs w) →
  FS.stat (w_fs w) html_template_path = inr (File raw) →
  utf8_valid raw = true →
  output_dir_usable (w_fs w) output_dir dir →
  FS.lookup (w_fs w) (dir ++ ["code_review.html"]) ≠ Some Dir →
  fromstring review = Some root →
  add_content_to_html (universal_newlines raw) root = inr html →
  let first := generate_report fromstring module_dir review output_dir w in
  let second :=
    generate_report fromstring module_dir review output_dir first.2 in
  first.1 = inr () ∧ second.1 = inr () ∧ w_fs second.2 = w_fs first.2.
Proof.
  intros Hwf Htpl Hvalid Husable Hreport Hparse Hrender first second.
  destruct (generate_report_post fromstring module_dir _ _ _ _ _ _ _ Hwf
              Hparse Htpl Hvalid Hrender Husable Hreport)
    as (Hok & Hwf1 & Hres1 & Hdirs1 & _ & Hfile1 & Htpl1).
  fold first in Hok, Hwf1, Hres1, Hdirs1, Hfile1, Htpl1. split; [done|].
  assert (FS.lookup (w_fs first.2) dir = Some Dir) as Hdir1
    by (by apply Hdirs1).
  destruct (generate_report_ok fromstring module_dir review output_dir dir
              root raw html first.2)
    as (fs_mid & Hrun & _ & _ & _ & _ & _ & Hsame); [done..| | |].
  { by left. }
  { by rewrite Hfile1. }
  rewrite Hsame in Hrun.
  - subst second. rewrite Hrun. unfold logger_info.
    rewrite logger_log_fs, logger_log_run. cbn [fst w_fs set_fs].
    split; [done|]. apply put_same; [by destruct dir|done].
  - unfold FS.exists_, FS.stat. rewrite Hres1. cbn [mbind result_bind].
    by rewrite Hdir1.
Qed.

(** X17. The empty output path cannot be used: it does not exist for
    [os.path.exists], [os.makedirs] raises on it, and a review that
    renders is not written; the world is as it was. *)
Theorem generate_report_empty_output_dir review root raw html w :
  fromstring review = Some root →
  FS.stat (w_fs w) html_template_path = inr (File raw) →
  utf8_valid raw = true →
  add_content_to_html (universal_newlines raw) root = inr html →
  generate_report fromstring module_dir review "" w
  = (inl (FileNotFoundError ""), w).
Proof.
  intros Hparse Htpl Hvalid Hrender.
  rewrite generate_report_stages, Hparse. unfold FS.read_text.
  rewrite Htpl. cbn [mbind result_bind]. unfold FS.decode. rewrite Hvalid.
  cbn [fmap result_fmap]. rewrite Hrender. cbn zeta.
  change (FS.exists_ (w_fs w) "") with false.
  change (FS.makedirs "" (w_fs w))
    with (inl (FileNotFoundError "") : result (), w_fs w).
  cbn [fst snd]. by rewrite set_fs_same.
Qed.

End WriterRuns.

(** ** Entry Point: every run *)

Section MainRuns.

Variable fromstring : string → option Element.
Variable OpenAI_new : result OpenAI.
Variable service : request → option (list string).
Variable module_dir : string.

Implicit Types (w : world) (input_file output_dir : string).

(** The path of the template. *)
Local Abbreviation html_template_path :=
  (Path.join (Path.join module_dir "templates") "code_review_template.html").

Lemma bind_stages {A B} (m : M A) (k : A → M B) w :
  (m ≫= k) w
  = match (m w).1 with
    | inl e => (inl e, (m w).2)
    | inr a => k a (m w).2
    end.
Proof. unfold mbind, M_bind. by destruct (m w) as [[e|a] w']. Qed.

Lemma logger_info_ok msg w : (logger_info msg w).1 = inr ().
Proof. reflexivity. Qed.

(** [main], stage by stage. *)
Lemma main_stages input_file output_dir w :
  main fromstring OpenAI_new service module_dir input_file output_dir w
  = let w1 := (logger_info "Creating OpenAI client" w).2 in
    match OpenAI_new with
    | inl e => (inl e, w1)
    | inr client =>
        let loaded :=
          get_file input_file (logger_info "Getting file content" w1).2 in
        match loaded.1 with
        | inl e => (inl e, loaded.2)
        | inr file_content =>
            let reviewed :=
              get_review service file_content client
                (logger_info "Getting review" loaded.2).2 in
            match reviewed.1 with
            | inl e => (inl e, reviewed.2)
            | inr review =>
                let reported :=
                  generate_report fromstring module_dir review output_dir
                    (logger_info "Generating report" reviewed.2).2 in
                match reported.1 with
                | inl e => (inl e, reported.2)
                | inr _ => logger_info "Done" reported.2
                end
            end
        end
    end.
Proof.
  unfold main. cbn zeta.
  rewrite bind_stages, logger_info_ok. cbn match beta.
  rewrite bind_stages. unfold lift at 1 2. cbn [fst snd].
  destruct OpenAI_new as [e|client]; [done|].
  rewrite bind_stages, logger_info_ok. cbn match beta.
  rewrite bind_stages. destruct (get_file _ _).1 as [e|file_content]; [done|].
  rewrite bind_stages, logger_info_ok. cbn match beta.
  rewrite bind_stages.
  destruct (get_review _ _ _ _).1 as [e|review]; [done|].
  rewrite bind_stages, logger_info_ok. cbn match beta.
  rewrite bind_stages.
  by destruct (generate_report _ _ _ _ _).1 as [e|[]].
Qed.

Lemma only_logged_refl w : only_logged w w.
Proof. by split_and!. Qed.

Lemma only_logged_trans w1 w2 w3 :
  only_logged w1 w2 → only_logged w2 w3 → only_logged w1 w3.
Proof.
  intros (Hfs & Hreq & Hlevel & Hlog) (Hfs' & Hreq' & Hlevel' & Hlog').
  split_and!; [congruence..|by etrans].
Qed.

Lemma only_logged_log l msg w : only_logged w (logger_log l msg w).2.
Proof.
  rewrite logger_log_run. cbn [snd]. unfold only_logged. cbn [w_fs w_requests w_level w_log].
  split_and!; [done..|]. by eexists.
Qed.

Lemma only_logged_get_file input_file w :
  only_logged w (get_file input_file w).2.
Proof.
  destruct (get_file_cases input_file w)
    as [(raw & _ & _ & ->)|[(raw & _ & _ & ->)|(_ & ->)]].
  - apply only_logged_log.
  - apply only_logged_refl.
  - apply only_logged_log.
Qed.

(** The result of the loader depends on the disk only. *)
Lemma get_file_result input_file w w' :
  w_fs w' = w_fs w → (get_file input_file w').1 = (get_file input_file w).1.
Proof.
  intros Hfs.
  destruct (get_file_cases input_file w)
    as [(raw & Hraw & Hvalid & ->)|[(raw & Hraw & Hvalid & ->)|(Hfound & ->)]].
  - by rewrite (get_file_found w' _ raw) by (by rewrite ?Hfs).
  - by rewrite (get_file_not_decoded w' _ raw) by (by rewrite ?Hfs).
  - by rewrite (get_file_missing w') by (by rewrite Hfs).
Qed.

(** X5. A regular file that is no UTF-8 stops the pipeline at the
    loader: [get_file] raises [UnicodeDecodeError] when it reads the
    file, without a log record, and [main] ends with an exception
    before the review request, the disk as it was. *)
Theorem main_input_not_decoded input_file output_dir raw w :
  FS.stat (w_fs w) (Path.normpath input_file) = inr (File raw) →
  utf8_valid raw = false →
  let run :=
    main fromstring OpenAI_new service module_dir input_file output_dir w in
  get_file input_file w = (inl UnicodeDecodeError, w)
  ∧ run.1 = inl (match OpenAI_new with
                 | inl e => e
                 | inr _ => UnicodeDecodeError
                 end)
  ∧ w_requests run.2 = w_requests w
  ∧ w_fs run.2 = w_fs w
  ∧ ∃ records,
      w_log run.2 = w_log w ++ records
      ∧ records `sublist_of` [(INFO, "Creating OpenAI client");
                              (INFO, "Getting file content")].
Proof.
  intros Hfile Hvalid run.
  split; [by apply (get_file_not_decoded w input_file raw)|].
  subst run. rewrite main_stages. cbn zeta. unfold logger_info.
  rewrite !logger_log_run. cbn [snd].
  destruct OpenAI_new as [e|client].
  - cbn [fst snd w_fs w_requests w_log]. split_and!; [done..|].
    eexists. split; [done|].
    etrans; [apply emitted_sublist|]. apply sublist_skip, sublist_nil_l.
  - rewrite (get_file_not_decoded _ _ raw) by done.
    cbn [fst snd w_fs w_requests w_log]. split_and!; [done..|].
    eexists. split; [by rewrite <- (assoc_L (++))|].
    apply (sublist_app _ [_] _ [_]); apply emitted_sublist.
Qed.

(** X14. Whatever the inputs, a run of [main] sends at most one
    request, and that one carries the numbered content of the input
    file as its user message; it keeps the logger's level, only adds
    to the log, and on the disk it removes nothing and changes no
    entry but regular files named [code_review.html]. *)
Theorem main_effects input_file output_dir w :
  let run :=
    main fromstring OpenAI_new service module_dir input_file output_dir w in
  w_level run.2 = w_level w
  ∧ w_log w `prefix_of` w_log run.2
  ∧ report_footprint (w_fs w) (w_fs run.2)
  ∧ (w_requests run.2 = w_requests w
     ∨ ∃ file_content,
         (get_file input_file w).1 = inr file_content
         ∧ w_requests run.2
           = w_requests w ++ [review_request file_content]).
Proof.
  cbn zeta. rewrite main_stages. cbn zeta.
  set (w1 := (logger_info "Creating OpenAI client" w).2).
  assert (only_logged w w1) as H1 by apply only_logged_log.
  assert (∀ w', only_logged w w' →
            w_level w' = w_level w ∧ w_log w `prefix_of` w_log w'
            ∧ report_footprint (w_fs w) (w_fs w')
            ∧ (w_requests w' = w_requests w
               ∨ ∃ file_content,
                   (get_file input_file w).1 = inr file_content
                   ∧ w_requests w'
                     = w_requests w ++ [review_request file_content])) as Hquiet.
  { intros w' (Hfs & Hreq & Hlevel & Hlog). split_and!; [done..| |by left].
    rewrite Hfs. apply footprint_refl. }
  destruct OpenAI_new as [e|client]; [by apply Hquiet|].
  set (w2 := (logger_info "Getting file content" w1).2).
  assert (only_logged w w2) as H2.
  { eapply only_logged_trans; [exact H1|apply only_logged_log]. }
  assert (only_logged w (get_file input_file w2).2) as H3.
  { eapply only_logged_trans; [exact H2|apply only_logged_get_file]. }
  assert ((get_file input_file w2).1 = (get_file input_file w).1) as Hres.
  { apply get_file_result. by destruct H2. }
  destruct (get_file input_file w2) as [[e|file_content] w3];
    cbn [fst snd] in *; [by apply Hquiet|].
  set (w4 := (logger_info "Getting review" w3).2).
  assert (only_logged w w4) as (Hfs4 & Hreq4 & Hlevel4 & Hlog4).
  { eapply only_logged_trans; [exact H3|apply only_logged_log]. }
  rewrite (get_review_run service file_content client w4). cbn [fst snd].
  set (r := match service _ with None => _ | _ => _ end).
  set (w5 := World (w_fs w4) (w_level w4) (w_log w4) _).
  assert (∀ w', report_footprint (w_fs w5) (w_fs w') →
            w_requests w' = w_requests w5 → w_level w' = w_level w5 →
            w_log w5 `prefix_of` w_log w' →
            w_level w' = w_level w ∧ w_log w `prefix_of` w_log w'
            ∧ report_footprint (w_fs w) (w_fs w')
            ∧ (w_requests w' = w_requests w
               ∨ ∃ file_content,
                   (get_file input_file w).1 = inr file_content
                   ∧ w_requests w'
                     = w_requests w ++ [review_request file_content])) as Hsent.
  { intros w' Hfs Hreq Hlevel Hlog. split_and!.
    - by rewrite Hlevel.
    - by etrans.
    - by rewrite <- Hfs4.
    - right. exists file_content. split; [by symmetry|].
      by rewrite Hreq, <- Hreq4. }
  destruct r as [e|review]; [by apply Hsent; [apply footprint_refl|..]|].
  set (w6 := (logger_info "Generating report" w5).2).
  assert (only_logged w5 w6) as (Hfs6 & Hreq6 & Hlevel6 & Hlog6)
    by apply only_logged_log.
  destruct (generate_report_changes fromstring module_dir review output_dir
              w6) as (Hreq7 & Hlevel7 & Hlog7 & Hfs7 & _).
  rewrite Hfs6 in Hfs7.
  destruct (generate_report _ _ _ _ _) as [[e|[]] w7]; cbn [fst snd] in *.
  - apply Hsent; [done|by rewrite Hreq7|by rewrite Hlevel7|by etrans].
  - unfold logger_info. rewrite logger_log_run.
    apply Hsent; cbn [snd w_fs w_requests w_level w_log];
      [done|by rewrite Hreq7|by rewrite Hlevel7|].
    etrans; [exact Hlog6|]. etrans; [exact Hlog7|]. by eexists.
Qed.

Lemma not_renderable_no_render review output_dir w :
  not_renderable fromstring review →
  ∃ e, generate_report fromstring module_dir review output_dir w = (inl e, w).
Proof.
  intros [Hparse|(root & Hparse & Hshape)];
    apply generate_report_no_render; [by left|right].
  exists root. split; [done|]. intros html_template.
  destruct (add_content_to_html html_template root) as [e|html] eqn:Hrender;
    [by exists e|].
  destruct Hshape. apply (render_ok_well_formed html_template).
  rewrite Hrender. by eexists.
Qed.

(** X15. No report without a rendered review: when the client cannot
    be made, or when every answer of the service is a failure, an
    empty list of choices, or a first choice that cannot be rendered,
    [main] raises and leaves the disk as it was. *)
Theorem main_no_report input_file output_dir w :
  (is_error OpenAI_new
   ∨ ∀ req review more,
       service req = Some (review :: more) →
       not_renderable fromstring review) →
  let run :=
    main fromstring OpenAI_new service module_dir input_file output_dir w in
  is_error run.1 ∧ w_fs run.2 = w_fs w.
Proof.
  intros Hbad. cbn zeta. rewrite main_stages. cbn zeta.
  set (w1 := (logger_info "Creating OpenAI client" w).2).
  assert (only_logged w w1) as H1 by apply only_logged_log.
  destruct OpenAI_new as [e|client].
  { split; [by exists e|by destruct H1]. }
  destruct Hbad as [[e [=]]|Hbad].
  set (w2 := (logger_info "Getting file content" w1).2).
  assert (only_logged w (get_file input_file w2).2) as H3.
  { eapply only_logged_trans; [exact H1|].
    eapply only_logged_trans; [apply only_logged_log|].
    apply only_logged_get_file. }
  destruct (get_file input_file w2) as [[e|file_content] w3];
    cbn [fst snd] in *.
  { split; [by exists e|by destruct H3]. }
  set (w4 := (logger_info "Getting review" w3).2).
  assert (only_logged w w4) as (Hfs4 & _).
  { eapply only_logged_trans; [exact H3|apply only_logged_log]. }
  rewrite (get_review_run service file_content client w4). cbn [fst snd].
  destruct (service _) as [[|review more]|] eqn:Hservice;
    [split; [by eexists|done]| |split; [by eexists|done]].
  match goal with |- context [generate_report _ _ _ _ ?w6] =>
    destruct (not_renderable_no_render review output_dir w6
                (Hbad _ _ _ Hservice)) as [e ->] end.
  cbn [fst snd]. split; [by exists e|].
  unfold logger_info. by rewrite logger_log_fs.
Qed.

(** X16. The whole pipeline: when the client is made, the input is a
    regular file in UTF-8, the service answers with a review that
    renders on the template, and the output directory can be used,
    [main] returns, has sent exactly one request, with the numbered
    content that [get_file] returns as its user message, and has left
    the rendering in [code_review.html] in the output directory. *)
Theorem main_writes_report input_file output_dir dir client source review
    root raw html w :
  OpenAI_new = inr client →
  FS.stat (w_fs w) (Path.normpath input_file) = inr (File source) →
  utf8_valid source = true →
  (∀ req, ∃ more, service req = Some (review :: more)) →
  fromstring review = Some root →
  FS.stat (w_fs w) html_template_path = inr (File raw) →
  utf8_valid raw = true →
  add_content_to_html (universal_newlines raw) root = inr html →
  FS.well_formed (w_fs w) →
  output_dir_usable (w_fs w) output_dir dir →
  FS.lookup (w_fs w) (dir ++ ["code_review.html"]) ≠ Some Dir →
  let run :=
    main fromstring OpenAI_new service module_dir input_file output_dir w in
  run.1 = inr ()
  ∧ FS.stat (w_fs run.2) (Path.join output_dir "code_review.html")
    = inr (File html)
  ∧ ∃ numbered,
      (get_file input_file w).1 = inr numbered
      ∧ w_requests run.2 = w_requests w ++ [review_request numbered].
Proof.
  intros Hclient Hsource Hvalid Hservice Hparse Htpl Hvalid' Hrender Hwf
    Husable Hreport.
  cbn zeta. rewrite main_stages, Hclient. cbn zeta. unfold logger_info.
  rewrite !logger_log_run. cbn [snd].
  rewrite (get_file_found _ _ source) by done.
  rewrite (get_file_found w _ source) by done. cbn [fst snd].
  unfold logger_info. rewrite !logger_log_run.
  cbn [snd w_fs w_level w_log w_requests].
  rewrite get_review_run.
  match goal with |- context [service ?req] =>
    destruct (Hservice req) as [more ->] end.
  cbn [fst snd w_fs w_level w_log w_requests].
  match goal with |- context [generate_report _ _ _ _ ?w6] =>
    destruct (generate_report_post fromstring module_dir review output_dir
                dir root raw html w6)
      as (Hok & _ & _ & _ & Hres & Hfile & _); [done..|];
    destruct (generate_report_changes fromstring module_dir review
                output_dir w6) as (Hreq & _);
    destruct (generate_report fromstring module_dir review output_dir w6)
      as [[e|[]] w7] end; cbn [fst snd] in *; [done|].
  unfold logger_info. rewrite logger_log_run.
  cbn [fst snd w_fs w_requests] in *. split; [done|]. split.
  - unfold FS.stat. rewrite Hres. cbn [mbind result_bind]. by rewrite Hfile.
  - eexists. split; [done|]. exact Hreq.
Qed.

End MainRuns.

(** ** Concrete runs of the further properties *)

Section MoreRuns.

Import Example.

Lemma add_content_to_html_ignores_more_children_run :
  children Example2.full_doc_more
  = children full_doc
      ++ [Elem "GeneralObservations" None
            [Elem "Observation" (Some "Not rendered") []];
          Elem "Unknown" None []]
  ∧ add_content_to_html template Example2.full_doc_more = inr full_report.
Proof.
  split; [reflexivity|].
  rewrite (add_content_to_html_ignores_more_children template full_doc
             Example2.full_doc_more
             [Elem "GeneralObservations" None
                [Elem "Observation" (Some "Not rendered") []];
              Elem "Unknown" None []]).
  - vm_compute. reflexivity.
  - reflexivity.
  - vm_compute. eexists. reflexivity.
  - vm_compute. eexists. reflexivity.
  - vm_compute. eexists. reflexivity.
Defined.

Lemma main_input_not_decoded_run :
  let run := main fromstring (inr Client) service module_dir "binary.py"
               "out" start in
  FS.stat (w_fs start) (Path.normpath "binary.py")
  = inr (File source_binary)
  ∧ utf8_valid source_binary = false
  ∧ run.1 = inl UnicodeDecodeError
  ∧ w_requests run.2 = []
  ∧ w_fs run.2 = disk.
Proof.
  intros run. split; [vm_compute; reflexivity|].
  split; [vm_compute; reflexivity|].
  destruct (main_input_not_decoded fromstring (inr Client) service
              module_dir "binary.py" "out" source_binary start)
    as (_ & Hmain & Hreq & Hfs & _); [vm_compute; reflexivity..|].
  split; [exact Hmain|]. split; [exact Hreq | exact Hfs].
Defined.

Lemma get_file_empty_iff_run :
  FS.stat (w_fs Example2.start) (Path.normpath "empty.py") = inr (File "")
  ∧ (get_file "empty.py" Example2.start).1 = inr "".
Proof.
  split; [vm_compute; reflexivity|].
  apply (get_file_empty_iff "empty.py" "" Example2.start);
    [vm_compute; reflexivity|reflexivity].
Defined.

Lemma generate_report_well_formed_run :
  FS.well_formed (w_fs start)
  ∧ FS.well_formed
      (w_fs (generate_report fromstring module_dir "<full/>" "out/x"
               start).2).
Proof.
  split; [exact disk_well_formed|].
  apply (generate_report_well_formed fromstring module_dir "<full/>" "out/x"
           start).
  exact disk_well_formed.
Defined.

Lemma generate_report_template_missing_run :
  FS.isfile (Files ∅ [])
    (Path.join (Path.join module_dir "templates") "code_review_template.html")
  = false
  ∧ ∃ e, generate_report fromstring module_dir "<full/>" "out"
           (World (Files ∅ []) INFO [] [])
         = (inl e, World (Files ∅ []) INFO [] []).
Proof.
  split; [vm_compute; reflexivity|].
  apply (generate_report_template_missing fromstring module_dir "<full/>"
           "out" (World (Files ∅ []) INFO [] [])).
  vm_compute. reflexivity.
Defined.

Lemma generate_report_file_in_the_way_run :
  FS.stat (w_fs start) "notes" = inr (File "text")
  ∧ generate_report fromstring module_dir "<full/>" "notes" start
    = (inl NotADirectoryError, start).
Proof.
  split; [vm_compute; reflexivity|].
  apply (generate_report_file_in_the_way fromstring module_dir "<full/>"
           "notes" full_doc template full_report "text" start).
  - reflexivity.
  - vm_compute. reflexivity.
  - vm_compute. reflexivity.
  - vm_compute. reflexivity.
  - vm_compute. reflexivity.
Defined.

Lemma generate_report_report_is_directory_run :
  FS.isdir (w_fs Example2.start) "blocked" = true
  ∧ FS.isdir (w_fs Example2.start) (Path.join "blocked" "code_review.html")
    = true
  ∧ generate_report fromstring module_dir "<full/>" "blocked" Example2.start
    = (inl IsADirectoryError, Example2.start).
Proof.
  split; [vm_compute; reflexivity|]. split; [vm_compute; reflexivity|].
  apply (generate_report_report_is_directory fromstring module_dir "<full/>"
           "blocked" full_doc template full_report Example2.start).
  - reflexivity.
  - vm_compute. reflexivity.
  - vm_compute. reflexivity.
  - vm_compute. reflexivity.
  - vm_compute. reflexivity.
  - vm_compute. reflexivity.
Defined.

Lemma generate_report_twice_same_run :
  let first := generate_report fromstring module_dir "<full/>" "out/x"
                 start in
  let second := generate_report fromstring module_dir "<full/>" "out/x"
                  first.2 in
  FS.exists_ disk "out/x" = false
  ∧ first.1 = inr () ∧ second.1 = inr () ∧ w_fs second.2 = w_fs first.2.
Proof.
  intros first second. split; [vm_compute; reflexivity|].
  apply (generate_report_twice_same fromstring module_dir "<full/>" "out/x"
           ["work"; "out"; "x"] full_doc template full_report start).
  - exact disk_well_formed.
  - vm_compute. reflexivity.
  - vm_compute. reflexivity.
  - exact out_x_usable.
  - vm_compute. discriminate.
  - reflexivity.
  - vm_compute. reflexivity.
Defined.

Lemma generate_report_empty_output_dir_run :
  fromstring "<full/>" = Some full_doc
  ∧ generate_report fromstring module_dir "<full/>" "" start
    = (inl (FileNotFoundError ""), start).
Proof.
  split; [reflexivity|].
  apply (generate_report_empty_output_dir fromstring module_dir "<full/>"
           full_doc template full_report start).
  - reflexivity.
  - vm_compute. reflexivity.
  - vm_compute. reflexivity.
  - vm_compute. reflexivity.
Defined.

Lemma main_no_report_run :
  is_error (inl OpenAIError : result OpenAI)
  ∧ is_error
      (main fromstring (inl OpenAIError) service module_dir "a.py" "out"
         start).1
  ∧ w_fs
      (main fromstring (inl OpenAIError) service module_dir "a.py" "out"
         start).2
    = disk.
Proof.
  assert (is_error (inl OpenAIError : result OpenAI)) as Hclient
    by (by exists OpenAIError).
  split; [exact Hclient|].
  apply (main_no_report fromstring (inl OpenAIError) service module_dir
           "a.py" "out" start).
  left. exact Hclient.
Defined.

Lemma main_writes_report_run :
  let run := main fromstring (inr Client) service module_dir "a.py" "out/x"
               start in
  FS.exists_ disk "out/x" = false
  ∧ run.1 = inr ()
  ∧ FS.stat (w_fs run.2) "out/x/code_review.html" = inr (File full_report)
  ∧ w_requests run.2
    = [review_request ("1: a" +:+ nl +:+ "2: b" +:+ nl)].
Proof.
  intros run. split; [vm_compute; reflexivity|].
  destruct (main_writes_report fromstring (inr Client) service module_dir
              "a.py" "out/x" ["work"; "out"; "x"] Client source "<full/>"
              full_doc template full_report start)
    as (Hok & Hfile & numbered & Hget & Hreq).
  - reflexivity.
  - vm_compute. reflexivity.
  - vm_compute. reflexivity.
  - intros req. exists []. reflexivity.
  - reflexivity.
  - vm_compute. reflexivity.
  - vm_compute. reflexivity.
  - vm_compute. reflexivity.
  - exact disk_well_formed.
  - exact out_x_usable.
  - vm_compute. discriminate.
  - split; [exact Hok|]. split; [exact Hfile|].
    fold run in Hreq. rewrite Hreq. rewrite get_file_two_lines in Hget.
    injection Hget as <-. reflexivity.
Defined.

End MoreRuns.
